(** * compare_images.py : question extraction and difference evaluation

    A shallow embedding of [src/compare_images.py].

    - Part 1 models the Python [str] operations the program uses.
    - Part 2 models [json.loads].
    - Part 3 is the fallback chain of [get_comparison_questions]
      (lines 71-113).
    - Part 4 is a small state-and-exception monad in which
      [execute_visprog_comparison], [get_comparison_questions] and
      [compare_images] are written, with the collaborators of the
      program (file system, HTTP transport, VisProg interpreter) as an
      interface.
    - Part 5 holds the theorems on the claims, Part 6 further
      properties of the code. *)

From Stdlib Require Import List NArith ZArith Bool Lia String Ascii.
From Stdlib Require Import DecimalString.
Import ListNotations.

Set Implicit Arguments.

(* ================================================================== *)
(** * Part 1.  Python strings                                          *)
(* ================================================================== *)

(** A Python [str] is a sequence of Unicode code points. *)
Definition pystr := list N.

(** [py "abc"] is the [str] literal written in the source. *)
Definition py (s : string) : pystr :=
  List.map N_of_ascii (list_ascii_of_string s).

(** [pyq] is [py], with every apostrophe of the literal standing for a
    double quote (code point 34): JSON text is written with it. *)
Definition pyq (s : string) : pystr :=
  List.map (fun c => if N.eqb c 39 then 34%N else c) (py s).

(** The one-character string for a line feed. *)
Definition nl : pystr := [10%N].

(** [==] on [str]. *)
Fixpoint str_eqb (a b : pystr) : bool :=
  match a, b with
  | [], [] => true
  | x :: a', y :: b' => N.eqb x y && str_eqb a' b'
  | _, _ => false
  end.

(** [c in chars], for a character [c]. *)
Fixpoint char_in (c : N) (chars : pystr) : bool :=
  match chars with
  | [] => false
  | d :: t => N.eqb c d || char_in c t
  end.

(** [str.isspace] on one code point: the characters [str.strip()]
    removes. *)
Definition is_space (c : N) : bool :=
  (N.leb 9 c && N.leb c 13) || (N.leb 28 c && N.leb c 32)
  || N.eqb c 133 || N.eqb c 160 || N.eqb c 5760
  || (N.leb 8192 c && N.leb c 8202)
  || N.eqb c 8232 || N.eqb c 8233 || N.eqb c 8239
  || N.eqb c 8287 || N.eqb c 12288.

(** The line boundaries of [str.splitlines]. *)
Definition is_linebreak (c : N) : bool :=
  (N.leb 10 c && N.leb c 13) || (N.leb 28 c && N.leb c 30)
  || N.eqb c 133 || N.eqb c 8232 || N.eqb c 8233.

Section Strip.
Variable drop : N -> bool.

Fixpoint lstrip_by (s : pystr) : pystr :=
  match s with
  | [] => []
  | c :: t => if drop c then lstrip_by t else s
  end.

Definition rstrip_by (s : pystr) : pystr := rev (lstrip_by (rev s)).

Definition strip_by (s : pystr) : pystr := rstrip_by (lstrip_by s).
End Strip.

(** [s.strip()] *)
Definition strip (s : pystr) : pystr := strip_by is_space s.

(** [s.strip(chars)]: [chars] is a set of characters, not a prefix. *)
Definition strip_chars (chars s : pystr) : pystr :=
  strip_by (fun c => char_in c chars) s.

(** [s.startswith(p)] *)
Fixpoint startswith (p s : pystr) : bool :=
  match p, s with
  | [], _ => true
  | x :: p', y :: s' => N.eqb x y && startswith p' s'
  | _ :: _, [] => false
  end.

(** [s.splitlines()]: [cur] is the current line, reversed. *)
Fixpoint splitlines_from (cur : pystr) (s : pystr) : list pystr :=
  match s with
  | [] => match cur with [] => [] | _ :: _ => [rev cur] end
  | c :: t =>
      if N.eqb c 13 then
        match t with
        | d :: t' =>
            if N.eqb d 10 then rev cur :: splitlines_from [] t'
            else rev cur :: splitlines_from [] t
        | [] => rev cur :: splitlines_from [] t
        end
      else if is_linebreak c then rev cur :: splitlines_from [] t
      else splitlines_from (c :: cur) t
  end.

Definition splitlines (s : pystr) : list pystr := splitlines_from [] s.

(** [s.split(sep, 1)] for a one-character separator: one piece when
    [sep] does not occur, else the text before the first [sep] and
    the text after it. *)
Fixpoint split_once_from (sep : N) (before : pystr) (s : pystr)
  : list pystr :=
  match s with
  | [] => [rev before]
  | c :: t =>
      if N.eqb c sep then [rev before; t]
      else split_once_from sep (c :: before) t
  end.

Definition split_once (sep : N) (s : pystr) : list pystr :=
  split_once_from sep [] s.

(** The tables of the Unicode Character Database [str.lower] reads, for
    Unicode 14.0, the version CPython 3.11 is built with. *)
Module Unicode.

(** The simple lower-case mappings: a run [(first, last, step, image)]
    maps [first], [first + step], ..., [last] to [image],
    [image + step], ... *)
Definition lowercase : list (N * N * N * N) :=
  [(65, 90, 1, 97); (192, 214, 1, 224); (216, 222, 1, 248);
   (256, 302, 2, 257); (306, 310, 2, 307); (313, 327, 2, 314);
   (330, 374, 2, 331); (376, 376, 1, 255); (377, 381, 2, 378);
   (385, 385, 1, 595); (386, 388, 2, 387); (390, 390, 1, 596);
   (391, 391, 1, 392); (393, 394, 1, 598); (395, 395, 1, 396);
   (398, 398, 1, 477); (399, 399, 1, 601); (400, 400, 1, 603);
   (401, 401, 1, 402); (403, 403, 1, 608); (404, 404, 1, 611);
   (406, 406, 1, 617); (407, 407, 1, 616); (408, 408, 1, 409);
   (412, 412, 1, 623); (413, 413, 1, 626); (415, 415, 1, 629);
   (416, 420, 2, 417); (422, 422, 1, 640); (423, 423, 1, 424);
   (425, 425, 1, 643); (428, 428, 1, 429); (430, 430, 1, 648);
   (431, 431, 1, 432); (433, 434, 1, 650); (435, 437, 2, 436);
   (439, 439, 1, 658); (440, 440, 1, 441); (444, 444, 1, 445);
   (452, 452, 1, 454); (453, 453, 1, 454); (455, 455, 1, 457);
   (456, 456, 1, 457); (458, 458, 1, 460); (459, 475, 2, 460);
   (478, 494, 2, 479); (497, 497, 1, 499); (498, 500, 2, 499);
   (502, 502, 1, 405); (503, 503, 1, 447); (504, 542, 2, 505);
   (544, 544, 1, 414); (546, 562, 2, 547); (570, 570, 1, 11365);
   (571, 571, 1, 572); (573, 573, 1, 410); (574, 574, 1, 11366);
   (577, 577, 1, 578); (579, 579, 1, 384); (580, 580, 1, 649);
   (581, 581, 1, 652); (582, 590, 2, 583); (880, 882, 2, 881);
   (886, 886, 1, 887); (895, 895, 1, 1011); (902, 902, 1, 940);
   (904, 906, 1, 941); (908, 908, 1, 972); (910, 911, 1, 973);
   (913, 929, 1, 945); (931, 939, 1, 963); (975, 975, 1, 983);
   (984, 1006, 2, 985); (1012, 1012, 1, 952); (1015, 1015, 1, 1016);
   (1017, 1017, 1, 1010); (1018, 1018, 1, 1019); (1021, 1023, 1, 891);
   (1024, 1039, 1, 1104); (1040, 1071, 1, 1072); (1120, 1152, 2, 1121);
   (1162, 1214, 2, 1163); (1216, 1216, 1, 1231); (1217, 1229, 2, 1218);
   (1232, 1326, 2, 1233); (1329, 1366, 1, 1377); (4256, 4293, 1, 11520);
   (4295, 4295, 1, 11559); (4301, 4301, 1, 11565); (5024, 5103, 1, 43888);
   (5104, 5109, 1, 5112); (7312, 7354, 1, 4304); (7357, 7359, 1, 4349);
   (7680, 7828, 2, 7681); (7838, 7838, 1, 223); (7840, 7934, 2, 7841);
   (7944, 7951, 1, 7936); (7960, 7965, 1, 7952); (7976, 7983, 1, 7968);
   (7992, 7999, 1, 7984); (8008, 8013, 1, 8000); (8025, 8031, 2, 8017);
   (8040, 8047, 1, 8032); (8072, 8079, 1, 8064); (8088, 8095, 1, 8080);
   (8104, 8111, 1, 8096); (8120, 8121, 1, 8112); (8122, 8123, 1, 8048);
   (8124, 8124, 1, 8115); (8136, 8139, 1, 8050); (8140, 8140, 1, 8131);
   (8152, 8153, 1, 8144); (8154, 8155, 1, 8054); (8168, 8169, 1, 8160);
   (8170, 8171, 1, 8058); (8172, 8172, 1, 8165); (8184, 8185, 1, 8056);
   (8186, 8187, 1, 8060); (8188, 8188, 1, 8179); (8486, 8486, 1, 969);
   (8490, 8490, 1, 107); (8491, 8491, 1, 229); (8498, 8498, 1, 8526);
   (8544, 8559, 1, 8560); (8579, 8579, 1, 8580); (9398, 9423, 1, 9424);
   (11264, 11311, 1, 11312); (11360, 11360, 1, 11361);
   (11362, 11362, 1, 619); (11363, 11363, 1, 7549); (11364, 11364, 1, 637);
   (11367, 11371, 2, 11368); (11373, 11373, 1, 593);
   (11374, 11374, 1, 625); (11375, 11375, 1, 592); (11376, 11376, 1, 594);
   (11378, 11378, 1, 11379); (11381, 11381, 1, 11382);
   (11390, 11391, 1, 575); (11392, 11490, 2, 11393);
   (11499, 11501, 2, 11500); (11506, 11506, 1, 11507);
   (42560, 42604, 2, 42561); (42624, 42650, 2, 42625);
   (42786, 42798, 2, 42787); (42802, 42862, 2, 42803);
   (42873, 42875, 2, 42874); (42877, 42877, 1, 7545);
   (42878, 42886, 2, 42879); (42891, 42891, 1, 42892);
   (42893, 42893, 1, 613); (42896, 42898, 2, 42897);
   (42902, 42920, 2, 42903); (42922, 42922, 1, 614);
   (42923, 42923, 1, 604); (42924, 42924, 1, 609); (42925, 42925, 1, 620);
   (42926, 42926, 1, 618); (42928, 42928, 1, 670); (42929, 42929, 1, 647);
   (42930, 42930, 1, 669); (42931, 42931, 1, 43859);
   (42932, 42946, 2, 42933); (42948, 42948, 1, 42900);
   (42949, 42949, 1, 642); (42950, 42950, 1, 7566);
   (42951, 42953, 2, 42952); (42960, 42960, 1, 42961);
   (42966, 42968, 2, 42967); (42997, 42997, 1, 42998);
   (65313, 65338, 1, 65345); (66560, 66599, 1, 66600);
   (66736, 66771, 1, 66776); (66928, 66938, 1, 66967);
   (66940, 66954, 1, 66979); (66956, 66962, 1, 66995);
   (66964, 66965, 1, 67003); (68736, 68786, 1, 68800);
   (71840, 71871, 1, 71872); (93760, 93791, 1, 93792);
   (125184, 125217, 1, 125218)]%N.

(** The property [Cased], as intervals [(first, last)]. *)
Definition cased : list (N * N) :=
  [(65, 90); (97, 122); (170, 170); (181, 181); (186, 186); (192, 214);
   (216, 246); (248, 442); (444, 447); (452, 659); (661, 696); (704, 705);
   (736, 740); (837, 837); (880, 883); (886, 887); (890, 893); (895, 895);
   (902, 902); (904, 906); (908, 908); (910, 929); (931, 1013);
   (1015, 1153); (1162, 1327); (1329, 1366); (1376, 1416); (4256, 4293);
   (4295, 4295); (4301, 4301); (4304, 4346); (4349, 4351); (5024, 5109);
   (5112, 5117); (7296, 7304); (7312, 7354); (7357, 7359); (7424, 7615);
   (7680, 7957); (7960, 7965); (7968, 8005); (8008, 8013); (8016, 8023);
   (8025, 8025); (8027, 8027); (8029, 8029); (8031, 8061); (8064, 8116);
   (8118, 8124); (8126, 8126); (8130, 8132); (8134, 8140); (8144, 8147);
   (8150, 8155); (8160, 8172); (8178, 8180); (8182, 8188); (8305, 8305);
   (8319, 8319); (8336, 8348); (8450, 8450); (8455, 8455); (8458, 8467);
   (8469, 8469); (8473, 8477); (8484, 8484); (8486, 8486); (8488, 8488);
   (8490, 8493); (8495, 8500); (8505, 8505); (8508, 8511); (8517, 8521);
   (8526, 8526); (8544, 8575); (8579, 8580); (9398, 9449); (11264, 11492);
   (11499, 11502); (11506, 11507); (11520, 11557); (11559, 11559);
   (11565, 11565); (42560, 42605); (42624, 42653); (42786, 42887);
   (42891, 42894); (42896, 42954); (42960, 42961); (42963, 42963);
   (42965, 42969); (42997, 42998); (43000, 43002); (43824, 43866);
   (43868, 43880); (43888, 43967); (64256, 64262); (64275, 64279);
   (65313, 65338); (65345, 65370); (66560, 66639); (66736, 66771);
   (66776, 66811); (66928, 66938); (66940, 66954); (66956, 66962);
   (66964, 66965); (66967, 66977); (66979, 66993); (66995, 67001);
   (67003, 67004); (67456, 67456); (67459, 67461); (67463, 67504);
   (67506, 67514); (68736, 68786); (68800, 68850); (71840, 71903);
   (93760, 93823); (119808, 119892); (119894, 119964); (119966, 119967);
   (119970, 119970); (119973, 119974); (119977, 119980); (119982, 119993);
   (119995, 119995); (119997, 120003); (120005, 120069); (120071, 120074);
   (120077, 120084); (120086, 120092); (120094, 120121); (120123, 120126);
   (120128, 120132); (120134, 120134); (120138, 120144); (120146, 120485);
   (120488, 120512); (120514, 120538); (120540, 120570); (120572, 120596);
   (120598, 120628); (120630, 120654); (120656, 120686); (120688, 120712);
   (120714, 120744); (120746, 120770); (120772, 120779); (122624, 122633);
   (122635, 122654); (125184, 125251); (127280, 127305); (127312, 127337);
   (127344, 127369)]%N.

(** The property [Case_Ignorable], as intervals [(first, last)]. *)
Definition case_ignorable : list (N * N) :=
  [(39, 39); (46, 46); (58, 58); (94, 94); (96, 96); (168, 168);
   (173, 173); (175, 175); (180, 180); (183, 184); (688, 879); (884, 885);
   (890, 890); (900, 901); (903, 903); (1155, 1161); (1369, 1369);
   (1375, 1375); (1425, 1469); (1471, 1471); (1473, 1474); (1476, 1477);
   (1479, 1479); (1524, 1524); (1536, 1541); (1552, 1562); (1564, 1564);
   (1600, 1600); (1611, 1631); (1648, 1648); (1750, 1757); (1759, 1768);
   (1770, 1773); (1807, 1807); (1809, 1809); (1840, 1866); (1958, 1968);
   (2027, 2037); (2042, 2042); (2045, 2045); (2070, 2093); (2137, 2139);
   (2184, 2184); (2192, 2193); (2200, 2207); (2249, 2306); (2362, 2362);
   (2364, 2364); (2369, 2376); (2381, 2381); (2385, 2391); (2402, 2403);
   (2417, 2417); (2433, 2433); (2492, 2492); (2497, 2500); (2509, 2509);
   (2530, 2531); (2558, 2558); (2561, 2562); (2620, 2620); (2625, 2626);
   (2631, 2632); (2635, 2637); (2641, 2641); (2672, 2673); (2677, 2677);
   (2689, 2690); (2748, 2748); (2753, 2757); (2759, 2760); (2765, 2765);
   (2786, 2787); (2810, 2815); (2817, 2817); (2876, 2876); (2879, 2879);
   (2881, 2884); (2893, 2893); (2901, 2902); (2914, 2915); (2946, 2946);
   (3008, 3008); (3021, 3021); (3072, 3072); (3076, 3076); (3132, 3132);
   (3134, 3136); (3142, 3144); (3146, 3149); (3157, 3158); (3170, 3171);
   (3201, 3201); (3260, 3260); (3263, 3263); (3270, 3270); (3276, 3277);
   (3298, 3299); (3328, 3329); (3387, 3388); (3393, 3396); (3405, 3405);
   (3426, 3427); (3457, 3457); (3530, 3530); (3538, 3540); (3542, 3542);
   (3633, 3633); (3636, 3642); (3654, 3662); (3761, 3761); (3764, 3772);
   (3782, 3782); (3784, 3789); (3864, 3865); (3893, 3893); (3895, 3895);
   (3897, 3897); (3953, 3966); (3968, 3972); (3974, 3975); (3981, 3991);
   (3993, 4028); (4038, 4038); (4141, 4144); (4146, 4151); (4153, 4154);
   (4157, 4158); (4184, 4185); (4190, 4192); (4209, 4212); (4226, 4226);
   (4229, 4230); (4237, 4237); (4253, 4253); (4348, 4348); (4957, 4959);
   (5906, 5908); (5938, 5939); (5970, 5971); (6002, 6003); (6068, 6069);
   (6071, 6077); (6086, 6086); (6089, 6099); (6103, 6103); (6109, 6109);
   (6155, 6159); (6211, 6211); (6277, 6278); (6313, 6313); (6432, 6434);
   (6439, 6440); (6450, 6450); (6457, 6459); (6679, 6680); (6683, 6683);
   (6742, 6742); (6744, 6750); (6752, 6752); (6754, 6754); (6757, 6764);
   (6771, 6780); (6783, 6783); (6823, 6823); (6832, 6862); (6912, 6915);
   (6964, 6964); (6966, 6970); (6972, 6972); (6978, 6978); (7019, 7027);
   (7040, 7041); (7074, 7077); (7080, 7081); (7083, 7085); (7142, 7142);
   (7144, 7145); (7149, 7149); (7151, 7153); (7212, 7219); (7222, 7223);
   (7288, 7293); (7376, 7378); (7380, 7392); (7394, 7400); (7405, 7405);
   (7412, 7412); (7416, 7417); (7468, 7530); (7544, 7544); (7579, 7679);
   (8125, 8125); (8127, 8129); (8141, 8143); (8157, 8159); (8173, 8175);
   (8189, 8190); (8203, 8207); (8216, 8217); (8228, 8228); (8231, 8231);
   (8234, 8238); (8288, 8292); (8294, 8303); (8305, 8305); (8319, 8319);
   (8336, 8348); (8400, 8432); (11388, 11389); (11503, 11505);
   (11631, 11631); (11647, 11647); (11744, 11775); (11823, 11823);
   (12293, 12293); (12330, 12333); (12337, 12341); (12347, 12347);
   (12441, 12446); (12540, 12542); (40981, 40981); (42232, 42237);
   (42508, 42508); (42607, 42610); (42612, 42621); (42623, 42623);
   (42652, 42655); (42736, 42737); (42752, 42785); (42864, 42864);
   (42888, 42890); (42994, 42996); (43000, 43001); (43010, 43010);
   (43014, 43014); (43019, 43019); (43045, 43046); (43052, 43052);
   (43204, 43205); (43232, 43249); (43263, 43263); (43302, 43309);
   (43335, 43345); (43392, 43394); (43443, 43443); (43446, 43449);
   (43452, 43453); (43471, 43471); (43493, 43494); (43561, 43566);
   (43569, 43570); (43573, 43574); (43587, 43587); (43596, 43596);
   (43632, 43632); (43644, 43644); (43696, 43696); (43698, 43700);
   (43703, 43704); (43710, 43711); (43713, 43713); (43741, 43741);
   (43756, 43757); (43763, 43764); (43766, 43766); (43867, 43871);
   (43881, 43883); (44005, 44005); (44008, 44008); (44013, 44013);
   (64286, 64286); (64434, 64450); (65024, 65039); (65043, 65043);
   (65056, 65071); (65106, 65106); (65109, 65109); (65279, 65279);
   (65287, 65287); (65294, 65294); (65306, 65306); (65342, 65342);
   (65344, 65344); (65392, 65392); (65438, 65439); (65507, 65507);
   (65529, 65531); (66045, 66045); (66272, 66272); (66422, 66426);
   (67456, 67461); (67463, 67504); (67506, 67514); (68097, 68099);
   (68101, 68102); (68108, 68111); (68152, 68154); (68159, 68159);
   (68325, 68326); (68900, 68903); (69291, 69292); (69446, 69456);
   (69506, 69509); (69633, 69633); (69688, 69702); (69744, 69744);
   (69747, 69748); (69759, 69761); (69811, 69814); (69817, 69818);
   (69821, 69821); (69826, 69826); (69837, 69837); (69888, 69890);
   (69927, 69931); (69933, 69940); (70003, 70003); (70016, 70017);
   (70070, 70078); (70089, 70092); (70095, 70095); (70191, 70193);
   (70196, 70196); (70198, 70199); (70206, 70206); (70367, 70367);
   (70371, 70378); (70400, 70401); (70459, 70460); (70464, 70464);
   (70502, 70508); (70512, 70516); (70712, 70719); (70722, 70724);
   (70726, 70726); (70750, 70750); (70835, 70840); (70842, 70842);
   (70847, 70848); (70850, 70851); (71090, 71093); (71100, 71101);
   (71103, 71104); (71132, 71133); (71219, 71226); (71229, 71229);
   (71231, 71232); (71339, 71339); (71341, 71341); (71344, 71349);
   (71351, 71351); (71453, 71455); (71458, 71461); (71463, 71467);
   (71727, 71735); (71737, 71738); (71995, 71996); (71998, 71998);
   (72003, 72003); (72148, 72151); (72154, 72155); (72160, 72160);
   (72193, 72202); (72243, 72248); (72251, 72254); (72263, 72263);
   (72273, 72278); (72281, 72283); (72330, 72342); (72344, 72345);
   (72752, 72758); (72760, 72765); (72767, 72767); (72850, 72871);
   (72874, 72880); (72882, 72883); (72885, 72886); (73009, 73014);
   (73018, 73018); (73020, 73021); (73023, 73029); (73031, 73031);
   (73104, 73105); (73109, 73109); (73111, 73111); (73459, 73460);
   (78896, 78904); (92912, 92916); (92976, 92982); (92992, 92995);
   (94031, 94031); (94095, 94111); (94176, 94177); (94179, 94180);
   (110576, 110579); (110581, 110587); (110589, 110590); (113821, 113822);
   (113824, 113827); (118528, 118573); (118576, 118598); (119143, 119145);
   (119155, 119170); (119173, 119179); (119210, 119213); (119362, 119364);
   (121344, 121398); (121403, 121452); (121461, 121461); (121476, 121476);
   (121499, 121503); (121505, 121519); (122880, 122886); (122888, 122904);
   (122907, 122913); (122915, 122916); (122918, 122922); (123184, 123197);
   (123566, 123566); (123628, 123631); (125136, 125142); (125252, 125259);
   (127995, 127999); (917505, 917505); (917536, 917631);
   (917760, 917999)]%N.

End Unicode.

(** [c] lies in one of the intervals. *)
Definition in_intervals (intervals : list (N * N)) (c : N) : bool :=
  existsb (fun '(first, last) => N.leb first c && N.leb c last) intervals.

(** [_PyUnicode_IsCased] and [_PyUnicode_IsCaseIgnorable]. *)
Definition is_cased (c : N) : bool := in_intervals Unicode.cased c.

Definition is_case_ignorable (c : N) : bool :=
  in_intervals Unicode.case_ignorable c.

(** The simple lower-case mapping of [c], when it has one. *)
Fixpoint simple_lower (runs : list (N * N * N * N)) (c : N) : option N :=
  match runs with
  | [] => None
  | (first, last, step, image) :: rest =>
      if N.leb first c && N.leb c last
         && N.eqb ((c - first) mod step) 0
      then Some (image + (c - first))%N
      else simple_lower rest c
  end.

(** [_PyUnicode_ToLowerFull]: the lower case of one code point.  It
    is one code point, but for U+0130, capital I with a dot above,
    which becomes an [i] and a combining dot. *)
Definition to_lower_full (c : N) : pystr :=
  if N.eqb c 304 then [105; 775]%N
  else match simple_lower Unicode.lowercase c with
       | Some d => [d]
       | None => [c]
       end.

(** The first code point of [s] that is not case-ignorable. *)
Fixpoint first_not_ignorable (s : pystr) : option N :=
  match s with
  | [] => None
  | c :: t => if is_case_ignorable c then first_not_ignorable t else Some c
  end.

(** [handle_capital_sigma]: a capital sigma ends a word when a cased
    letter comes before it and none after it, case-ignorable
    characters apart.  [before] is the text before the sigma, last
    character first. *)
Definition final_sigma (before after : pystr) : bool :=
  match first_not_ignorable before with
  | Some c =>
      is_cased c
      && match first_not_ignorable after with
         | Some d => negb (is_cased d)
         | None => true
         end
  | None => false
  end.

(** [lower_ucs4]: the lower case of [c] where it stands. *)
Definition lower_at (before : pystr) (c : N) (after : pystr) : pystr :=
  if N.eqb c 931 then [if final_sigma before after then 962 else 963]%N
  else to_lower_full c.

Fixpoint lower_from (before : pystr) (s : pystr) : pystr :=
  match s with
  | [] => []
  | c :: t => lower_at before c t ++ lower_from (c :: before) t
  end.

(** [s.lower()] *)
Definition lower (s : pystr) : pystr := lower_from [] s.

(** [len(s) > 0] *)
Definition nonempty (s : pystr) : bool :=
  match s with [] => false | _ :: _ => true end.

(* ================================================================== *)
(** * Part 2.  Python values, exceptions, [json.loads]                  *)
(* ================================================================== *)

(** The Python objects [json.loads] builds.  A [float] is kept as the
    literal it was read from (its binary value is not modelled); a
    [dict] is its items in insertion order. *)
#[warnings="-register-all"] Inductive pyval : Type :=
| PNone
| PBool (b : bool)
| PInt (z : Z)
| PFloat (literal : pystr)
| PStr (s : pystr)
| PList (items : list pyval)
| PDict (items : list (pystr * pyval)).

(** Instances of subclasses of [Exception], with their message. *)
Inductive exn : Type :=
| JSONDecodeError (msg : pystr)
| RecursionError
| IndexError
| FileNotFoundError (msg : pystr)
| RuntimeError (msg : pystr)
| OtherException (msg : pystr).

(** [isinstance(v, list)] *)
Definition is_list (v : pyval) : bool :=
  match v with PList _ => true | _ => false end.

Module Json.

(** The decoder of CPython's [json] package ([json/decoder.py] and
    the scanner of [_json.c]), on the rest of the input instead of
    an index into it.  Positions in error messages are left out. *)

Definition fail {A : Type} (msg : string) : exn + A :=
  inl (JSONDecodeError (py msg)).

(** [WHITESPACE]: space, tab, line feed, carriage return. *)
Definition is_ws (c : N) : bool :=
  N.eqb c 32 || N.eqb c 9 || N.eqb c 10 || N.eqb c 13.

Definition skip_ws (s : pystr) : pystr := lstrip_by is_ws s.

Definition is_digit (c : N) : bool := N.leb 48 c && N.leb c 57.

Definition hex_digit (c : N) : option N :=
  if is_digit c then Some (c - 48)%N
  else if N.leb 97 c && N.leb c 102 then Some (c - 87)%N
  else if N.leb 65 c && N.leb c 70 then Some (c - 55)%N
  else None.

Definition hex4 (a b c d : N) : option N :=
  match hex_digit a, hex_digit b, hex_digit c, hex_digit d with
  | Some x, Some y, Some z, Some w =>
      Some (((x * 16 + y) * 16 + z) * 16 + w)%N
  | _, _, _, _ => None
  end.

Definition is_high_surrogate (c : N) : bool :=
  N.leb 55296 c && N.leb c 56319.

Definition is_low_surrogate (c : N) : bool :=
  N.leb 56320 c && N.leb c 57343.

Definition join_surrogates (hi lo : N) : N :=
  (65536 + ((hi - 55296) * 1024 + (lo - 56320)))%N.

(** The one-character escapes. *)
Definition unescape (c : N) : option N :=
  if N.eqb c 34 then Some 34%N          (* quote *)
  else if N.eqb c 92 then Some 92%N     (* backslash *)
  else if N.eqb c 47 then Some 47%N     (* slash *)
  else if N.eqb c 98 then Some 8%N      (* b: backspace *)
  else if N.eqb c 102 then Some 12%N    (* f: form feed *)
  else if N.eqb c 110 then Some 10%N    (* n: line feed *)
  else if N.eqb c 114 then Some 13%N    (* r: carriage return *)
  else if N.eqb c 116 then Some 9%N     (* t: tab *)
  else None.

(** [scanstring], strict, from just after the opening quote: the
    decoded string and the input after the closing quote. *)
Fixpoint scanstring (acc : pystr) (s : pystr) {struct s}
  : exn + (pystr * pystr) :=
  match s with
  | [] => fail "Unterminated string starting at"
  | c :: t =>
      if N.eqb c 34 then inr (rev acc, t)
      else if N.eqb c 92 then
        match t with
        | [] => fail "Unterminated string starting at"
        | e :: t1 =>
            if N.eqb e 117 then
              match t1 with
              | h1 :: h2 :: h3 :: h4 :: t2 =>
                  match t2 with
                  | [] => fail "Invalid \uXXXX escape"
                  | _ :: _ =>
                      match hex4 h1 h2 h3 h4 with
                      | None => fail "Invalid \uXXXX escape"
                      | Some uni =>
                          if is_high_surrogate uni then
                            match t2 with
                            | b :: u :: g1 :: g2 :: g3 :: g4 :: t3 =>
                                match t3 with
                                | [] => scanstring (uni :: acc) t2
                                | _ :: _ =>
                                    if N.eqb b 92 && N.eqb u 117 then
                                      match hex4 g1 g2 g3 g4 with
                                      | None => fail "Invalid \uXXXX escape"
                                      | Some uni2 =>
                                          if is_low_surrogate uni2
                                          then scanstring
                                                 (join_surrogates uni uni2 :: acc) t3
                                          else scanstring (uni :: acc) t2
                                      end
                                    else scanstring (uni :: acc) t2
                                end
                            | _ => scanstring (uni :: acc) t2
                            end
                          else scanstring (uni :: acc) t2
                      end
                  end
              | _ => fail "Invalid \uXXXX escape"
              end
            else
              match unescape e with
              | Some ch => scanstring (ch :: acc) t1
              | None => fail "Invalid \escape"
              end
        end
      else if N.leb c 31 then fail "Invalid control character at"
      else scanstring (c :: acc) t
  end.

(** The digits at the head of the input, and what follows them. *)
Fixpoint span_digits (s : pystr) : pystr * pystr :=
  match s with
  | c :: t =>
      if is_digit c
      then let '(ds, r) := span_digits t in (c :: ds, r)
      else ([], s)
  | [] => ([], [])
  end.

(** [int(digits)] for a run of decimal digits. *)
Definition int_of_digits (ds : pystr) : Z :=
  fold_left (fun acc c => (acc * 10 + Z.of_N (c - 48))%Z) ds 0%Z.

(** The integer part: [0], or a digit 1-9 and more digits. *)
Definition match_integer (s : pystr) : option (pystr * pystr) :=
  match s with
  | c :: t =>
      if N.leb 49 c && N.leb c 57
      then let '(ds, r) := span_digits t in Some (c :: ds, r)
      else if N.eqb c 48 then Some ([c], t)
      else None
  | [] => None
  end.

(** The fraction: a period and at least one digit, else nothing. *)
Definition match_frac (s : pystr) : pystr * pystr :=
  match s with
  | c :: t =>
      if N.eqb c 46 then
        match span_digits t with
        | ([], _) => ([], s)
        | (ds, r) => (c :: ds, r)
        end
      else ([], s)
  | [] => ([], s)
  end.

(** The exponent: [e] or [E], a sign if any, at least one digit;
    without a digit the scanner backtracks to before the [e]. *)
Definition match_exp (s : pystr) : pystr * pystr :=
  match s with
  | c :: t =>
      if N.eqb c 101 || N.eqb c 69 then
        match t with
        | g :: t' =>
            if N.eqb g 45 || N.eqb g 43 then
              match span_digits t' with
              | ([], _) => ([], s)
              | (ds, r) => (c :: g :: ds, r)
              end
            else
              match span_digits t with
              | ([], _) => ([], s)
              | (ds, r) => (c :: ds, r)
              end
        | [] => ([], s)
        end
      else ([], s)
  | [] => ([], s)
  end.

(** [_match_number]: an [int] when there is neither fraction nor
    exponent, a [float] otherwise. *)
Definition match_number (s : pystr) : exn + (pyval * pystr) :=
  let '(neg, s1) :=
    match s with
    | c :: t => if N.eqb c 45 then (true, t) else (false, s)
    | [] => (false, s)
    end in
  match match_integer s1 with
  | None => fail "Expecting value"
  | Some (ds, r) =>
      let '(frac, r1) := match_frac r in
      let '(ex, r2) := match_exp r1 in
      match frac, ex with
      | [], [] =>
          inr (PInt (if neg then - int_of_digits ds
                     else int_of_digits ds)%Z, r2)
      | _, _ =>
          inr (PFloat ((if neg then [45%N] else []) ++ ds ++ frac ++ ex),
               r2)
      end
  end.

(** [dict[key] = value]: the first insertion of a key fixes its
    place, a later one replaces the value. *)
Fixpoint dict_set (d : list (pystr * pyval)) (k : pystr) (v : pyval)
  : list (pystr * pyval) :=
  match d with
  | [] => [(k, v)]
  | (k', v') :: d' =>
      if str_eqb k k' then (k, v) :: d' else (k', v') :: dict_set d' k v
  end.

(** [scan_once] and the loops of the array and object parsers.  The
    fuel bounds the nesting; running out of it is Python's
    [RecursionError]. *)
Fixpoint scan_once (fuel : nat) (s : pystr) {struct fuel}
  : exn + (pyval * pystr) :=
  match fuel with
  | O => inl RecursionError
  | S f =>
      match s with
      | [] => fail "Expecting value"
      | c :: t =>
          if N.eqb c 34 then
            match scanstring [] t with
            | inl e => inl e
            | inr (str, r) => inr (PStr str, r)
            end
          else if N.eqb c 123 then
            match skip_ws t with
            | d :: r =>
                if N.eqb d 125 then inr (PDict [], r)
                else object_items f [] (d :: r)
            | [] => object_items f [] []
            end
          else if N.eqb c 91 then
            match skip_ws t with
            | d :: r =>
                if N.eqb d 93 then inr (PList [], r)
                else array_items f [] (d :: r)
            | [] => array_items f [] []
            end
          else if startswith (py "null") s then inr (PNone, skipn 4 s)
          else if startswith (py "true") s
               then inr (PBool true, skipn 4 s)
          else if startswith (py "false") s
               then inr (PBool false, skipn 5 s)
          else if startswith (py "NaN") s
               then inr (PFloat (py "NaN"), skipn 3 s)
          else if startswith (py "Infinity") s
               then inr (PFloat (py "Infinity"), skipn 8 s)
          else if startswith (py "-Infinity") s
               then inr (PFloat (py "-Infinity"), skipn 9 s)
          else match_number s
      end
  end

with array_items (fuel : nat) (acc : list pyval) (s : pystr)
     {struct fuel} : exn + (pyval * pystr) :=
  match fuel with
  | O => inl RecursionError
  | S f =>
      match scan_once f s with
      | inl e => inl e
      | inr (v, r) =>
          match skip_ws r with
          | c :: r' =>
              if N.eqb c 93 then inr (PList (rev (v :: acc)), r')
              else if N.eqb c 44
                   then array_items f (v :: acc) (skip_ws r')
              else fail "Expecting ',' delimiter"
          | [] => fail "Expecting ',' delimiter"
          end
      end
  end

with object_items (fuel : nat) (acc : list (pystr * pyval)) (s : pystr)
     {struct fuel} : exn + (pyval * pystr) :=
  match fuel with
  | O => inl RecursionError
  | S f =>
      match s with
      | q :: t =>
          if N.eqb q 34 then
            match scanstring [] t with
            | inl e => inl e
            | inr (key, r) =>
                match skip_ws r with
                | c :: r1 =>
                    if N.eqb c 58 then
                      match scan_once f (skip_ws r1) with
                      | inl e => inl e
                      | inr (v, r2) =>
                          match skip_ws r2 with
                          | d :: r3 =>
                              if N.eqb d 125
                              then inr (PDict (dict_set acc key v), r3)
                              else if N.eqb d 44
                                   then object_items f (dict_set acc key v)
                                                     (skip_ws r3)
                              else fail "Expecting ',' delimiter"
                          | [] => fail "Expecting ',' delimiter"
                          end
                      end
                    else fail "Expecting ':' delimiter"
                | [] => fail "Expecting ':' delimiter"
                end
            end
          else fail "Expecting property name enclosed in double quotes"
      | [] => fail "Expecting property name enclosed in double quotes"
      end
  end.

(** [JSONDecoder.decode]: one value between optional whitespace. *)
Definition decode (s : pystr) : exn + pyval :=
  match scan_once (2 * List.length s + 2) (skip_ws s) with
  | inl e => inl e
  | inr (obj, r) =>
      match skip_ws r with
      | [] => inr obj
      | _ :: _ => fail "Extra data"
      end
  end.

(** [json.loads(s)] for a [str]. *)
Definition loads (s : pystr) : exn + pyval :=
  if startswith [65279%N] s then fail "Unexpected UTF-8 BOM (decode using utf-8-sig)"
  else decode s.

End Json.

(* ================================================================== *)
(** * Part 3.  The fallback chain of [get_comparison_questions]         *)
(* ================================================================== *)

(** How a block of statements ends: control reaches the statement
    after it, it executes [return], or an exception leaves it. *)
Inductive ending (A : Type) : Type :=
| Next
| Return (a : A)
| Raise (e : exn).

Arguments Next {A}.
Arguments Return {A} a.
Arguments Raise {A} e.

(** [try: body / except Exception as e: print(...)]: the handlers of
    the chain print a diagnostic and let control go on.  [try_print]
    is where control goes; the line printed is [handler_prints] of
    Part 4. *)
Definition try_print {A : Type} (body : ending A) : ending A :=
  match body with
  | Raise _ => Next
  | other => other
  end.

(** A block followed by the rest of the function body. *)
Definition or_else {A : Type} (block : ending A) (rest : exn + A)
  : exn + A :=
  match block with
  | Next => rest
  | Return a => inr a
  | Raise e => inl e
  end.

(** [l[1]] *)
Definition index1 (l : list pystr) : exn + pystr :=
  match nth_error l 1 with
  | Some x => inr x
  | None => inl IndexError
  end.

(** [line.split('.', 1)[1].strip()] *)
Definition after_period (line : pystr) : exn + pystr :=
  match index1 (split_once 46 line) with
  | inl e => inl e
  | inr x => inr (strip x)
  end.

(** The list comprehension of lines 97-100: the condition
    ['.' in line and len(line.split('.', 1)[1].strip()) > 0], then the
    element [line.split('.', 1)[1].strip()]. *)
Fixpoint numbered_items (lines : list pystr) : exn + list pystr :=
  match lines with
  | [] => inr []
  | line :: rest =>
      if char_in 46 line then
        match after_period line with
        | inl e => inl e
        | inr x =>
            if nonempty x then
              match after_period line with
              | inl e => inl e
              | inr q =>
                  match numbered_items rest with
                  | inl e => inl e
                  | inr qs => inr (q :: qs)
                  end
              end
            else numbered_items rest
        end
      else numbered_items rest
  end.

(** The list the function returns when nothing parses. *)
Definition fallback_questions : list pyval :=
  [ PStr (py "What objects are visible in the image?");
    PStr (py "What are the main colors present?");
    PStr (py "What actions or activities are occurring?");
    PStr (py "Describe the setting or background.") ].

Section Extraction.

(** [json.loads]; [Json.loads] is the instance the examples run. *)
Variable json_loads : pystr -> exn + pyval.

(** [json.loads(stripped)], then
    [if isinstance(questions, list): return questions].  A Python
    list is given by its items. *)
Definition loads_list (stripped : pystr) : ending (list pyval) :=
  match json_loads stripped with
  | inl e => Raise e
  | inr (PList questions) => Return questions
  | inr _ => Next
  end.

(** Lines 72-76, the body of the first [try]. *)
Definition fenced_json (content : pystr) : ending (list pyval) :=
  if startswith (py "```json") (strip content) then
    loads_list
      (strip (strip_chars (py "```")
                (strip_chars (py "```json") (strip content))))
  else Next.

(** Lines 82-90, the body of the second [try]. *)
Definition raw_json (content : pystr) : ending (list pyval) :=
  let stripped := strip content in
  let stripped :=
    if startswith (py "```json") stripped then
      strip (strip_chars (py "```") (strip_chars (py "```json") stripped))
    else if startswith (py "```") stripped then
      strip (strip_chars (py "```") stripped)
    else stripped in
  loads_list stripped.

(** Lines 96-102, the body of the third [try]. *)
Definition numbered_list (content : pystr) : ending (list pyval) :=
  let lines := splitlines (strip content) in
  match numbered_items lines with
  | inl e => Raise e
  | inr questions =>
      if Nat.leb 3 (List.length questions)
      then Return (List.map PStr questions)
      else Next
  end.

(** Lines 71-113: what [get_comparison_questions] returns for the
    completion text [content].  What it prints on the way is
    [extraction_prints] of Part 4. *)
Definition extract_questions (content : pystr) : exn + list pyval :=
  or_else (try_print (fenced_json content))
    (or_else (try_print (raw_json content))
       (or_else (try_print (numbered_list content))
          (inr fallback_questions))).

End Extraction.

(** [ResponseTextExtractor.extract] of the specification. *)
Definition extract (content : pystr) : exn + list pyval :=
  extract_questions Json.loads content.

(** The same chain as the specification words it.  *)
Module Spec.

(** The text after the first period of a line, if it has one. *)
Fixpoint after_first_period (line : pystr) : option pystr :=
  match line with
  | [] => None
  | c :: t => if N.eqb c 46 then Some t else after_first_period t
  end.

(** Step 3: for every line with a period, the text after the first
    period, trimmed, when that is not empty; in source order. *)
Fixpoint candidates (lines : list pystr) : list pystr :=
  match lines with
  | [] => []
  | line :: rest =>
      match after_first_period line with
      | Some text =>
          match strip text with
          | [] => candidates rest
          | q => q :: candidates rest
          end
      | None => candidates rest
      end
  end.

(** The two ways a JSON array may be handed over. *)
Definition fenced (array_text : pystr) : pystr :=
  py "```json" ++ nl ++ array_text ++ nl ++ py "```".

End Spec.

(* ================================================================== *)
(** * Part 4.  The program                                             *)
(* ================================================================== *)

(** [GPT_TASK_PROMPT], lines 10-30. *)
Definition GPT_TASK_PROMPT : pystr :=
  py "You are given two images of the same scene and a difference heatmap. "
  ++ py "The difference heatmap is a binary image where the difference between the two images is highlighted in white. "
  ++ py "Generate AS MANY *specific and visually testable* questions that help identify differences between them as you can. "
  ++ py "Use the difference heatmap to generate questions that focus on the differences between the two images. "
  ++ py "Cover the following categories:" ++ nl
  ++ py "- Presence or absence of objects (e.g. 'Is there a boat?')" ++ nl
  ++ py "- Quantity (e.g. 'How many cars are there?')" ++ nl
  ++ py "- Color (e.g. 'What is the color of the shirt?')" ++ nl
  ++ py "- Shape or orientation (e.g. 'What shape is the object? Is it upright or tilted?')" ++ nl
  ++ py "- Action or behavior (e.g. 'Is anyone walking? Is the dog sitting?')" ++ nl ++ nl
  ++ py "Write each question so it can be answered **independently** for each image "
  ++ [8212%N]
  ++ py " do not compare directly (e.g. not 'Which image has more trees?')." ++ nl ++ nl
  ++ py "Do not combine questions. Do not repeat the same wording." ++ nl ++ nl
  ++ py "Each question should focus on a specific object, color, action, or spatial detail. "
  ++ py "Questions should have one word answers."
  ++ py "Respond only with a JSON array of strings (no explanation, no Markdown).".

(** [base64.b64encode(data).decode('utf-8')]; a byte is a number below
    256. *)
Module Base64.

Definition alphabet : pystr :=
  py "ABCDEFGHIJKLMNOPQRSTUVWXYZabcdefghijklmnopqrstuvwxyz0123456789+/".

Definition digit (i : N) : N := nth (N.to_nat i) alphabet 61%N.

Fixpoint encode_from (fuel : nat) (data : list N) : pystr :=
  match fuel with
  | O => []
  | S f =>
      match data with
      | [] => []
      | [a] =>
          [digit (a / 4); digit ((a mod 4) * 16); 61; 61]%N
      | [a; b] =>
          [digit (a / 4); digit ((a mod 4) * 16 + b / 16);
           digit ((b mod 16) * 4); 61]%N
      | a :: b :: c :: rest =>
          [digit (a / 4); digit ((a mod 4) * 16 + b / 16);
           digit ((b mod 16) * 4 + c / 64); digit (c mod 64)]%N
          ++ encode_from f rest
      end
  end.

Definition b64encode (data : list N) : pystr :=
  encode_from (S (List.length data)) data.

End Base64.

(** [str(n)] for a natural number. *)
Definition str_of_N (n : N) : pystr :=
  py (NilEmpty.string_of_uint (N.to_uint n)).

(** The JSON request of lines 42-61 and the URL it is posted to. *)
Record request : Type := {
  url : pystr;
  authorization : pystr;
  content_type : pystr;
  model : pystr;
  max_tokens : N;
  prompt : pystr;
  image_urls : list pystr
}.

(** What the program reads of a [requests.Response].  The completion
    text is taken to be a [str]; evaluating the expression that reads
    it may raise. *)
Record response : Type := {
  status_code : N;
  text : pystr;
  (** [res.json()['choices'][0]['message']['content']] *)
  message_content : exn + pystr
}.

(** One [print] of the program, with the values it interpolates. *)
Inductive line : Type :=
| GettingQuestions                              (* line 153 *)
| RawResponse (content : pystr)                 (* lines 68-69 *)
| MarkdownParseFailed (e : exn)                 (* line 78 *)
| JsonParseFailed (e : exn)                     (* line 92 *)
| ListParseFailed (e : exn)                     (* line 104 *)
| UsingFallback                                 (* line 107 *)
| QuestionsToTest                               (* line 156 *)
| ListedQuestion (i : nat) (q : pyval)          (* line 158 *)
| ResultsBanner                                 (* line 126 *)
| QuestionHeader (i : nat) (question : pyval)   (* line 128 *)
| LeftAnswer (left_ans : pystr)                 (* line 137 *)
| RightAnswer (right_ans : pystr)               (* line 138 *)
| Different (yes : bool)                        (* line 143 *)
| ExecutionError (e : exn)                      (* line 145 *)
| TotalDifferences (difference_counter : nat).  (* line 146 *)

(** What a handler of the chain prints: the line for the exception
    that left the body of its [try]. *)
Definition handler_prints {A : Type} (message : exn -> line)
           (body : ending A) : list line :=
  match body with
  | Raise e => [message e]
  | _ => []
  end.

(** The rest of the function body is reached unless the block
    returned. *)
Definition then_prints {A : Type} (block : ending A) (rest : list line)
  : list line :=
  match block with
  | Return _ => []
  | _ => rest
  end.

Section Diagnostics.

Variable json_loads : pystr -> exn + pyval.

(** Lines 71-107: what [get_comparison_questions] prints while it
    works on the completion text [content]. *)
Definition extraction_prints (content : pystr) : list line :=
  handler_prints MarkdownParseFailed (fenced_json json_loads content)
  ++ then_prints (fenced_json json_loads content)
       (handler_prints JsonParseFailed (raw_json json_loads content)
        ++ then_prints (raw_json json_loads content)
             (handler_prints ListParseFailed (numbered_list content)
              ++ then_prints (numbered_list content) [UsingFallback])).

End Diagnostics.

(** The collaborators of the program, over the state [World] they
    live in: configuration, file system, HTTP transport, and the
    VisProg side (PIL images and [ProgramInterpreter]). *)
Class Collaborators (World : Type) : Type := {
  (** [config.OPENAI_API_KEY] *)
  OPENAI_API_KEY : pystr;
  (** [os.path.exists(path)] *)
  os_path_exists : pystr -> World -> bool;
  (** [with open(path, 'rb') as f: f.read()] *)
  read_binary : pystr -> World -> exn + list N;
  (** [requests.post(url, headers=headers, json=payload)] *)
  requests_post : request -> World -> World * (exn + response);
  (** Lines 118-124: both [Image.open(...).convert("RGB")], both
      [thumbnail], the [state] dictionary and
      [ProgramInterpreter(dataset='nlvr')]. *)
  visprog_setup : pystr -> pystr -> World -> World * (exn + unit);
  (** [interpreter.execute(prog, state, inspect=True)], first
      component of the triple it returns: the answer, a [str]. *)
  interpreter_execute : pystr -> World -> World * (exn + pystr);
  (** [str(v)] for a value that is not a [str]. *)
  str_other : pyval -> pystr
}.

Section Program.

Context {World : Type} {C : Collaborators World}.

(** The state the program runs in.  [posted], [opened] and
    [executed] record the calls made to the transport, to [open]
    and to the interpreter; [difference_counter] is the local
    variable of [execute_visprog_comparison]. *)
Record machine : Type := {
  world : World;
  stdout : list line;
  opened : list pystr;
  posted : list request;
  executed : list pystr;
  difference_counter : nat
}.

Definition boot (w : World) : machine :=
  {| world := w; stdout := []; opened := []; posted := [];
     executed := []; difference_counter := 0 |}.

(** A statement: it ends with a value or with an exception, in a
    new state. *)
Definition M (A : Type) : Type := machine -> (exn + A) * machine.

Definition ret {A : Type} (a : A) : M A := fun m => (inr a, m).

Definition bind {A B : Type} (c : M A) (k : A -> M B) : M B :=
  fun m =>
    match c m with
    | (inl e, m') => (inl e, m')
    | (inr a, m') => k a m'
    end.

Definition raise {A : Type} (e : exn) : M A := fun m => (inl e, m).

(** [try: body / except Exception as e: handler] *)
Definition try_except {A : Type} (body : M A) (handler : exn -> M A)
  : M A :=
  fun m =>
    match body m with
    | (inl e, m') => handler e m'
    | (inr a, m') => (inr a, m')
    end.

Definition print (l : line) : M unit :=
  fun m =>
    (inr tt,
     {| world := world m; stdout := stdout m ++ [l];
        opened := opened m; posted := posted m;
        executed := executed m;
        difference_counter := difference_counter m |}).

(** Several [print]s in a row. *)
Definition print_all (ls : list line) : M unit :=
  fun m =>
    (inr tt,
     {| world := world m; stdout := stdout m ++ ls;
        opened := opened m; posted := posted m;
        executed := executed m;
        difference_counter := difference_counter m |}).

Definition path_exists (path : pystr) : M bool :=
  fun m => (inr (os_path_exists path (world m)), m).

Definition open_read (path : pystr) : M (list N) :=
  fun m =>
    (read_binary path (world m),
     {| world := world m; stdout := stdout m;
        opened := opened m ++ [path]; posted := posted m;
        executed := executed m;
        difference_counter := difference_counter m |}).

Definition post (req : request) : M response :=
  fun m =>
    let '(w, r) := requests_post req (world m) in
    (r,
     {| world := w; stdout := stdout m; opened := opened m;
        posted := posted m ++ [req]; executed := executed m;
        difference_counter := difference_counter m |}).

Definition setup (img1_path img2_path : pystr) : M unit :=
  fun m =>
    let '(w, r) := visprog_setup img1_path img2_path (world m) in
    (r,
     {| world := w; stdout := stdout m; opened := opened m;
        posted := posted m; executed := executed m;
        difference_counter := difference_counter m |}).

Definition interp_execute (prog : pystr) : M pystr :=
  fun m =>
    let '(w, r) := interpreter_execute prog (world m) in
    (r,
     {| world := w; stdout := stdout m; opened := opened m;
        posted := posted m; executed := executed m ++ [prog];
        difference_counter := difference_counter m |}).

Definition set_counter (n : nat) : M unit :=
  fun m =>
    (inr tt,
     {| world := world m; stdout := stdout m; opened := opened m;
        posted := posted m; executed := executed m;
        difference_counter := n |}).

Definition get_counter : M nat :=
  fun m => (inr (difference_counter m), m).

Definition lift {A : Type} (r : exn + A) : M A := fun m => (r, m).

End Program.

Arguments machine : clear implicits.
Arguments M : clear implicits.

Declare Scope py_scope.
Delimit Scope py_scope with py.
Notation "x <- c ;; k" := (bind c (fun x => k))
  (at level 61, c at next level, right associativity) : py_scope.
Notation "c ;; k" := (bind c (fun _ => k))
  (at level 61, right associativity) : py_scope.

Section Functions.

Context {World : Type} {C : Collaborators World}.
Local Open Scope py_scope.

(** [for i, x in enumerate(l, i): body] *)
Fixpoint for_enumerate {A : Type} (body : nat -> A -> M World unit)
         (i : nat) (l : list A) : M World unit :=
  match l with
  | [] => ret tt
  | x :: rest => body i x ;; for_enumerate body (S i) rest
  end.

(** Lines 32-34. *)
Definition encode_image_to_base64 (image_path : pystr)
  : M World pystr :=
  data <- open_read image_path ;;
  ret (Base64.b64encode data).

(** Lines 37-113. *)
Definition get_comparison_questions (img1_path img2_path diff_path : pystr)
  : M World (list pyval) :=
  img1_b64 <- encode_image_to_base64 img1_path ;;
  img2_b64 <- encode_image_to_base64 img2_path ;;
  diff_b64 <- encode_image_to_base64 diff_path ;;
  res <- post
    {| url := py "https://api.openai.com/v1/chat/completions";
       authorization := py "Bearer " ++ OPENAI_API_KEY;
       content_type := py "application/json";
       model := py "gpt-4o";
       max_tokens := 1000;
       prompt := GPT_TASK_PROMPT;
       image_urls :=
         [ py "data:image/png;base64," ++ img1_b64;
           py "data:image/png;base64," ++ img2_b64;
           py "data:image/png;base64," ++ diff_b64 ] |} ;;
  if negb (N.eqb (status_code res) 200) then
    raise (RuntimeError (py "OpenAI API error: "
                         ++ str_of_N (status_code res)
                         ++ py " - " ++ text res))
  else
    content <- lift (message_content res) ;;
    print (RawResponse content) ;;
    print_all (extraction_prints Json.loads content) ;;
    lift (extract content).

(** [f'{question}']: a [str] as it is, another value through
    [str]. *)
Definition format_value (v : pyval) : pystr :=
  match v with
  | PStr s => s
  | other => str_other other
  end.

(** Lines 130-131. *)
Definition program (image : string) (question : pyval) : pystr :=
  py "ANSWER=VQA(image=" ++ py image ++ py ",question='"
  ++ format_value question ++ py "')" ++ nl
  ++ py "FINAL_ANSWER=RESULT(var=ANSWER)".

(** Line 140: [norm = lambda s: str(s).strip().lower()], for an
    answer that is a [str]. *)
Definition norm (s : pystr) : pystr := lower (strip s).

(** [norm(left_ans) != norm(right_ans)] *)
Definition differ (left_ans right_ans : pystr) : bool :=
  negb (str_eqb (norm left_ans) (norm right_ans)).

(** Lines 134-143, the body of the [try]. *)
Definition ask_both (question : pyval) : M World unit :=
  let prog_L := program "LEFT" question in
  let prog_R := program "RIGHT" question in
  left_ans <- interp_execute prog_L ;;
  right_ans <- interp_execute prog_R ;;
  print (LeftAnswer left_ans) ;;
  print (RightAnswer right_ans) ;;
  (if differ left_ans right_ans
   then n <- get_counter ;; set_counter (n + 1)
   else ret tt) ;;
  print (Different (differ left_ans right_ans)).

(** Lines 128-146, the body of the loop. *)
Definition loop_body (i : nat) (question : pyval) : M World unit :=
  print (QuestionHeader i question) ;;
  try_except (ask_both question)
             (fun e => print (ExecutionError e)) ;;
  n <- get_counter ;;
  print (TotalDifferences n).

(** Lines 127-146. *)
Definition question_loop (questions : list pyval) : M World unit :=
  for_enumerate loop_body 1 questions.

(** Lines 116-146. *)
Definition execute_visprog_comparison
           (img1_path img2_path : pystr) (questions : list pyval)
  : M World unit :=
  set_counter 0 ;;
  setup img1_path img2_path ;;
  print ResultsBanner ;;
  question_loop questions.

(** Lines 149-160. *)
Definition compare_images (img1_path img2_path diff_path : pystr)
  : M World unit :=
  left_exists <- path_exists img1_path ;;
  right_exists <- path_exists img2_path ;;
  if negb (left_exists && right_exists) then
    raise (FileNotFoundError (py " One or both image paths do not exist."))
  else
    print GettingQuestions ;;
    questions <- get_comparison_questions img1_path img2_path diff_path ;;
    print QuestionsToTest ;;
    for_enumerate (fun i q => print (ListedQuestion i q)) 1 questions ;;
    execute_visprog_comparison img1_path img2_path questions.

End Functions.

(** A question as the specification has it: a non-empty string. *)
Definition nonempty_string (q : pyval) : Prop :=
  exists s, q = PStr s /\ s <> [].

(** A non-empty sequence of non-empty strings. *)
Definition usable (qs : list pyval) : Prop :=
  qs <> [] /\ Forall nonempty_string qs.

(** Every element is a [str], as it would be had the elements been
    coerced to their string form. *)
Definition all_strings (qs : list pyval) : Prop :=
  Forall (fun q => exists s, q = PStr s) qs.

(* ================================================================== *)
(** * Part 4b.  The report, as the specification names it               *)
(* ================================================================== *)

(** An AnswerPair with its verdict, or the error marker of a question
    whose evaluation failed. *)
Inductive verdict : Type :=
| Answered (left_ans right_ans : pystr) (isDifferent : bool)
| Failed (e : exn).

(** One record of the ComparisonReport, with the running total shown
    under it. *)
Record record : Type := {
  number : nat;
  question : pyval;
  answers : verdict;
  running_total : nat
}.

(** The lines the loop prints for a record. *)
Definition render (r : record) : list line :=
  QuestionHeader (number r) (question r)
  :: match answers r with
     | Answered left_ans right_ans d =>
         [LeftAnswer left_ans; RightAnswer right_ans; Different d]
     | Failed e => [ExecutionError e]
     end
  ++ [TotalDifferences (running_total r)].

Definition is_different (r : record) : bool :=
  match answers r with
  | Answered _ _ d => d
  | Failed _ => false
  end.

(** The number of records whose isDifferent flag is true. *)
Definition count_different (recs : list record) : nat :=
  List.length (filter is_different recs).

(** Running totals that start from [c0] and follow the flags: the
    total shown under the N-th record is [c0] plus the number of true
    flags among the first N records. *)
Definition totals_follow (c0 : nat) (recs : list record) : Prop :=
  List.map running_total recs
  = List.map (fun N => c0 + count_different (firstn N recs))
             (seq 1 (List.length recs)).

Section Report.

Context {World : Type} {C : Collaborators World}.

(** The lines a statement adds to the output. *)
Definition printed {A : Type} (c : M World A) (m : machine World)
  : list line :=
  skipn (List.length (stdout m)) (stdout (snd (c m))).

(** The interpreter calls a statement makes. *)
Definition called {A : Type} (c : M World A) (m : machine World)
  : list pystr :=
  skipn (List.length (executed m)) (executed (snd (c m))).

(** The VQA engine fails on [q] in the world [w] with [e]: on the
    LEFT image, or on the RIGHT one after it answered for LEFT. *)
Definition engine_fails (q : pyval) (w : World) (e : exn) : Prop :=
  (exists w', interpreter_execute (program "LEFT" q) w = (w', inl e))
  \/ (exists left_ans w1 w',
         interpreter_execute (program "LEFT" q) w = (w1, inr left_ans)
         /\ interpreter_execute (program "RIGHT" q) w1 = (w', inl e)).

(** The record a turn of the loop adds when it starts in [m] and
    ends with the verdict [v], and the machine it leaves after the
    interpreter calls [calls] brought the world to [w]. *)
Definition turn_record (i : nat) (q : pyval) (v : verdict)
           (m : machine World) : record :=
  {| number := i; question := q; answers := v;
     running_total :=
       difference_counter m
       + match v with Answered _ _ true => 1 | _ => 0 end |}.

Definition after_turn (i : nat) (q : pyval) (v : verdict) (w : World)
           (calls : list pystr) (m : machine World) : machine World :=
  {| world := w;
     stdout := stdout m ++ render (turn_record i q v m);
     opened := opened m;
     posted := posted m;
     executed := executed m ++ calls;
     difference_counter := running_total (turn_record i q v m) |}.

(** What a run of the loop over [qs], numbered from [i], leaves of
    [m]: the records [recs] on the output and the interpreter calls
    [calls]. *)
Record reported (i : nat) (qs : list pyval) (m mf : machine World)
       (recs : list record) (calls : list pystr) : Prop := {
  rep_stdout : stdout mf = stdout m ++ flat_map render recs;
  rep_executed : executed mf = executed m ++ calls;
  rep_opened : opened mf = opened m;
  rep_posted : posted mf = posted m;
  rep_questions : List.map question recs = qs;
  rep_numbers : List.map number recs = seq i (List.length qs);
  rep_totals : totals_follow (difference_counter m) recs;
  rep_counter :
    difference_counter mf = difference_counter m + count_different recs;
  rep_left : forall q, In q qs -> In (program "LEFT" q) calls
}.

End Report.

(* ================================================================== *)
(** * Part 4c.  A scripted set of collaborators                         *)
(* ================================================================== *)

Module Stub.

(** The files that exist with their bytes, the reply of the
    transport, and what the engine does with a program.  The world
    counts the calls made. *)
Record script : Type := {
  files : list (pystr * list N);
  reply : response;
  engine : pystr -> exn + pystr
}.

Fixpoint lookup (path : pystr) (fs : list (pystr * list N))
  : option (list N) :=
  match fs with
  | [] => None
  | (p, data) :: rest =>
      if str_eqb path p then Some data else lookup path rest
  end.

Definition collaborators (s : script) : Collaborators nat := {|
  OPENAI_API_KEY := py "sk-test";
  os_path_exists := fun path _ =>
    match lookup path (files s) with Some _ => true | None => false end;
  read_binary := fun path _ =>
    match lookup path (files s) with
    | Some data => inr data
    | None =>
        inl (FileNotFoundError
               (py "[Errno 2] No such file or directory: '" ++ path
                ++ py "'"))
    end;
  requests_post := fun _ w => (S w, inr (reply s));
  visprog_setup := fun _ _ w => (w, inr tt);
  interpreter_execute := fun prog w => (S w, engine s prog);
  str_other := fun _ => py "?"
|}.

Definition left_png : pystr := py "assets/hard1.png".
Definition right_png : pystr := py "assets/hard2.png".
Definition heatmap_png : pystr := py "assets/difference_heatmap.png".

(** A reply with status 200 and the given completion text. *)
Definition ok (content : pystr) : response :=
  {| status_code := 200; text := []; message_content := inr content |}.

(** An engine that answers [Yes] for LEFT and [No] for RIGHT when
    the program mentions a boat, [Yes] and [ yes ] when it mentions
    a dog, fails when it mentions a ghost, and answers [2] for
    anything else. *)
Fixpoint mentions (word prog : pystr) : bool :=
  match prog with
  | [] => startswith word []
  | _ :: rest => startswith word prog || mentions word rest
  end.

Definition vqa (prog : pystr) : exn + pystr :=
  if mentions (py "ghost") prog then
    inl (OtherException (py "CUDA out of memory"))
  else if mentions (py "boat") prog then
    if mentions (py "LEFT") prog then inr (py "Yes") else inr (py "No")
  else if mentions (py "dog") prog then
    if mentions (py "LEFT") prog then inr (py "Yes") else inr (py " yes ")
  else inr (py "2").

(** Both scene images and the heatmap exist. *)
Definition all_files : script :=
  {| files := [(left_png, [137; 80; 78; 71]%N);
               (right_png, [137; 80; 78; 71; 0]%N);
               (heatmap_png, [1; 2; 3]%N)];
     reply := ok (pyq "['Is there a boat?', 'Is there a dog?']");
     engine := vqa |}.

(** The heatmap is missing. *)
Definition no_heatmap : script :=
  {| files := [(left_png, [137; 80; 78; 71]%N);
               (right_png, [137; 80; 78; 71; 0]%N)];
     reply := ok (pyq "['Is there a boat?']");
     engine := vqa |}.

(** The RIGHT scene image is missing. *)
Definition no_right : script :=
  {| files := [(left_png, [137; 80; 78; 71]%N);
               (heatmap_png, [1; 2; 3]%N)];
     reply := ok (pyq "['Is there a boat?']");
     engine := vqa |}.

(** Five questions, the third of which the engine fails on. *)
Definition five : list pyval :=
  [ PStr (py "Is there a boat?");
    PStr (py "Is there a dog?");
    PStr (py "Is there a ghost?");
    PStr (py "How many cars are there?");
    PStr (py "Is there a boat on the left?") ].

(** The run of [compare_images] on the default paths when the
    heatmap is missing, and when the RIGHT image is. *)
Definition run_without_heatmap : (exn + unit) * machine nat :=
  compare_images (C := collaborators no_heatmap)
                 left_png right_png heatmap_png (boot 0).

Definition run_without_right : (exn + unit) * machine nat :=
  compare_images (C := collaborators no_right)
                 left_png right_png heatmap_png (boot 0).

End Stub.

(* ================================================================== *)
(** * Part 4d.  The driver, and vocabulary for further properties       *)
(* ================================================================== *)

(** The number of occurrences of a character in a text. *)
Definition count_char (c : N) (s : pystr) : nat :=
  List.length (filter (N.eqb c) s).

(** A byte of a file. *)
Definition byte (b : N) : Prop := (b < 256)%N.

(** The running totals an output shows, in order. *)
Fixpoint totals_of (out : list line) : list nat :=
  match out with
  | [] => []
  | TotalDifferences n :: rest => n :: totals_of rest
  | _ :: rest => totals_of rest
  end.

(** Totals that start from [c] and, from one to the next, stay or go
    up by one. *)
Fixpoint steps_by_one (c : nat) (totals : list nat) : Prop :=
  match totals with
  | [] => True
  | t :: rest => (t = c \/ t = S c) /\ steps_by_one t rest
  end.

(** What line 158 prints for the questions, numbered from [i]. *)
Definition listing (i : nat) (questions : list pyval) : list line :=
  List.map (fun p => ListedQuestion (fst p) (snd p))
           (combine (seq i (List.length questions)) questions).

(** What a verdict adds to the counter. *)
Definition bump (v : verdict) : nat :=
  match v with Answered _ _ true => 1 | _ => 0 end.

(** The code points a run of the lower-case table maps, and all the
    code points that have a lower-case mapping. *)
Definition run_keys (run : N * N * N * N) : list N :=
  let '(first, last, step, _) := run in
  List.map (fun k => (first + step * N.of_nat k)%N)
           (seq 0 (S (N.to_nat ((last - first) / step)))).

Definition lowercase_keys : list N := flat_map run_keys Unicode.lowercase.

(** [d] is its own lower case wherever it stands. *)
Definition settled (d : N) : bool :=
  negb (N.eqb d 304)
  && match simple_lower Unicode.lowercase d with
     | None => true
     | Some _ => false
     end.

Definition not_space (c : N) : bool := negb (is_space c).

(** The white space of [is_space], listed. *)
Definition spaces : list N :=
  [9; 10; 11; 12; 13; 28; 29; 30; 31; 32; 133; 160; 5760;
   8192; 8193; 8194; 8195; 8196; 8197; 8198; 8199; 8200; 8201; 8202;
   8232; 8233; 8239; 8287; 12288]%N.

(** Other ways a model may fence an array: a plain fence around it,
    and fences with no line break between them and the array. *)
Module Fence.

Definition plain (array_text : pystr) : pystr :=
  py "```" ++ nl ++ array_text ++ nl ++ py "```".

Definition glued_json (array_text : pystr) : pystr :=
  py "```json" ++ array_text ++ py "```".

Definition glued_plain (array_text : pystr) : pystr :=
  py "```" ++ array_text ++ py "```".

End Fence.

(** The request of lines 42-61 for the bytes of the three files. *)
Definition completion_request (key : pystr) (data1 data2 data3 : list N)
  : request :=
  {| url := py "https://api.openai.com/v1/chat/completions";
     authorization := py "Bearer " ++ key;
     content_type := py "application/json";
     model := py "gpt-4o";
     max_tokens := 1000;
     prompt := GPT_TASK_PROMPT;
     image_urls :=
       [ py "data:image/png;base64," ++ Base64.b64encode data1;
         py "data:image/png;base64," ++ Base64.b64encode data2;
         py "data:image/png;base64," ++ Base64.b64encode data3 ] |}.

Section Driver.

Context {World : Type} {C : Collaborators World}.

(** The interpreter calls of one turn of the loop, with the verdict
    they lead to: LEFT raised; LEFT answered and RIGHT raised; both
    answered. *)
Inductive turn_calls (q : pyval) : verdict -> list pystr -> Prop :=
| left_raised (e : exn) :
    turn_calls q (Failed e) [program "LEFT" q]
| right_raised (e : exn) :
    turn_calls q (Failed e) [program "LEFT" q; program "RIGHT" q]
| both_answered (left_ans right_ans : pystr) :
    turn_calls q (Answered left_ans right_ans (differ left_ans right_ans))
               [program "LEFT" q; program "RIGHT" q].

(** A run of the loop over the questions, numbered from [i], with the
    counter going from [c] to [c']: its records and, turn by turn, its
    interpreter calls. *)
Inductive turns
  : nat -> nat -> list pyval -> list record -> list (list pystr) -> nat
    -> Prop :=
| turns_done (i c : nat) : turns i c [] [] [] c
| turns_step (i c : nat) (q : pyval) (qs : list pyval) (v : verdict)
             (calls : list pystr) (recs : list record)
             (blocks : list (list pystr)) (c' : nat) :
    turn_calls q v calls ->
    turns (S i) (c + bump v) qs recs blocks c' ->
    turns i c (q :: qs)
          ({| number := i; question := q; answers := v;
              running_total := c + bump v |} :: recs)
          (calls :: blocks) c'.

(** What the driver prints after an exception reached it: line 170,
    then the checklist of lines 171-174. *)
Inductive driver_line : Type :=
| DriverError (e : exn)
| MakeSure
| CheckApiKey
| CheckImageFiles
| CheckInternet.

(** Lines 163-174, the [__main__] block.  Its own prints come after
    all the output of [compare_images] and are returned beside the
    machine. *)
Definition main (m : machine World) : list driver_line * machine World :=
  let img1_path := py "assets/hard1.png" in
  let img2_path := py "assets/hard2.png" in
  let diff_path := py "assets/difference_heatmap.png" in
  match compare_images img1_path img2_path diff_path m with
  | (inr _, m') => ([], m')
  | (inl e, m') =>
      ([DriverError e; MakeSure; CheckApiKey; CheckImageFiles;
        CheckInternet], m')
  end.

End Driver.

(* ================================================================== *)
(** * Part 5.  Theorems                                                 *)
(* ================================================================== *)

(** ** Strings *)

Lemma str_eqb_eq (a b : pystr) : str_eqb a b = true <-> a = b.
Proof.
  revert b; induction a as [|x a IH]; intros [|y b]; simpl;
    try (split; [discriminate | discriminate]); try tauto.
  rewrite andb_true_iff, N.eqb_eq, IH.
  split; [intros [-> ->]; reflexivity | intros E; injection E; auto].
Qed.

Section StripFacts.

Variable drop : N -> bool.

Lemma lstrip_dropped (pre s : pystr) :
  forallb drop pre = true ->
  lstrip_by drop (pre ++ s) = lstrip_by drop s.
Proof.
  induction pre as [|c pre IH]; simpl; intros H; [reflexivity|].
  apply andb_true_iff in H as [Hc Hpre]. rewrite Hc. auto.
Qed.

Lemma lstrip_all_dropped (s : pystr) :
  forallb drop s = true -> lstrip_by drop s = [].
Proof.
  intros H. rewrite <- (app_nil_r s). rewrite lstrip_dropped; auto.
Qed.

Lemma lstrip_app (s post : pystr) :
  forallb drop s = false ->
  lstrip_by drop (s ++ post) = lstrip_by drop s ++ post.
Proof.
  induction s as [|c s IH]; simpl; [discriminate|].
  destruct (drop c); simpl; auto.
Qed.

Lemma lstrip_kept (c : N) (s : pystr) :
  drop c = false -> lstrip_by drop (c :: s) = c :: s.
Proof. intros H; simpl; rewrite H; reflexivity. Qed.

Lemma rstrip_dropped (s post : pystr) :
  forallb drop post = true ->
  rstrip_by drop (s ++ post) = rstrip_by drop s.
Proof.
  intros H. unfold rstrip_by. rewrite rev_app_distr, lstrip_dropped.
  - reflexivity.
  - rewrite forallb_forall in *. intros x Hx. apply H.
    apply in_rev. exact Hx.
Qed.

Lemma rstrip_kept (s : pystr) (c : N) :
  drop c = false -> rstrip_by drop (s ++ [c]) = s ++ [c].
Proof.
  intros H. unfold rstrip_by. rewrite rev_app_distr. simpl.
  rewrite H. simpl. rewrite rev_involutive. reflexivity.
Qed.

(** Characters of the dropped set around a text do not change what
    is left of it. *)
Lemma strip_by_padding (pre s post : pystr) :
  forallb drop pre = true -> forallb drop post = true ->
  strip_by drop (pre ++ s ++ post) = strip_by drop s.
Proof.
  intros Hpre Hpost. unfold strip_by. rewrite lstrip_dropped by exact Hpre.
  destruct (forallb drop s) eqn:Hs.
  - rewrite (lstrip_all_dropped s Hs).
    rewrite lstrip_all_dropped; [reflexivity|].
    rewrite forallb_app, Hs, Hpost. reflexivity.
  - rewrite lstrip_app by exact Hs. apply rstrip_dropped. exact Hpost.
Qed.

(** A text that begins and ends with characters outside the dropped
    set is left as it is. *)
Lemma strip_by_kept (c d : N) (s : pystr) :
  drop c = false -> drop d = false ->
  strip_by drop (c :: s ++ [d]) = c :: s ++ [d].
Proof.
  intros Hc Hd. unfold strip_by. rewrite lstrip_kept by exact Hc.
  change (c :: s ++ [d]) with ((c :: s) ++ [d]).
  apply rstrip_kept. exact Hd.
Qed.

End StripFacts.

Lemma startswith_app (p s : pystr) : startswith p (p ++ s) = true.
Proof.
  induction p as [|c p IH]; simpl; [reflexivity|].
  rewrite N.eqb_refl. exact IH.
Qed.

(** The markers of a fenced block come off, and the trimmed inside is
    what the JSON tiers parse. *)
Lemma fenced_unwrapped (a : pystr) :
  strip (Spec.fenced a) = Spec.fenced a
  /\ startswith (py "```json") (Spec.fenced a) = true
  /\ strip (strip_chars (py "```")
             (strip_chars (py "```json") (Spec.fenced a))) = strip a.
Proof.
  unfold Spec.fenced. split; [|split].
  - change (py "```json" ++ nl ++ a ++ nl ++ py "```")
      with (96%N :: (py "``json" ++ nl ++ a ++ nl ++ py "``" ++ [96%N])).
    replace (py "``json" ++ nl ++ a ++ nl ++ py "``" ++ [96%N])
      with ((py "``json" ++ nl ++ a ++ nl ++ py "``") ++ [96%N])
      by (rewrite <- !app_assoc; reflexivity).
    apply strip_by_kept; reflexivity.
  - apply startswith_app.
  - unfold strip_chars at 2.
    replace (py "```json" ++ nl ++ a ++ nl ++ py "```")
      with (py "```json" ++ (nl ++ a ++ nl) ++ py "```")
      by (rewrite <- !app_assoc; reflexivity).
    rewrite strip_by_padding by reflexivity.
    change (nl ++ a ++ nl) with (10%N :: a ++ [10%N]).
    rewrite strip_by_kept by reflexivity.
    unfold strip_chars. rewrite strip_by_kept by reflexivity.
    change (10%N :: a ++ [10%N]) with (nl ++ a ++ nl).
    unfold strip. apply strip_by_padding; reflexivity.
Qed.

(** [json.loads] raises on a text that begins with a backtick. *)
Lemma loads_backtick (t : pystr) :
  exists e, Json.loads (96%N :: t) = inl e.
Proof.
  unfold Json.loads, Json.decode. cbn. eexists. reflexivity.
Qed.

Lemma startswith_backtick (p s : pystr) :
  startswith (96%N :: p) s = true -> exists t, s = 96%N :: t.
Proof.
  destruct s as [|c s]; cbn [startswith]; [discriminate|].
  intros H. apply andb_true_iff in H as [H _].
  apply N.eqb_eq in H. subst c. eexists; reflexivity.
Qed.

(** ** The numbered-list tier *)

Lemma char_in_period (line : pystr) :
  char_in 46 line =
  match Spec.after_first_period line with Some _ => true | None => false end.
Proof.
  induction line as [|c line IH]; cbn [char_in Spec.after_first_period];
    [reflexivity|].
  rewrite (N.eqb_sym 46 c). destruct (N.eqb c 46); simpl; auto.
Qed.

Lemma index1_split_once (line before : pystr) :
  index1 (split_once_from 46 before line) =
  match Spec.after_first_period line with
  | Some t => inr t
  | None => inl IndexError
  end.
Proof.
  revert before.
  induction line as [|c line IH]; intros before;
    cbn [split_once_from Spec.after_first_period]; [reflexivity|].
  destruct (N.eqb c 46); [reflexivity | apply IH].
Qed.

(** The comprehension never raises, and collects what step 3 of the
    specification describes. *)
Lemma numbered_items_candidates (lines : list pystr) :
  numbered_items lines = inr (Spec.candidates lines).
Proof.
  induction lines as [|line rest IH];
    cbn [numbered_items Spec.candidates]; [reflexivity|].
  rewrite char_in_period. unfold after_period, split_once.
  rewrite index1_split_once.
  destruct (Spec.after_first_period line) as [t|]; [|exact IH].
  destruct (strip t) as [|c q] eqn:Et; cbn [nonempty]; [exact IH|].
  rewrite IH. reflexivity.
Qed.

Lemma candidates_nonempty (lines : list pystr) :
  Forall (fun q => q <> []) (Spec.candidates lines).
Proof.
  induction lines as [|line rest IH]; cbn [Spec.candidates];
    [constructor|].
  destruct (Spec.after_first_period line) as [t|]; [|exact IH].
  destruct (strip t) as [|c q]; [exact IH|].
  constructor; [discriminate | exact IH].
Qed.

Lemma numbered_list_candidates (content : pystr) :
  numbered_list content =
  if Nat.leb 3 (List.length (Spec.candidates (splitlines (strip content))))
  then Return (List.map PStr (Spec.candidates (splitlines (strip content))))
  else Next.
Proof.
  unfold numbered_list. rewrite numbered_items_candidates. reflexivity.
Qed.

Lemma fallback_usable : usable fallback_questions.
Proof.
  split; [discriminate|].
  unfold fallback_questions.
  repeat constructor; eexists; (split; [reflexivity | discriminate]).
Qed.

Lemma candidates_usable (lines : list pystr) :
  3 <= List.length (Spec.candidates lines) ->
  usable (List.map PStr (Spec.candidates lines)).
Proof.
  intros H. split.
  - destruct (Spec.candidates lines); simpl in *; [lia | discriminate].
  - apply Forall_map.
    eapply Forall_impl; [|apply candidates_nonempty].
    intros q Hq. exists q. auto.
Qed.

(** From the third [try] on, the function returns a usable list. *)
Lemma numbered_or_fallback (content : pystr) :
  exists qs,
    or_else (try_print (numbered_list content)) (inr fallback_questions)
    = inr qs
    /\ usable qs
    /\ (qs = fallback_questions \/ 3 <= List.length qs).
Proof.
  rewrite numbered_list_candidates.
  destruct (Nat.leb 3 _) eqn:E; cbn [try_print or_else].
  - apply Nat.leb_le in E. eexists. split; [reflexivity|].
    split; [apply candidates_usable; exact E|].
    right. rewrite length_map. exact E.
  - exists fallback_questions.
    split; [reflexivity|]. split; [apply fallback_usable | left; reflexivity].
Qed.

(** ** The JSON tiers *)

Section JsonTiers.

Variable json_loads : pystr -> exn + pyval.

Lemma loads_list_return (stripped : pystr) (qs : list pyval) :
  loads_list json_loads stripped = Return qs ->
  json_loads stripped = inr (PList qs).
Proof.
  unfold loads_list.
  destruct (json_loads stripped) as [e|[]]; try discriminate.
  intros E; injection E as ->; reflexivity.
Qed.

Lemma loads_list_not_list (stripped : pystr) (v : pyval) :
  json_loads stripped = inr v -> is_list v = false ->
  loads_list json_loads stripped = Next.
Proof.
  unfold loads_list. intros -> H.
  destruct v; try reflexivity. discriminate.
Qed.

Lemma fenced_json_return (content : pystr) (qs : list pyval) :
  fenced_json json_loads content = Return qs ->
  exists stripped, json_loads stripped = inr (PList qs).
Proof.
  unfold fenced_json.
  destruct (startswith _ _); [|discriminate].
  intros H. eexists. apply loads_list_return. exact H.
Qed.

Lemma raw_json_return (content : pystr) (qs : list pyval) :
  raw_json json_loads content = Return qs ->
  exists stripped, json_loads stripped = inr (PList qs).
Proof.
  unfold raw_json. intros H. eexists. apply loads_list_return. exact H.
Qed.

End JsonTiers.

(** A text [json.loads] accepts is not fenced: the first two [try]
    blocks hand it to [json.loads] as it is, trimmed. *)
Lemma parsed_text_not_fenced (content : pystr) (v : pyval) :
  Json.loads (strip content) = inr v ->
  fenced_json Json.loads content = Next
  /\ raw_json Json.loads content = loads_list Json.loads (strip content).
Proof.
  intros H.
  assert (Hno : forall p, startswith (96%N :: p) (strip content) = false).
  { intros p. destruct (startswith _ _) eqn:E; [|reflexivity].
    apply startswith_backtick in E as [t Et].
    destruct (loads_backtick t) as [e He].
    rewrite Et in H. congruence. }
  unfold fenced_json, raw_json.
  change (py "```json") with (96%N :: py "``json").
  change (py "```") with (96%N :: py "``").
  rewrite !Hno. split; reflexivity.
Qed.

(** ** Claims on the extraction *)

(** C1, as stated, fails: a JSON array is returned as it was parsed,
    so the texts [[]], [[""]] and [[1]] give an empty list, a list
    with an empty string and a list with a number. *)
Lemma C1_counterexample :
  extract (py "[]") = inr []
  /\ ~ usable []
  /\ extract (pyq "['']") = inr [PStr []]
  /\ ~ usable [PStr []]
  /\ extract (py "[1]") = inr [PInt 1]
  /\ ~ usable [PInt 1].
Proof.
  repeat split; try reflexivity.
  - intros [H _]. apply H. reflexivity.
  - intros [_ H]. inversion H as [|q qs [s [E Hs]] _]; subst.
    injection E as <-. apply Hs. reflexivity.
  - intros [_ H]. inversion H as [|q qs [s [E Hs]] _]; subst.
    discriminate.
Qed.

(** C1, amended: for every raw text, and whatever [json.loads] does
    with it (raising included), the extraction returns a list and no
    exception leaves it; the list is either a JSON array one of the two
    JSON tiers parsed, returned as parsed, or a non-empty sequence of
    non-empty strings. *)
Theorem C1_extraction_total
        (json_loads : pystr -> exn + pyval) (content : pystr) :
  exists qs,
    extract_questions json_loads content = inr qs
    /\ ((exists stripped, json_loads stripped = inr (PList qs))
        \/ usable qs).
Proof.
  unfold extract_questions.
  destruct (numbered_or_fallback content) as [qs3 [E3 [U3 _]]].
  assert (T2 : exists qs,
             or_else (try_print (raw_json json_loads content))
               (or_else (try_print (numbered_list content))
                  (inr fallback_questions)) = inr qs
             /\ ((exists stripped, json_loads stripped = inr (PList qs))
                 \/ usable qs)).
  { destruct (raw_json json_loads content) as [|qs|e] eqn:E2;
      cbn [try_print or_else].
    - exists qs3. auto.
    - exists qs. split; [reflexivity|]. left.
      eapply raw_json_return. exact E2.
    - exists qs3. auto. }
  destruct (fenced_json json_loads content) as [|qs|e] eqn:E1;
    cbn [try_print or_else].
  - exact T2.
  - exists qs. split; [reflexivity|]. left.
    eapply fenced_json_return. exact E1.
  - exact T2.
Qed.

(** C5, as stated, fails: the elements of an accepted array are not
    coerced to strings; [[1, 2]] comes back as two numbers. *)
Lemma C5_counterexample :
  extract (py "[1, 2]") = inr [PInt 1; PInt 2]
  /\ ~ all_strings [PInt 1; PInt 2]
  /\ extract (Spec.fenced (py "[1, 2]")) = inr [PInt 1; PInt 2].
Proof.
  repeat split; try reflexivity.
  intros H. inversion H as [|q qs [s E] _]; subst. discriminate.
Qed.

(** C5, amended: a JSON tier returns only what [json.loads] gave as
    an array, and returns its items as they were parsed, with no
    coercion; a value that is not an array is not returned; and an
    array fenced as a JSON block gives the same list as the array
    given bare. *)
Theorem C5_json_tiers :
  (forall json_loads content qs,
      fenced_json json_loads content = Return qs
      \/ raw_json json_loads content = Return qs ->
      exists stripped, json_loads stripped = inr (PList qs))
  /\ (forall json_loads stripped v,
        json_loads stripped = inr v -> is_list v = false ->
        loads_list json_loads stripped = Next)
  /\ (forall array_text qs,
        Json.loads (strip array_text) = inr (PList qs) ->
        extract array_text = inr qs
        /\ extract (Spec.fenced array_text) = inr qs).
Proof.
  split; [|split].
  - intros json_loads content qs [H|H].
    + eapply fenced_json_return; exact H.
    + eapply raw_json_return; exact H.
  - intros json_loads stripped v H Hv.
    eapply loads_list_not_list; eassumption.
  - intros array_text qs H. split.
    + destruct (parsed_text_not_fenced array_text H) as [E1 E2].
      unfold extract, extract_questions. rewrite E1, E2.
      unfold loads_list. rewrite H. reflexivity.
    + destruct (fenced_unwrapped array_text) as [S1 [S2 S3]].
      unfold extract, extract_questions, fenced_json.
      rewrite S1, S2, S3. unfold loads_list. rewrite H. reflexivity.
Qed.

(** The fenced and the bare form of [["A?","B?"]]. *)
Lemma C5_json_tiers_witness :
  Json.loads (strip (pyq "['A?','B?']"))
  = inr (PList [PStr (py "A?"); PStr (py "B?")])
  /\ extract (pyq "['A?','B?']") = inr [PStr (py "A?"); PStr (py "B?")]
  /\ extract (Spec.fenced (pyq "['A?','B?']"))
     = inr [PStr (py "A?"); PStr (py "B?")].
Proof.
  split; [reflexivity|].
  apply (proj2 (proj2 C5_json_tiers) (pyq "['A?','B?']")).
  reflexivity.
Defined.

(** C6: the numbered-list tier never raises; it collects, for every
    line with a period, the trimmed text after the first period when
    that is not empty, in line order; it returns the collection
    exactly when it has at least 3 entries and is left without a
    result exactly when it has fewer; so, once the JSON tiers have not
    returned, 3 entries or more are the result of the extraction, and
    with 1 or 2 entries the extraction returns the fixed fallback. *)
Theorem C6_numbered_list_threshold
        (json_loads : pystr -> exn + pyval) (content : pystr) :
  let candidates := Spec.candidates (splitlines (strip content)) in
  (numbered_list content = Return (List.map PStr candidates)
   <-> 3 <= List.length candidates)
  /\ (numbered_list content = Next <-> List.length candidates < 3)
  /\ (try_print (fenced_json json_loads content) = Next ->
      try_print (raw_json json_loads content) = Next ->
      (3 <= List.length candidates ->
       extract_questions json_loads content
       = inr (List.map PStr candidates))
      /\ (List.length candidates = 1 \/ List.length candidates = 2 ->
          extract_questions json_loads content = inr fallback_questions)).
Proof.
  intros candidates.
  pose proof (numbered_list_candidates content) as E3.
  fold candidates in E3.
  destruct (Nat.leb 3 (List.length candidates)) eqn:E.
  - apply Nat.leb_le in E. rewrite E3.
    split; [|split].
    + tauto.
    + split; [discriminate | lia].
    + intros E1 E2. unfold extract_questions. rewrite E1, E2, E3.
      split; [reflexivity | lia].
  - apply Nat.leb_gt in E. rewrite E3.
    split; [|split].
    + split; [discriminate | lia].
    + tauto.
    + intros E1 E2. unfold extract_questions. rewrite E1, E2, E3.
      split; [lia | reflexivity].
Qed.

(** Two numbered lines are below the threshold; three are not. *)
Lemma C6_numbered_list_threshold_witness :
  extract (py "1. Only one." ++ nl ++ py "2. item two.")
  = inr fallback_questions
  /\ extract (py "1. Is there a dog?" ++ nl
              ++ py "2. What color is the sky?" ++ nl
              ++ py "3. How many trees?")
     = inr [ PStr (py "Is there a dog?");
             PStr (py "What color is the sky?");
             PStr (py "How many trees?") ].
Proof.
  split.
  - apply (proj2 (proj2 (C6_numbered_list_threshold Json.loads
             (py "1. Only one." ++ nl ++ py "2. item two.")))
             eq_refl eq_refl).
    right. reflexivity.
  - apply (proj2 (proj2 (C6_numbered_list_threshold Json.loads
             (py "1. Is there a dog?" ++ nl
              ++ py "2. What color is the sky?" ++ nl
              ++ py "3. How many trees?")))
             eq_refl eq_refl).
    vm_compute. lia.
Defined.

(** C7: a text that is valid JSON but not a list is rejected by both
    JSON tiers, is never returned wrapped in a one-element list, and,
    when it has no numbered-list candidate, gives the fixed fallback
    list. *)
Theorem C7_json_not_a_list (content : pystr) (v : pyval) :
  Json.loads (strip content) = inr v ->
  is_list v = false ->
  try_print (fenced_json Json.loads content) = Next
  /\ try_print (raw_json Json.loads content) = Next
  /\ extract content <> inr [v]
  /\ (Spec.candidates (splitlines (strip content)) = [] ->
      extract content = inr fallback_questions).
Proof.
  intros H Hv.
  destruct (parsed_text_not_fenced content H) as [E1 E2].
  assert (E2' : raw_json Json.loads content = Next).
  { rewrite E2. eapply loads_list_not_list; eassumption. }
  split; [rewrite E1; reflexivity|].
  split; [rewrite E2'; reflexivity|].
  unfold extract, extract_questions. rewrite E1, E2'. cbn [try_print or_else].
  split.
  - destruct (numbered_or_fallback content) as [qs [E [_ L]]].
    rewrite E. intros F. injection F as ->.
    destruct L as [L|L]; [discriminate | simpl in L; lia].
  - intros Hc. rewrite numbered_list_candidates, Hc. reflexivity.
Qed.

(** The object [{"not":"a list"}]. *)
Lemma C7_json_not_a_list_witness :
  Json.loads (strip (pyq "{'not':'a list'}"))
  = inr (PDict [(py "not", PStr (py "a list"))])
  /\ extract (pyq "{'not':'a list'}") = inr fallback_questions
  /\ extract (pyq "{'not':'a list'}")
     <> inr [PDict [(py "not", PStr (py "a list"))]].
Proof.
  pose proof (C7_json_not_a_list (pyq "{'not':'a list'}")
                (v := PDict [(py "not", PStr (py "a list"))])
                eq_refl eq_refl) as [_ [_ [Hw Hf]]].
  split; [reflexivity|]. split; [apply Hf; reflexivity | exact Hw].
Defined.

(** ** One turn of the loop *)

Ltac run_statement :=
  unfold loop_body, ask_both, try_except, bind, print, interp_execute,
    get_counter, set_counter, ret;
  cbn -[program differ render].

Section LoopBody.

Context {World : Type} {C : Collaborators World}.

Implicit Types (m : machine World) (q : pyval) (i : nat).

Lemma loop_body_answered i q m left_ans right_ans w1 w2 :
  interpreter_execute (program "LEFT" q) (world m) = (w1, inr left_ans) ->
  interpreter_execute (program "RIGHT" q) w1 = (w2, inr right_ans) ->
  loop_body i q m
  = (inr tt,
     after_turn i q (Answered left_ans right_ans
                       (differ left_ans right_ans))
                w2 [program "LEFT" q; program "RIGHT" q] m).
Proof.
  intros HL HR. run_statement. rewrite HL.
  cbn -[program differ render]. rewrite HR. cbn -[program differ render].
  unfold after_turn, turn_record, render.
  destruct (differ left_ans right_ans); cbn -[program];
    rewrite <- ?app_assoc; cbn; rewrite ?Nat.add_0_r; reflexivity.
Qed.

Lemma loop_body_left_fails i q m w1 e :
  interpreter_execute (program "LEFT" q) (world m) = (w1, inl e) ->
  loop_body i q m
  = (inr tt, after_turn i q (Failed e) w1 [program "LEFT" q] m).
Proof.
  intros HL. run_statement. rewrite HL.
  unfold after_turn, turn_record, render. cbn -[program].
  rewrite <- ?app_assoc; cbn -[program]; rewrite ?Nat.add_0_r;
    reflexivity.
Qed.

Lemma loop_body_right_fails i q m left_ans w1 w2 e :
  interpreter_execute (program "LEFT" q) (world m) = (w1, inr left_ans) ->
  interpreter_execute (program "RIGHT" q) w1 = (w2, inl e) ->
  loop_body i q m
  = (inr tt,
     after_turn i q (Failed e) w2
                [program "LEFT" q; program "RIGHT" q] m).
Proof.
  intros HL HR. run_statement. rewrite HL.
  cbn -[program differ render]. rewrite HR.
  unfold after_turn, turn_record, render. cbn -[program].
  rewrite <- ?app_assoc; cbn -[program]; rewrite ?Nat.add_0_r;
    reflexivity.
Qed.

(** Whatever the engine does, a turn ends normally and adds one
    record; the LEFT program is always run. *)
Lemma loop_body_turn i q m :
  exists v w calls,
    loop_body i q m
    = (inr tt, after_turn i q v w (program "LEFT" q :: calls) m)
    /\ (forall e, engine_fails q (world m) e -> v = Failed e).
Proof.
  destruct (interpreter_execute (program "LEFT" q) (world m))
    as [w1 [e|left_ans]] eqn:HL.
  - exists (Failed e), w1, []. split.
    + apply loop_body_left_fails. exact HL.
    + intros e' [[w' H]|[l [w1' [w' [H _]]]]]; congruence.
  - destruct (interpreter_execute (program "RIGHT" q) w1)
      as [w2 [e|right_ans]] eqn:HR.
    + exists (Failed e), w2, [program "RIGHT" q]. split.
      * eapply loop_body_right_fails; eassumption.
      * intros e' [[w' H]|[l [w1' [w' [H H']]]]]; [congruence|].
        rewrite HL in H. injection H as <- <-. congruence.
    + exists (Answered left_ans right_ans (differ left_ans right_ans)),
        w2, [program "RIGHT" q]. split.
      * eapply loop_body_answered; eassumption.
      * intros e' [[w' H]|[l [w1' [w' [H H']]]]]; [congruence|].
        rewrite HL in H. injection H as <- <-. congruence.
Qed.

End LoopBody.

(** ** The whole loop *)

Lemma count_different_cons (r : record) (recs : list record) :
  count_different (r :: recs)
  = (if is_different r then 1 else 0) + count_different recs.
Proof.
  unfold count_different. cbn [filter].
  destruct (is_different r); reflexivity.
Qed.

Lemma totals_follow_cons (c0 : nat) (r : record) (recs : list record) :
  running_total r = c0 + (if is_different r then 1 else 0) ->
  totals_follow (running_total r) recs ->
  totals_follow c0 (r :: recs).
Proof.
  unfold totals_follow. intros Hr IH.
  cbn [List.map List.length seq firstn]. f_equal.
  - rewrite count_different_cons. unfold count_different. simpl. lia.
  - rewrite IH, <- (seq_shift (List.length recs) 1), map_map.
    apply map_ext. intros N. cbn [firstn].
    rewrite count_different_cons, Hr. lia.
Qed.

Section Loop.

Context {World : Type} {C : Collaborators World}.

Implicit Types (m : machine World) (q : pyval) (i : nat).

Lemma for_enumerate_app {A : Type} (body : nat -> A -> M World unit)
      (l1 l2 : list A) i m :
  for_enumerate body i (l1 ++ l2) m
  = bind (for_enumerate body i l1)
         (fun _ => for_enumerate body (i + List.length l1) l2) m.
Proof.
  revert i m. induction l1 as [|x l1 IH]; intros i m.
  - cbn. rewrite Nat.add_0_r. reflexivity.
  - cbn [app for_enumerate List.length]. unfold bind.
    destruct (body i x m) as [[e|[]] m1].
    + reflexivity.
    + rewrite IH. unfold bind.
      rewrite Nat.add_succ_r. reflexivity.
Qed.

Lemma turn_record_total i q v m :
  running_total (turn_record i q v m)
  = difference_counter m
    + (if is_different (turn_record i q v m) then 1 else 0).
Proof. destruct v as [l r [|]|e]; reflexivity. Qed.

(** The loop never raises, and prints one record per question. *)
Lemma loop_reported (qs : list pyval) i m :
  exists mf recs calls,
    for_enumerate loop_body i qs m = (inr tt, mf)
    /\ reported i qs m mf recs calls.
Proof.
  revert i m. induction qs as [|q qs IH]; intros i m.
  - exists m, [], []. split; [reflexivity|].
    constructor; cbn; rewrite ?app_nil_r; auto; try reflexivity;
      try tauto; unfold count_different; cbn; lia.
  - destruct (loop_body_turn i q m) as [v [w [calls1 [E1 _]]]].
    destruct (IH (S i) (after_turn i q v w (program "LEFT" q :: calls1) m))
      as [mf [recs [calls [E [? ? ? ? ? ? ? ? ?]]]]].
    exists mf, (turn_record i q v m :: recs),
      ((program "LEFT" q :: calls1) ++ calls).
    split.
    + cbn [for_enumerate]. unfold bind. rewrite E1. exact E.
    + constructor.
      * rewrite rep_stdout0. cbn [after_turn stdout flat_map].
        rewrite app_assoc. reflexivity.
      * rewrite rep_executed0. cbn [after_turn executed].
        rewrite app_assoc. reflexivity.
      * rewrite rep_opened0. reflexivity.
      * rewrite rep_posted0. reflexivity.
      * cbn [List.map]. rewrite rep_questions0. reflexivity.
      * cbn [List.map List.length seq]. rewrite rep_numbers0. reflexivity.
      * apply totals_follow_cons; [apply turn_record_total | assumption].
      * rewrite rep_counter0, count_different_cons.
        cbn [after_turn difference_counter].
        rewrite turn_record_total. lia.
      * intros q' [<-|Hq'].
        -- apply in_or_app. left. left. reflexivity.
        -- apply in_or_app. right. auto.
Qed.

Lemma printed_from {A : Type} (c : M World A) m (r : exn + A) mf
      (out : list line) :
  c m = (r, mf) -> stdout mf = stdout m ++ out -> printed c m = out.
Proof.
  unfold printed. intros E1 E2. rewrite E1. cbn [snd]. rewrite E2.
  rewrite skipn_app, Nat.sub_diag, skipn_all. reflexivity.
Qed.

Lemma called_from {A : Type} (c : M World A) m (r : exn + A) mf
      (calls : list pystr) :
  c m = (r, mf) -> executed mf = executed m ++ calls ->
  called c m = calls.
Proof.
  unfold called. intros E1 E2. rewrite E1. cbn [snd]. rewrite E2.
  rewrite skipn_app, Nat.sub_diag, skipn_all. reflexivity.
Qed.

End Loop.

(** ** Claims on the evaluation *)

Section EvaluationClaims.

Context {World : Type} {C : Collaborators World}.

Implicit Types (m : machine World) (q : pyval) (i : nat).

(** C2: when the engine answers [left_ans] for LEFT and [right_ans]
    for RIGHT, the turn of the loop prints the two answers and a
    flag, and counts the flag; the flag is true exactly when the two
    answers, trimmed and lower-cased, are not the same string.  So
    [Yes] against [ yes ] is no difference, [Yes] against [No] is
    one. *)
Theorem C2_difference_verdict i q m (left_ans right_ans : pystr)
        (w1 w2 : World) :
  interpreter_execute (program "LEFT" q) (world m) = (w1, inr left_ans) ->
  interpreter_execute (program "RIGHT" q) w1 = (w2, inr right_ans) ->
  exists isDifferent : bool,
    printed (loop_body i q) m
    = [ QuestionHeader i q; LeftAnswer left_ans; RightAnswer right_ans;
        Different isDifferent;
        TotalDifferences
          (difference_counter m + if isDifferent then 1 else 0) ]
    /\ difference_counter (snd (loop_body i q m))
       = difference_counter m + (if isDifferent then 1 else 0)
    /\ (isDifferent = true
        <-> lower (strip left_ans) <> lower (strip right_ans))
    /\ differ (py "Yes") (py " yes ") = false
    /\ differ (py "Yes") (py "No") = true.
Proof.
  intros HL HR. exists (differ left_ans right_ans).
  pose proof (loop_body_answered i q m HL HR) as E.
  split; [|split; [|split; [|split]]].
  - eapply printed_from; [exact E|]. cbn [after_turn stdout].
    unfold render, turn_record. cbn [number question answers running_total].
    destruct (differ left_ans right_ans); reflexivity.
  - rewrite E.
    cbn [snd after_turn difference_counter turn_record running_total].
    destruct (differ left_ans right_ans); reflexivity.
  - unfold differ, norm. rewrite negb_true_iff.
    split.
    + intros H F. rewrite <- str_eqb_eq in F. congruence.
    + intros H. destruct (str_eqb _ _) eqn:F; [|reflexivity].
      apply str_eqb_eq in F. contradiction.
  - reflexivity.
  - reflexivity.
Qed.

(** C10: when the LEFT program raises, the turn runs no other
    program (the RIGHT one is not attempted), prints the question,
    the error and the total with no answers and no verdict, ends
    normally, and leaves the counter as it was. *)
Theorem C10_left_failure i q m (w1 : World) (e : exn) :
  interpreter_execute (program "LEFT" q) (world m) = (w1, inl e) ->
  fst (loop_body i q m) = inr tt
  /\ called (loop_body i q) m = [program "LEFT" q]
  /\ world (snd (loop_body i q m)) = w1
  /\ printed (loop_body i q) m
     = [ QuestionHeader i q; ExecutionError e;
         TotalDifferences (difference_counter m) ]
  /\ difference_counter (snd (loop_body i q m)) = difference_counter m.
Proof.
  intros HL. pose proof (loop_body_left_fails i q m HL) as E.
  split; [rewrite E; reflexivity|].
  split; [eapply called_from; [exact E | reflexivity]|].
  split; [rewrite E; reflexivity|]. split.
  - eapply printed_from; [exact E|]. cbn [after_turn stdout].
    unfold render, turn_record. cbn. rewrite Nat.add_0_r. reflexivity.
  - rewrite E. cbn. apply Nat.add_0_r.
Qed.

(** C3: when the engine fails with [e] on a question [q] of the
    list, no exception leaves the loop; the report has a record for
    every question before [q], a record for [q] that holds the error
    [e] in place of answers, and a record for every question after
    [q], in order and numbered on; and the LEFT program of every
    later question is run after the failure. *)
Theorem C3_failure_isolated (before after : list pyval) q m (e : exn) :
  engine_fails q (world (snd (question_loop before m))) e ->
  exists recs_before failed recs_after calls_before calls_after,
    fst (question_loop (before ++ q :: after) m) = inr tt
    /\ printed (question_loop (before ++ q :: after)) m
       = flat_map render (recs_before ++ failed :: recs_after)
    /\ List.map question recs_before = before
    /\ question failed = q
    /\ number failed = S (List.length before)
    /\ answers failed = Failed e
    /\ List.map question recs_after = after
    /\ List.map number recs_after
       = seq (List.length before + 2) (List.length after)
    /\ called (question_loop (before ++ q :: after)) m
       = calls_before ++ calls_after
    /\ called (question_loop (before ++ [q])) m = calls_before
    /\ forall q', In q' after -> In (program "LEFT" q') calls_after.
Proof.
  unfold question_loop. intros Hfail.
  destruct (loop_reported before 1 m) as [m1 [recs1 [calls1 [E1 R1]]]].
  rewrite E1 in Hfail. cbn [snd] in Hfail.
  destruct (loop_body_turn (1 + List.length before) q m1)
    as [v [w [calls2 [E2 Hv]]]].
  rewrite (Hv e Hfail) in E2. clear Hv.
  set (m2 := after_turn (1 + List.length before) q (Failed e) w
                        (program "LEFT" q :: calls2) m1) in *.
  destruct (loop_reported after (S (1 + List.length before)) m2)
    as [m3 [recs3 [calls3 [E3 R3]]]].
  assert (Eall : for_enumerate loop_body 1 (before ++ q :: after) m
                 = (inr tt, m3)).
  { rewrite for_enumerate_app. unfold bind at 1. rewrite E1.
    cbn [for_enumerate]. unfold bind. rewrite E2. exact E3. }
  assert (Eq : for_enumerate loop_body 1 (before ++ [q]) m
               = (inr tt, m2)).
  { rewrite for_enumerate_app. unfold bind at 1. rewrite E1.
    cbn [for_enumerate]. unfold bind. rewrite E2. reflexivity. }
  destruct R1, R3.
  exists recs1, (turn_record (1 + List.length before) q (Failed e) m1),
    recs3, (calls1 ++ program "LEFT" q :: calls2), calls3.
  split; [rewrite Eall; reflexivity|].
  repeat split; try reflexivity; try assumption.
  - eapply printed_from; [exact Eall|]. rewrite rep_stdout1.
    subst m2. cbn [after_turn stdout]. rewrite rep_stdout0.
    rewrite flat_map_app. cbn [flat_map].
    rewrite <- !app_assoc. reflexivity.
  - rewrite rep_numbers1. f_equal. lia.
  - eapply called_from; [exact Eall|]. rewrite rep_executed1.
    subst m2. cbn [after_turn executed]. rewrite rep_executed0.
    rewrite <- !app_assoc. reflexivity.
  - eapply called_from; [exact Eq|]. subst m2.
    cbn [after_turn executed].
    rewrite rep_executed0. rewrite <- !app_assoc. reflexivity.
Qed.

(** C4: once the images are loaded, the output of
    [execute_visprog_comparison] is the banner and one record per
    question, in order; the running total printed under the N-th
    record is the number of records among the first N whose flag is
    true, for every N from 1 to the number of questions; and the
    counter ends at the number of all true flags. *)
Theorem C4_running_total (img1_path img2_path : pystr)
        (questions : list pyval) m (w : World) :
  visprog_setup img1_path img2_path (world m) = (w, inr tt) ->
  exists recs,
    printed (execute_visprog_comparison img1_path img2_path questions) m
    = ResultsBanner :: flat_map render recs
    /\ List.map question recs = questions
    /\ List.map running_total recs
       = List.map (fun N => count_different (firstn N recs))
                  (seq 1 (List.length questions))
    /\ difference_counter
         (snd (execute_visprog_comparison img1_path img2_path questions m))
       = count_different recs.
Proof.
  intros Hsetup.
  set (m0 := {| world := w; stdout := stdout m ++ [ResultsBanner];
                opened := opened m; posted := posted m;
                executed := executed m; difference_counter := 0 |}).
  destruct (loop_reported questions 1 m0) as [mf [recs [calls [E R]]]].
  assert (Erun : execute_visprog_comparison img1_path img2_path questions m
                 = (inr tt, mf)).
  { unfold execute_visprog_comparison, question_loop, bind, set_counter,
      setup, print. cbn. rewrite Hsetup. cbn. exact E. }
  destruct R. exists recs.
  split; [|split; [|split]].
  - eapply printed_from; [exact Erun|]. rewrite rep_stdout0.
    subst m0. cbn [stdout]. rewrite <- app_assoc. reflexivity.
  - assumption.
  - unfold totals_follow in rep_totals0. rewrite rep_totals0.
    rewrite <- rep_questions0, length_map. reflexivity.
  - rewrite Erun. cbn [snd]. rewrite rep_counter0. reflexivity.
Qed.

End EvaluationClaims.

(** The engine answers [Yes] and [ yes ] about the dog, [Yes] and
    [No] about the boat. *)
Lemma C2_difference_verdict_witness :
  printed (loop_body (C := Stub.collaborators Stub.all_files) 1
                     (PStr (py "Is there a dog?"))) (boot 0)
  = [ QuestionHeader 1 (PStr (py "Is there a dog?"));
      LeftAnswer (py "Yes"); RightAnswer (py " yes ");
      Different false; TotalDifferences 0 ]
  /\ printed (loop_body (C := Stub.collaborators Stub.all_files) 1
                        (PStr (py "Is there a boat?"))) (boot 0)
     = [ QuestionHeader 1 (PStr (py "Is there a boat?"));
         LeftAnswer (py "Yes"); RightAnswer (py "No");
         Different true; TotalDifferences 1 ].
Proof.
  split.
  - destruct (C2_difference_verdict
                (C := Stub.collaborators Stub.all_files) 1
                (PStr (py "Is there a dog?")) (boot 0)
                (left_ans := py "Yes") (right_ans := py " yes ")
                (w1 := 1) (w2 := 2) eq_refl eq_refl)
      as [d [Hp [_ [Hd _]]]].
    destruct d; [|exact Hp].
    exfalso. apply (proj1 Hd eq_refl). reflexivity.
  - destruct (C2_difference_verdict
                (C := Stub.collaborators Stub.all_files) 1
                (PStr (py "Is there a boat?")) (boot 0)
                (left_ans := py "Yes") (right_ans := py "No")
                (w1 := 1) (w2 := 2) eq_refl eq_refl)
      as [d [Hp [_ [Hd _]]]].
    destruct d; [exact Hp|].
    exfalso. assert (F : false = true); [|discriminate F].
    apply (proj2 Hd). intros E. vm_compute in E. discriminate E.
Defined.

(** The engine fails on the LEFT image for the ghost. *)
Lemma C10_left_failure_witness :
  called (loop_body (C := Stub.collaborators Stub.all_files) 3
                    (PStr (py "Is there a ghost?"))) (boot 0)
  = [program (C := Stub.collaborators Stub.all_files) "LEFT"
             (PStr (py "Is there a ghost?"))]
  /\ printed (loop_body (C := Stub.collaborators Stub.all_files) 3
                        (PStr (py "Is there a ghost?"))) (boot 0)
     = [ QuestionHeader 3 (PStr (py "Is there a ghost?"));
         ExecutionError (OtherException (py "CUDA out of memory"));
         TotalDifferences 0 ].
Proof.
  destruct (C10_left_failure
              (C := Stub.collaborators Stub.all_files) 3
              (PStr (py "Is there a ghost?")) (boot 0)
              (w1 := 1) (e := OtherException (py "CUDA out of memory"))
              eq_refl)
    as [_ [Hc [_ [Hp _]]]].
  split; [exact Hc | exact Hp].
Defined.

(** Five questions, the engine failing on the third: the fourth and
    the fifth are reported all the same. *)
Lemma C3_failure_isolated_witness :
  exists failed recs_after,
    answers failed = Failed (OtherException (py "CUDA out of memory"))
    /\ number failed = 3
    /\ List.map question recs_after
       = [ PStr (py "How many cars are there?");
           PStr (py "Is there a boat on the left?") ]
    /\ List.map number recs_after = [4; 5]
    /\ fst (question_loop (C := Stub.collaborators Stub.all_files)
                          Stub.five (boot 0)) = inr tt.
Proof.
  destruct (@C3_failure_isolated nat
              (Stub.collaborators Stub.all_files)
              [ PStr (py "Is there a boat?"); PStr (py "Is there a dog?") ]
              [ PStr (py "How many cars are there?");
                PStr (py "Is there a boat on the left?") ]
              (PStr (py "Is there a ghost?")) (boot 0)
              (OtherException (py "CUDA out of memory"))
              (or_introl (ex_intro _ 5 eq_refl)))
    as [rb [failed [ra [cb [ca [H1 [_ [_ [_ [H5 [H6 [H7 [H8 _]]]]]]]]]]]]].
  exists failed, ra. repeat split; assumption.
Defined.

(** The five questions, from a machine whose images load. *)
Lemma C4_running_total_witness :
  exists recs,
    printed (execute_visprog_comparison
               (C := Stub.collaborators Stub.all_files)
               Stub.left_png Stub.right_png Stub.five) (boot 0)
    = ResultsBanner :: flat_map render recs
    /\ List.map question recs = Stub.five
    /\ List.map running_total recs
       = List.map (fun N => count_different (firstn N recs)) [1; 2; 3; 4; 5].
Proof.
  destruct (C4_running_total
              (C := Stub.collaborators Stub.all_files)
              Stub.left_png Stub.right_png Stub.five (boot 0)
              (w := 0) eq_refl)
    as [recs [H1 [H2 [H3 _]]]].
  exists recs. repeat split; assumption.
Defined.

(** ** Claims on the orchestrator *)

Section OrchestratorClaims.

Context {World : Type} {C : Collaborators World}.

Implicit Types (m : machine World).

(** C8: when one of the two scene image paths does not exist,
    [compare_images] raises [FileNotFoundError] and leaves the
    machine as it found it: no file was opened, no request posted
    (the question generation was not entered), nothing printed. *)
Theorem C8_missing_scene_image (img1_path img2_path diff_path : pystr) m :
  os_path_exists img1_path (world m) = false
  \/ os_path_exists img2_path (world m) = false ->
  compare_images img1_path img2_path diff_path m
  = (inl (FileNotFoundError (py " One or both image paths do not exist.")),
     m)
  /\ posted (snd (compare_images img1_path img2_path diff_path m))
     = posted m
  /\ opened (snd (compare_images img1_path img2_path diff_path m))
     = opened m.
Proof.
  intros H.
  assert (E : compare_images img1_path img2_path diff_path m
              = (inl (FileNotFoundError
                        (py " One or both image paths do not exist.")), m)).
  { unfold compare_images, bind, path_exists, raise.
    destruct H as [H|H]; rewrite H.
    - reflexivity.
    - rewrite andb_false_r. reflexivity. }
  rewrite E. repeat split.
Qed.

(** C9, amended: the heatmap path is not existence-checked; when
    the two scene images exist and can be read and reading the
    heatmap raises [e], [compare_images] ends with that very [e],
    raised inside [get_comparison_questions] by
    [encode_image_to_base64] after the three files were opened and
    before any request is posted. *)
Theorem C9_unreadable_heatmap (img1_path img2_path diff_path : pystr) m
        (data1 data2 : list N) (e : exn) :
  os_path_exists img1_path (world m) = true ->
  os_path_exists img2_path (world m) = true ->
  read_binary img1_path (world m) = inr data1 ->
  read_binary img2_path (world m) = inr data2 ->
  read_binary diff_path (world m) = inl e ->
  fst (compare_images img1_path img2_path diff_path m) = inl e
  /\ fst (get_comparison_questions img1_path img2_path diff_path m) = inl e
  /\ posted (snd (compare_images img1_path img2_path diff_path m))
     = posted m
  /\ opened (snd (compare_images img1_path img2_path diff_path m))
     = opened m ++ [img1_path; img2_path; diff_path]
  /\ printed (compare_images img1_path img2_path diff_path) m
     = [GettingQuestions].
Proof.
  intros X1 X2 R1 R2 RD.
  assert (G : forall m', world m' = world m ->
              get_comparison_questions img1_path img2_path diff_path m'
              = (inl e,
                 {| world := world m'; stdout := stdout m';
                    opened := opened m'
                              ++ [img1_path; img2_path; diff_path];
                    posted := posted m'; executed := executed m';
                    difference_counter := difference_counter m' |})).
  { intros m' Hw.
    unfold get_comparison_questions, encode_image_to_base64, bind,
      open_read, ret. cbn. rewrite Hw, R1. cbn. rewrite R2. cbn.
    rewrite RD. rewrite <- !app_assoc. reflexivity. }
  assert (E : compare_images img1_path img2_path diff_path m
              = (inl e,
                 {| world := world m;
                    stdout := stdout m ++ [GettingQuestions];
                    opened := opened m
                              ++ [img1_path; img2_path; diff_path];
                    posted := posted m; executed := executed m;
                    difference_counter := difference_counter m |})).
  { unfold compare_images, bind at 1 2 3, path_exists. rewrite X1, X2.
    cbn [andb negb]. unfold bind at 1, print at 1. unfold bind at 1.
    rewrite G by reflexivity. reflexivity. }
  split; [rewrite E; reflexivity|].
  split; [rewrite (G m eq_refl); reflexivity|].
  split; [rewrite E; reflexivity|].
  split; [rewrite E; reflexivity|].
  eapply printed_from; [exact E | reflexivity].
Qed.

End OrchestratorClaims.

(** The RIGHT image is missing. *)
Lemma C8_missing_scene_image_witness :
  Stub.run_without_right
  = (inl (FileNotFoundError (py " One or both image paths do not exist.")),
     boot 0)
  /\ posted (snd Stub.run_without_right) = []
  /\ opened (snd Stub.run_without_right) = [].
Proof.
  exact (C8_missing_scene_image
           (C := Stub.collaborators Stub.no_right)
           Stub.left_png Stub.right_png Stub.heatmap_png (boot 0)
           (or_intror eq_refl)).
Defined.

(** C9, as stated, fails: with a missing heatmap the run ends with
    the [FileNotFoundError] of [open], no request was ever posted, and
    the exception is not the [RuntimeError] the question generation
    raises for a transport failure. *)
Lemma C9_counterexample :
  fst Stub.run_without_heatmap
  = inl (FileNotFoundError
           (py "[Errno 2] No such file or directory: 'assets/difference_heatmap.png'"))
  /\ posted (snd Stub.run_without_heatmap) = []
  /\ forall msg, fst Stub.run_without_heatmap <> inl (RuntimeError msg).
Proof.
  split; [reflexivity|]. split; [reflexivity|].
  intros msg H. vm_compute in H. discriminate H.
Qed.

(** The heatmap is missing, the two scene images are there. *)
Lemma C9_unreadable_heatmap_witness :
  fst Stub.run_without_heatmap
  = inl (FileNotFoundError
           (py "[Errno 2] No such file or directory: 'assets/difference_heatmap.png'"))
  /\ posted (snd Stub.run_without_heatmap) = []
  /\ opened (snd Stub.run_without_heatmap)
     = [Stub.left_png; Stub.right_png; Stub.heatmap_png].
Proof.
  destruct (C9_unreadable_heatmap
              (C := Stub.collaborators Stub.no_heatmap)
              Stub.left_png Stub.right_png Stub.heatmap_png (boot 0)
              (data1 := [137; 80; 78; 71]%N)
              (data2 := [137; 80; 78; 71; 0]%N)
              (e := FileNotFoundError
                      (py "[Errno 2] No such file or directory: 'assets/difference_heatmap.png'"))
              eq_refl eq_refl eq_refl eq_refl eq_refl)
    as [H1 [_ [H3 [H4 _]]]].
  split; [exact H1|]. split; [exact H3 | exact H4].
Defined.

(* ================================================================== *)
(** * Part 6.  Further properties of the code                           *)
(* ================================================================== *)

(** ** The fallback chain, lines 71-113 *)

(** The first [try] block never changes the result: what it returns,
    the second block would return as well. *)
Theorem fenced_tier_redundant
        (json_loads : pystr -> exn + pyval) (content : pystr) :
  extract_questions json_loads content
  = or_else (try_print (raw_json json_loads content))
      (or_else (try_print (numbered_list content))
         (inr fallback_questions)).
Proof.
  unfold extract_questions, fenced_json, raw_json.
  destruct (startswith (py "```json") (strip content)); [|reflexivity].
  destruct (loads_list json_loads _); reflexivity.
Qed.



Lemma plain_unwrapped (a : pystr) :
  strip (Fence.plain a) = Fence.plain a
  /\ startswith (py "```json") (Fence.plain a) = false
  /\ startswith (py "```") (Fence.plain a) = true
  /\ strip (strip_chars (py "```") (Fence.plain a)) = strip a.
Proof.
  unfold Fence.plain. split; [|split; [|split]].
  - change (py "```" ++ nl ++ a ++ nl ++ py "```")
      with (96%N :: (py "``" ++ nl ++ a ++ nl ++ py "``" ++ [96%N])).
    replace (py "``" ++ nl ++ a ++ nl ++ py "``" ++ [96%N])
      with ((py "``" ++ nl ++ a ++ nl ++ py "``") ++ [96%N])
      by (rewrite <- !app_assoc; reflexivity).
    apply strip_by_kept; reflexivity.
  - reflexivity.
  - apply startswith_app.
  - unfold strip_chars.
    replace (py "```" ++ nl ++ a ++ nl ++ py "```")
      with (py "```" ++ (nl ++ a ++ nl) ++ py "```")
      by (rewrite <- !app_assoc; reflexivity).
    rewrite strip_by_padding by reflexivity.
    change (nl ++ a ++ nl) with (10%N :: a ++ [10%N]).
    rewrite strip_by_kept by reflexivity.
    change (10%N :: a ++ [10%N]) with (nl ++ a ++ nl).
    unfold strip. apply strip_by_padding; reflexivity.
Qed.

(** An array in a plain fence (three backticks, no language name)
    gives the list the bare array gives; it is the second [try] block
    that unwraps it. *)
Theorem plain_fence_unwrapped
        (json_loads : pystr -> exn + pyval)
        (array_text : pystr) (qs : list pyval) :
  json_loads (strip array_text) = inr (PList qs) ->
  fenced_json json_loads (Fence.plain array_text) = Next
  /\ extract_questions json_loads (Fence.plain array_text) = inr qs.
Proof.
  intros H.
  destruct (plain_unwrapped array_text) as [S1 [S2 [S3 S4]]].
  assert (E1 : fenced_json json_loads (Fence.plain array_text) = Next).
  { unfold fenced_json. rewrite S1, S2. reflexivity. }
  split; [exact E1|].
  unfold extract_questions. rewrite E1. cbn [try_print or_else].
  unfold raw_json. rewrite S1, S2, S3, S4.
  unfold loads_list. rewrite H. reflexivity.
Qed.

Lemma plain_fence_unwrapped_witness :
  extract (Fence.plain (pyq "['A?', 'B?']"))
  = inr [PStr (py "A?"); PStr (py "B?")].
Proof.
  apply (plain_fence_unwrapped Json.loads (pyq "['A?', 'B?']")).
  reflexivity.
Defined.

Lemma glued_json_unwrapped (mid : pystr) :
  strip (Fence.glued_json (91%N :: mid ++ [93%N]))
  = Fence.glued_json (91%N :: mid ++ [93%N])
  /\ startswith (py "```json") (Fence.glued_json (91%N :: mid ++ [93%N]))
     = true
  /\ strip (strip_chars (py "```")
              (strip_chars (py "```json")
                 (Fence.glued_json (91%N :: mid ++ [93%N]))))
     = 91%N :: mid ++ [93%N].
Proof.
  unfold Fence.glued_json. split; [|split].
  - change (py "```json" ++ (91%N :: mid ++ [93%N]) ++ py "```")
      with (96%N :: (py "``json" ++ (91%N :: mid ++ [93%N])
                     ++ py "``" ++ [96%N])).
    replace (py "``json" ++ (91%N :: mid ++ [93%N]) ++ py "``" ++ [96%N])
      with ((py "``json" ++ (91%N :: mid ++ [93%N]) ++ py "``") ++ [96%N])
      by (rewrite <- !app_assoc; reflexivity).
    apply strip_by_kept; reflexivity.
  - apply startswith_app.
  - unfold strip_chars at 2.
    rewrite strip_by_padding by reflexivity.
    rewrite strip_by_kept by reflexivity.
    unfold strip_chars. rewrite strip_by_kept by reflexivity.
    unfold strip. apply strip_by_kept; reflexivity.
Qed.

Lemma glued_plain_unwrapped (mid : pystr) :
  strip (Fence.glued_plain (91%N :: mid ++ [93%N]))
  = Fence.glued_plain (91%N :: mid ++ [93%N])
  /\ startswith (py "```json") (Fence.glued_plain (91%N :: mid ++ [93%N]))
     = false
  /\ startswith (py "```") (Fence.glued_plain (91%N :: mid ++ [93%N]))
     = true
  /\ strip (strip_chars (py "```")
              (Fence.glued_plain (91%N :: mid ++ [93%N])))
     = 91%N :: mid ++ [93%N].
Proof.
  unfold Fence.glued_plain. split; [|split; [|split]].
  - change (py "```" ++ (91%N :: mid ++ [93%N]) ++ py "```")
      with (96%N :: (py "``" ++ (91%N :: mid ++ [93%N])
                     ++ py "``" ++ [96%N])).
    replace (py "``" ++ (91%N :: mid ++ [93%N]) ++ py "``" ++ [96%N])
      with ((py "``" ++ (91%N :: mid ++ [93%N]) ++ py "``") ++ [96%N])
      by (rewrite <- !app_assoc; reflexivity).
    apply strip_by_kept; reflexivity.
  - reflexivity.
  - apply startswith_app.
  - unfold strip_chars.
    rewrite strip_by_padding by reflexivity.
    rewrite strip_by_kept by reflexivity.
    unfold strip. apply strip_by_kept; reflexivity.
Qed.

(** A fence glued to the array, with no line break between the
    markers and the brackets, comes off as well, with or without the
    language name: the character set the markers are stripped by holds
    neither bracket. *)
Theorem glued_fence_unwrapped
        (json_loads : pystr -> exn + pyval)
        (mid : pystr) (qs : list pyval) :
  json_loads (91%N :: mid ++ [93%N]) = inr (PList qs) ->
  extract_questions json_loads (Fence.glued_json (91%N :: mid ++ [93%N]))
  = inr qs
  /\ extract_questions json_loads
       (Fence.glued_plain (91%N :: mid ++ [93%N]))
     = inr qs.
Proof.
  intros H. split.
  - destruct (glued_json_unwrapped mid) as [S1 [S2 S3]].
    unfold extract_questions, fenced_json. rewrite S1, S2, S3.
    unfold loads_list. rewrite H. reflexivity.
  - destruct (glued_plain_unwrapped mid) as [S1 [S2 [S3 S4]]].
    unfold extract_questions, fenced_json, raw_json.
    rewrite S1, S2, S3, S4. cbn [try_print or_else].
    unfold loads_list. rewrite H. reflexivity.
Qed.

Lemma glued_fence_unwrapped_witness :
  extract (py "```json" ++ pyq "['A?', 'B?']" ++ py "```")
  = inr [PStr (py "A?"); PStr (py "B?")]
  /\ extract (py "```" ++ pyq "['A?', 'B?']" ++ py "```")
     = inr [PStr (py "A?"); PStr (py "B?")].
Proof.
  apply (glued_fence_unwrapped Json.loads
           (pyq "'A?', 'B?'") (qs := [PStr (py "A?"); PStr (py "B?")])).
  reflexivity.
Defined.

(** *** Periods and the numbered-list tier *)

Lemma count_char_app (c : N) (a b : pystr) :
  count_char c (a ++ b) = count_char c a + count_char c b.
Proof.
  unfold count_char. rewrite filter_app, length_app. reflexivity.
Qed.

Lemma count_char_rev (c : N) (s : pystr) :
  count_char c (rev s) = count_char c s.
Proof.
  induction s as [|x s IH]; [reflexivity|].
  cbn [rev]. rewrite count_char_app, IH.
  change (x :: s) with ([x] ++ s). rewrite count_char_app. lia.
Qed.

Lemma count_char_cons (c x : N) (s : pystr) :
  count_char c (x :: s)
  = (if N.eqb c x then 1 else 0) + count_char c s.
Proof.
  unfold count_char. cbn [filter]. destruct (N.eqb c x); reflexivity.
Qed.

Lemma count_char_lstrip (drop : N -> bool) (c : N) (s : pystr) :
  count_char c (lstrip_by drop s) <= count_char c s.
Proof.
  induction s as [|x s IH]; cbn [lstrip_by]; [lia|].
  destruct (drop x); [|lia].
  rewrite (count_char_cons c x s). lia.
Qed.

Lemma count_char_strip (c : N) (s : pystr) :
  count_char c (strip s) <= count_char c s.
Proof.
  unfold strip, strip_by, rstrip_by.
  rewrite count_char_rev.
  etransitivity; [apply count_char_lstrip|].
  rewrite count_char_rev. apply count_char_lstrip.
Qed.

(** The lines of a text hold no more periods than the text. *)
Lemma splitlines_periods (n : nat) :
  forall (s cur : pystr),
    List.length s <= n ->
    list_sum (List.map (count_char 46) (splitlines_from cur s))
    <= count_char 46 cur + count_char 46 s.
Proof.
  unfold list_sum.
  induction n as [|n IH]; intros s cur Hn.
  - destruct s; [|simpl in Hn; lia].
    cbn [splitlines_from]. destruct cur; cbn [List.map list_sum fold_right]; [lia|].
    rewrite count_char_rev. lia.
  - destruct s as [|c t].
    + cbn [splitlines_from]. destruct cur; cbn [List.map list_sum fold_right]; [lia|].
      rewrite count_char_rev. lia.
    + cbn [List.length] in Hn. cbn [splitlines_from].
      rewrite (count_char_cons 46 c t).
      destruct (N.eqb c 13) eqn:E13.
      * destruct t as [|d t'].
        -- cbn [splitlines_from List.map list_sum fold_right].
           rewrite count_char_rev. lia.
        -- rewrite (count_char_cons 46 d t').
           destruct (N.eqb d 10).
           ++ cbn [List.map list_sum fold_right]. rewrite count_char_rev.
              specialize (IH t' [] ltac:(cbn [List.length] in Hn; lia)).
              change (count_char 46 []) with 0 in IH. lia.
           ++ cbn [List.map list_sum fold_right]. rewrite count_char_rev.
              specialize (IH (d :: t') [] ltac:(lia)).
              rewrite (count_char_cons 46 d t') in IH.
              change (count_char 46 []) with 0 in IH. lia.
      * destruct (is_linebreak c).
        -- cbn [List.map list_sum fold_right]. rewrite count_char_rev.
           specialize (IH t [] ltac:(lia)).
           change (count_char 46 []) with 0 in IH. lia.
        -- specialize (IH t (c :: cur) ltac:(lia)).
           rewrite (count_char_cons 46 c cur) in IH. lia.
Qed.

Lemma after_first_period_counted (line t : pystr) :
  Spec.after_first_period line = Some t -> 1 <= count_char 46 line.
Proof.
  induction line as [|c line IH]; cbn [Spec.after_first_period];
    [discriminate|].
  rewrite (count_char_cons 46 c line), (N.eqb_sym 46 c).
  destruct (N.eqb c 46); [lia|].
  intros H. specialize (IH H). lia.
Qed.

Lemma candidates_periods (lines : list pystr) :
  List.length (Spec.candidates lines)
  <= list_sum (List.map (count_char 46) lines).
Proof.
  unfold list_sum.
  induction lines as [|line rest IH];
    cbn [Spec.candidates List.map fold_right List.length]; [lia|].
  destruct (Spec.after_first_period line) as [t|] eqn:E; [|lia].
  apply after_first_period_counted in E.
  destruct (strip t); cbn [List.length]; lia.
Qed.

Lemma candidates_lines (lines : list pystr) :
  List.length (Spec.candidates lines) <= List.length lines.
Proof.
  induction lines as [|line rest IH];
    cbn [Spec.candidates List.length]; [lia|].
  destruct (Spec.after_first_period line) as [t|]; [|lia].
  destruct (strip t); cbn [List.length]; lia.
Qed.

(** A completion with fewer than three periods is never read as a
    numbered list; when it is not a JSON array either, the questions
    are the fixed fallback. *)
Theorem few_periods_no_numbered_list (content : pystr) :
  count_char 46 content < 3 ->
  numbered_list content = Next
  /\ forall json_loads,
      try_print (fenced_json json_loads content) = Next ->
      try_print (raw_json json_loads content) = Next ->
      extract_questions json_loads content = inr fallback_questions.
Proof.
  intros H.
  assert (E : numbered_list content = Next).
  { rewrite numbered_list_candidates.
    pose proof (candidates_periods (splitlines (strip content))) as H1.
    pose proof (splitlines_periods (strip content) [] (le_n _)) as H2.
    pose proof (count_char_strip 46 content) as H3.
    change (count_char 46 []) with 0 in H2. unfold splitlines in *.
    destruct (Nat.leb 3 _) eqn:L; [|reflexivity].
    apply Nat.leb_le in L. lia. }
  split; [exact E|].
  intros json_loads E1 E2. unfold extract_questions.
  rewrite E1, E2, E. reflexivity.
Qed.

Lemma few_periods_no_numbered_list_witness :
  extract (py "Sure. Here are the questions" ++ nl
           ++ py "- Is there a boat?" ++ nl
           ++ py "- How many cars (approx.) are there?")
  = inr fallback_questions.
Proof.
  apply (few_periods_no_numbered_list
           (py "Sure. Here are the questions" ++ nl
            ++ py "- Is there a boat?" ++ nl
            ++ py "- How many cars (approx.) are there?"));
    [vm_compute; lia | reflexivity | reflexivity].
Defined.

(** *** What the numbered-list tier returns *)

Section StripFixed.

Variable drop : N -> bool.

Lemma lstrip_head (s : pystr) (c : N) (t : pystr) :
  lstrip_by drop s = c :: t -> drop c = false.
Proof.
  induction s as [|x s IH]; cbn [lstrip_by]; [discriminate|].
  destruct (drop x) eqn:Hx; [exact IH|].
  intros E; injection E as -> _. exact Hx.
Qed.

Lemma lstrip_snoc_kept (s : pystr) (c : N) :
  drop c = false -> exists y, lstrip_by drop (s ++ [c]) = y ++ [c].
Proof.
  intros Hc. induction s as [|x s IH]; cbn [app lstrip_by].
  - rewrite Hc. exists []. reflexivity.
  - destruct (drop x); [exact IH|].
    exists (x :: s). reflexivity.
Qed.

(** Stripping what was stripped changes nothing. *)
Lemma strip_by_fixed (s : pystr) :
  strip_by drop (strip_by drop s) = strip_by drop s.
Proof.
  unfold strip_by at 2 3.
  destruct (lstrip_by drop s) as [|c u] eqn:Eu; [reflexivity|].
  pose proof (lstrip_head s Eu) as Hc.
  unfold rstrip_by. cbn [rev].
  destruct (lstrip_snoc_kept (rev u) Hc) as [y Ey]. rewrite Ey.
  rewrite rev_app_distr. cbn [rev app].
  destruct (lstrip_by drop (rev u ++ [c])) as [|d v] eqn:Ev.
  - destruct y; discriminate Ey.
  - pose proof (lstrip_head (rev u ++ [c]) Ev) as Hd.
    assert (Ey' : rev (y ++ [c]) = c :: rev y)
      by (rewrite rev_app_distr; reflexivity).
    rewrite <- Ey' , <- Ey.
    cbn [rev]. unfold strip_by.
    assert (Eh : rev v ++ [d] = c :: rev y).
    { rewrite <- Ey'. rewrite <- Ey. reflexivity. }
    rewrite Eh. rewrite lstrip_kept by exact Hc.
    rewrite <- Eh. apply rstrip_kept. exact Hd.
Qed.

End StripFixed.

(** A numbered list the tier returns has at least three entries and
    no more entries than the trimmed completion has lines; every entry
    is a string that is not empty and has no white space left around
    it. *)
Theorem numbered_entries_trimmed (content : pystr) (qs : list pyval) :
  numbered_list content = Return qs ->
  3 <= List.length qs
  /\ List.length qs <= List.length (splitlines (strip content))
  /\ Forall (fun q => exists s, q = PStr s /\ s <> [] /\ strip s = s) qs.
Proof.
  rewrite numbered_list_candidates.
  destruct (Nat.leb 3 _) eqn:L; [|discriminate].
  apply Nat.leb_le in L. intros E. injection E as <-.
  rewrite length_map. split; [exact L|]. split; [apply candidates_lines|].
  apply Forall_map.
  generalize (splitlines (strip content)). intros lines.
  induction lines as [|line rest IH]; cbn [Spec.candidates]; [constructor|].
  destruct (Spec.after_first_period line) as [t|]; [|exact IH].
  destruct (strip t) as [|c q] eqn:Et; [exact IH|].
  constructor; [|exact IH].
  exists (c :: q). split; [reflexivity|]. split; [discriminate|].
  rewrite <- Et. apply strip_by_fixed.
Qed.

Lemma numbered_entries_trimmed_witness :
  exists qs,
    numbered_list (py "1.   Is there a dog?  " ++ nl
                   ++ py "2. What color is the sky?" ++ nl
                   ++ py "3.How many trees?" ++ nl)
    = Return qs
    /\ List.length qs = 3
    /\ Forall (fun q => exists s, q = PStr s /\ s <> [] /\ strip s = s) qs.
Proof.
  eexists. split; [reflexivity|]. split; [reflexivity|].
  apply (numbered_entries_trimmed
           (py "1.   Is there a dog?  " ++ nl
            ++ py "2. What color is the sky?" ++ nl
            ++ py "3.How many trees?" ++ nl)).
  reflexivity.
Defined.

(** ** [get_comparison_questions], lines 37-69 *)

(** The chain always ends with a list, whatever [json.loads] does. *)
Lemma extract_returns (json_loads : pystr -> exn + pyval)
      (content : pystr) :
  exists qs, extract_questions json_loads content = inr qs.
Proof.
  unfold extract_questions.
  destruct (fenced_json json_loads content);
    destruct (raw_json json_loads content);
    destruct (numbered_list content);
    cbn [try_print or_else]; eexists; reflexivity.
Qed.

Section QuestionGeneration.

Context {World : Type} {C : Collaborators World}.

Implicit Types (m : machine World).

(** The machine once the three files were read. *)
Lemma three_reads (img1_path img2_path diff_path : pystr) m
      (data1 data2 data3 : list N) :
  read_binary img1_path (world m) = inr data1 ->
  read_binary img2_path (world m) = inr data2 ->
  read_binary diff_path (world m) = inr data3 ->
  get_comparison_questions img1_path img2_path diff_path m
  = bind (post (completion_request OPENAI_API_KEY data1 data2 data3))
      (fun res =>
         if negb (N.eqb (status_code res) 200) then
           raise (RuntimeError (py "OpenAI API error: "
                                ++ str_of_N (status_code res)
                                ++ py " - " ++ text res))
         else
           bind (lift (message_content res))
                (fun content =>
                   bind (print (RawResponse content))
                        (fun _ =>
                           bind (print_all
                                   (extraction_prints Json.loads content))
                                (fun _ => lift (extract content)))))
      {| world := world m; stdout := stdout m;
         opened := opened m ++ [img1_path; img2_path; diff_path];
         posted := posted m; executed := executed m;
         difference_counter := difference_counter m |}.
Proof.
  intros R1 R2 R3.
  unfold get_comparison_questions, encode_image_to_base64.
  unfold bind at 1 2 3 4 5 6, open_read, ret.
  cbn [world stdout opened posted executed difference_counter].
  rewrite R1.
  cbn [world stdout opened posted executed difference_counter].
  rewrite R2.
  cbn [world stdout opened posted executed difference_counter].
  rewrite R3.
  cbn [world stdout opened posted executed difference_counter].
  rewrite <- !app_assoc. reflexivity.
Qed.

(** A reply whose status is not 200 makes the function raise
    [RuntimeError] with the status and the body in its message, after
    the three files were opened and the one request was posted;
    nothing is printed, and the completion is not looked at. *)
Theorem non_200_raises (img1_path img2_path diff_path : pystr) m
        (data1 data2 data3 : list N) (w : World) (res : response) :
  read_binary img1_path (world m) = inr data1 ->
  read_binary img2_path (world m) = inr data2 ->
  read_binary diff_path (world m) = inr data3 ->
  requests_post (completion_request OPENAI_API_KEY data1 data2 data3)
                (world m) = (w, inr res) ->
  status_code res <> 200%N ->
  get_comparison_questions img1_path img2_path diff_path m
  = (inl (RuntimeError (py "OpenAI API error: "
                        ++ str_of_N (status_code res)
                        ++ py " - " ++ text res)),
     {| world := w; stdout := stdout m;
        opened := opened m ++ [img1_path; img2_path; diff_path];
        posted := posted m
                  ++ [completion_request OPENAI_API_KEY data1 data2 data3];
        executed := executed m;
        difference_counter := difference_counter m |}).
Proof.
  intros R1 R2 R3 P S.
  rewrite (three_reads _ _ _ m R1 R2 R3).
  unfold bind, post. cbn [world stdout opened posted executed
                          difference_counter].
  rewrite P. apply N.eqb_neq in S. rewrite S. reflexivity.
Qed.

(** With status 200 and a completion text, the function prints the
    text, then the diagnostics of the fallback chain, and returns what
    the chain makes of the text, which is always a list; it posted one
    request, which carries the key, the model name, the prompt and the
    three files in base64, in the order LEFT, RIGHT, heatmap. *)
Theorem completion_extracted (img1_path img2_path diff_path : pystr) m
        (data1 data2 data3 : list N) (w : World) (res : response)
        (content : pystr) :
  read_binary img1_path (world m) = inr data1 ->
  read_binary img2_path (world m) = inr data2 ->
  read_binary diff_path (world m) = inr data3 ->
  requests_post (completion_request OPENAI_API_KEY data1 data2 data3)
                (world m) = (w, inr res) ->
  status_code res = 200%N ->
  message_content res = inr content ->
  get_comparison_questions img1_path img2_path diff_path m
  = (extract content,
     {| world := w;
        stdout := stdout m
                  ++ RawResponse content
                     :: extraction_prints Json.loads content;
        opened := opened m ++ [img1_path; img2_path; diff_path];
        posted := posted m
                  ++ [completion_request OPENAI_API_KEY data1 data2 data3];
        executed := executed m;
        difference_counter := difference_counter m |})
  /\ exists qs, extract content = inr qs.
Proof.
  intros R1 R2 R3 P S B. split; [|apply extract_returns].
  rewrite (three_reads _ _ _ m R1 R2 R3).
  unfold bind at 1, post. cbn [world stdout opened posted executed
                               difference_counter].
  rewrite P, S. cbn [N.eqb Pos.eqb negb].
  unfold bind, lift, print, print_all. rewrite B.
  cbn [world stdout opened posted executed difference_counter].
  rewrite <- app_assoc. reflexivity.
Qed.

(** No request is posted unless the three files were read: when
    reading one of them raises, the function raises, posts nothing and
    prints nothing. *)
Theorem unread_file_no_request (img1_path img2_path diff_path : pystr) m :
  (exists path e,
      In path [img1_path; img2_path; diff_path]
      /\ read_binary path (world m) = inl e) ->
  (exists e, fst (get_comparison_questions img1_path img2_path diff_path m)
             = inl e)
  /\ posted (snd (get_comparison_questions img1_path img2_path diff_path m))
     = posted m
  /\ stdout (snd (get_comparison_questions img1_path img2_path diff_path m))
     = stdout m.
Proof.
  intros [path [e [Hin He]]].
  assert (H : exists e' mf,
             get_comparison_questions img1_path img2_path diff_path m
             = (inl e', mf)
             /\ posted mf = posted m /\ stdout mf = stdout m).
  { unfold get_comparison_questions, encode_image_to_base64.
    unfold bind at 1 2 3 4 5 6, open_read, ret.
    cbn [world stdout opened posted executed difference_counter].
    destruct (read_binary img1_path (world m)) as [e1|d1] eqn:R1;
      cbn [world stdout opened posted executed difference_counter].
    { eexists _, _. split; [reflexivity|]. split; reflexivity. }
    destruct (read_binary img2_path (world m)) as [e2|d2] eqn:R2;
      cbn [world stdout opened posted executed difference_counter].
    { eexists _, _. split; [reflexivity|]. split; reflexivity. }
    destruct (read_binary diff_path (world m)) as [e3|d3] eqn:R3;
      cbn [world stdout opened posted executed difference_counter].
    { eexists _, _. split; [reflexivity|]. split; reflexivity. }
    exfalso. cbn [In] in Hin.
    destruct Hin as [<-|[<-|[<-|[]]]]; congruence. }
  destruct H as [e' [mf [E [HP HS]]]]. rewrite E. cbn [fst snd].
  split; [exists e'; reflexivity|]. split; assumption.
Qed.

End QuestionGeneration.

Lemma non_200_raises_witness :
  fst (get_comparison_questions
         (C := Stub.collaborators
                 {| Stub.files := Stub.files Stub.all_files;
                    Stub.reply :=
                      {| status_code := 401;
                         text := py "Incorrect API key";
                         message_content := inr (py "[]") |};
                    Stub.engine := Stub.vqa |})
         Stub.left_png Stub.right_png Stub.heatmap_png (boot 0))
  = inl (RuntimeError (py "OpenAI API error: 401 - Incorrect API key")).
Proof.
  rewrite (non_200_raises
             (C := Stub.collaborators
                     {| Stub.files := Stub.files Stub.all_files;
                        Stub.reply :=
                          {| status_code := 401;
                             text := py "Incorrect API key";
                             message_content := inr (py "[]") |};
                        Stub.engine := Stub.vqa |})
             Stub.left_png Stub.right_png Stub.heatmap_png (boot 0)
             (data1 := [137; 80; 78; 71]%N)
             (data2 := [137; 80; 78; 71; 0]%N)
             (data3 := [1; 2; 3]%N) (w := 1)
             eq_refl eq_refl eq_refl eq_refl);
    [reflexivity | discriminate].
Defined.

Lemma completion_extracted_witness :
  fst (get_comparison_questions
         (C := Stub.collaborators Stub.all_files)
         Stub.left_png Stub.right_png Stub.heatmap_png (boot 0))
  = inr [PStr (py "Is there a boat?"); PStr (py "Is there a dog?")]
  /\ stdout (snd (get_comparison_questions
                    (C := Stub.collaborators Stub.all_files)
                    Stub.left_png Stub.right_png Stub.heatmap_png (boot 0)))
     = [RawResponse (pyq "['Is there a boat?', 'Is there a dog?']")]
  /\ List.map image_urls
       (posted (snd (get_comparison_questions
                       (C := Stub.collaborators Stub.all_files)
                       Stub.left_png Stub.right_png Stub.heatmap_png
                       (boot 0))))
     = [[ py "data:image/png;base64,iVBORw==";
          py "data:image/png;base64,iVBORwA=";
          py "data:image/png;base64,AQID" ]].
Proof.
  destruct (completion_extracted
              (C := Stub.collaborators Stub.all_files)
              Stub.left_png Stub.right_png Stub.heatmap_png (boot 0)
              (data1 := [137; 80; 78; 71]%N)
              (data2 := [137; 80; 78; 71; 0]%N)
              (data3 := [1; 2; 3]%N) (w := 1)
              (res := Stub.ok (pyq "['Is there a boat?', 'Is there a dog?']"))
              eq_refl eq_refl eq_refl eq_refl eq_refl eq_refl)
    as [E _].
  rewrite E. split; [reflexivity|]. split; reflexivity.
Defined.

Lemma unread_file_no_request_witness :
  posted (snd (get_comparison_questions
                 (C := Stub.collaborators Stub.no_right)
                 Stub.left_png Stub.right_png Stub.heatmap_png (boot 0)))
  = [].
Proof.
  apply (@unread_file_no_request nat
           (Stub.collaborators Stub.no_right)
           Stub.left_png Stub.right_png Stub.heatmap_png (boot 0)).
  exists Stub.right_png. eexists. split; [right; left; reflexivity|].
  reflexivity.
Defined.

(** ** [encode_image_to_base64], lines 32-34 *)

Lemma below_64 (P : N -> bool) :
  forallb P (List.map N.of_nat (seq 0 64)) = true ->
  forall i, (i < 64)%N -> P i = true.
Proof.
  intros H i Hi. rewrite forallb_forall in H. apply H.
  apply in_map_iff. exists (N.to_nat i).
  split; [apply N2Nat.id|]. apply in_seq. lia.
Qed.

Lemma digit_inj (i j : N) :
  (i < 64)%N -> (j < 64)%N ->
  Base64.digit i = Base64.digit j -> i = j.
Proof.
  intros Hi Hj E.
  pose (P := fun i =>
               forallb (fun j => implb (N.eqb (Base64.digit i)
                                              (Base64.digit j))
                                       (N.eqb i j))
                       (List.map N.of_nat (seq 0 64))).
  assert (HP : forallb P (List.map N.of_nat (seq 0 64)) = true)
    by (vm_compute; reflexivity).
  pose proof (@below_64 P HP i Hi) as H1. unfold P in H1.
  pose proof (@below_64 _ H1 j Hj) as H2. cbv beta in H2.
  rewrite E, N.eqb_refl in H2. cbn [implb] in H2.
  apply N.eqb_eq. exact H2.
Qed.

Lemma digit_not_pad (i : N) : (i < 64)%N -> Base64.digit i <> 61%N.
Proof.
  intros Hi E.
  assert (HP : forallb (fun i => negb (N.eqb (Base64.digit i) 61))
                       (List.map N.of_nat (seq 0 64)) = true)
    by (vm_compute; reflexivity).
  pose proof (@below_64 _ HP i Hi) as H. cbv beta in H.
  rewrite E in H. discriminate H.
Qed.

Ltac split_byte x k :=
  let H := fresh "D" in
  let B := fresh "B" in
  let Q := fresh "Q" in
  let R := fresh "R" in
  pose proof (N.div_mod x k ltac:(discriminate)) as H;
  pose proof (N.mod_lt x k ltac:(discriminate)) as B;
  pose proof (N.le_0_l (x / k)) as Q;
  pose proof (N.le_0_l (x mod k)) as R.

Lemma one_byte_inj (a a' : N) :
  byte a -> byte a' ->
  Base64.digit (a / 4) = Base64.digit (a' / 4) ->
  Base64.digit ((a mod 4) * 16) = Base64.digit ((a' mod 4) * 16) ->
  a = a'.
Proof.
  unfold byte. intros Ha Ha' E1 E2.
  split_byte a 4%N. split_byte a' 4%N.
  apply digit_inj in E1; [|lia|lia].
  apply digit_inj in E2; [|lia|lia]. lia.
Qed.

Lemma two_bytes_inj (a b a' b' : N) :
  byte a -> byte b -> byte a' -> byte b' ->
  Base64.digit (a / 4) = Base64.digit (a' / 4) ->
  Base64.digit ((a mod 4) * 16 + b / 16)
  = Base64.digit ((a' mod 4) * 16 + b' / 16) ->
  Base64.digit ((b mod 16) * 4) = Base64.digit ((b' mod 16) * 4) ->
  a = a' /\ b = b'.
Proof.
  unfold byte. intros Ha Hb Ha' Hb' E1 E2 E3.
  split_byte a 4%N. split_byte a' 4%N.
  split_byte b 16%N. split_byte b' 16%N.
  apply digit_inj in E1; [|lia|lia].
  apply digit_inj in E2; [|lia|lia].
  apply digit_inj in E3; [|lia|lia]. lia.
Qed.

Lemma three_bytes_inj (a b c a' b' c' : N) :
  byte a -> byte b -> byte c -> byte a' -> byte b' -> byte c' ->
  Base64.digit (a / 4) = Base64.digit (a' / 4) ->
  Base64.digit ((a mod 4) * 16 + b / 16)
  = Base64.digit ((a' mod 4) * 16 + b' / 16) ->
  Base64.digit ((b mod 16) * 4 + c / 64)
  = Base64.digit ((b' mod 16) * 4 + c' / 64) ->
  Base64.digit (c mod 64) = Base64.digit (c' mod 64) ->
  a = a' /\ b = b' /\ c = c'.
Proof.
  unfold byte. intros Ha Hb Hc Ha' Hb' Hc' E1 E2 E3 E4.
  split_byte a 4%N. split_byte a' 4%N.
  split_byte b 16%N. split_byte b' 16%N.
  split_byte c 64%N. split_byte c' 64%N.
  apply digit_inj in E1; [|lia|lia].
  apply digit_inj in E2; [|lia|lia].
  apply digit_inj in E3; [|lia|lia].
  apply digit_inj in E4; [|lia|lia]. lia.
Qed.

Ltac byte_bounds :=
  unfold byte in *;
  repeat match goal with
         | H : (?x < 256)%N |- _ =>
             split_byte x 4%N; split_byte x 16%N; split_byte x 64%N;
             revert H
         end;
  intros; lia.

Ltac pad_absurd :=
  exfalso;
  match goal with
  | H : 61%N = Base64.digit _ |- _ =>
      symmetry in H; apply digit_not_pad in H; [exact H | byte_bounds]
  | H : Base64.digit _ = 61%N |- _ =>
      apply digit_not_pad in H; [exact H | byte_bounds]
  end.

Lemma encode_from_inj (fuel : nat) :
  forall d1 d2 : list N,
    List.length d1 < fuel -> List.length d2 < fuel ->
    Forall byte d1 -> Forall byte d2 ->
    Base64.encode_from fuel d1 = Base64.encode_from fuel d2 -> d1 = d2.
Proof.
  induction fuel as [|fuel IH]; intros d1 d2 L1 L2 B1 B2 E; [lia|].
  destruct d1 as [|a [|b [|c r]]]; destruct d2 as [|a' [|b' [|c' r']]];
    cbn [Base64.encode_from app] in E; try discriminate E;
    try reflexivity;
    repeat match goal with
           | H : Forall byte (_ :: _) |- _ => inversion H; subst; clear H
           end;
    injection E; clear E; intros;
    try pad_absurd.
  - f_equal. eapply one_byte_inj; eassumption.
  - destruct (two_bytes_inj (a := a) (b := b) (a' := a') (b' := b'))
      as [-> ->]; auto.
  - destruct (three_bytes_inj (a := a) (b := b) (c := c)
                              (a' := a') (b' := b') (c' := c'))
      as [-> [-> ->]]; auto.
    f_equal. f_equal. f_equal.
    apply IH; auto; cbn [List.length] in *; lia.
Qed.

Lemma digit_ascii (i : N) : (Base64.digit i < 128)%N.
Proof.
  unfold Base64.digit.
  assert (H : forallb (fun c => N.ltb c 128) (61%N :: Base64.alphabet)
              = true) by (vm_compute; reflexivity).
  rewrite forallb_forall in H. apply N.ltb_lt. apply H.
  destruct (nth_in_or_default (N.to_nat i) Base64.alphabet 61%N) as [I|E].
  - right. exact I.
  - left. symmetry. exact E.
Qed.

Lemma encode_from_shape (fuel : nat) :
  forall data : list N,
    List.length data < fuel ->
    List.length (Base64.encode_from fuel data)
    = 4 * ((List.length data + 2) / 3)
    /\ Forall (fun c => (c < 128)%N) (Base64.encode_from fuel data).
Proof.
  induction fuel as [|fuel IH]; intros data L; [lia|].
  destruct data as [|a [|b [|c r]]]; cbn [Base64.encode_from].
  - split; [reflexivity | constructor].
  - split; [reflexivity|].
    repeat constructor; try apply digit_ascii; lia.
  - split; [reflexivity|].
    repeat constructor; try apply digit_ascii; lia.
  - destruct (IH r) as [HL HA]; [cbn [List.length] in L; lia|].
    split.
    + rewrite length_app, HL. cbn [List.length].
      replace (S (S (S (List.length r))) + 2)
        with ((List.length r + 2) + 1 * 3) by lia.
      rewrite Nat.div_add by discriminate. lia.
    + apply Forall_app. split; [|exact HA].
      repeat constructor; apply digit_ascii.
Qed.

Lemma encode_from_fuel (f : nat) :
  forall (f' : nat) (d : list N),
    List.length d < f -> List.length d < f' ->
    Base64.encode_from f d = Base64.encode_from f' d.
Proof.
  induction f as [|f IH]; intros f' d L L'; [lia|].
  destruct f' as [|f']; [lia|].
  destruct d as [|a [|b [|c r]]]; cbn [Base64.encode_from];
    try reflexivity.
  f_equal. apply IH; cbn [List.length] in *; lia.
Qed.

Section ImageEncoding.

Context {World : Type} {C : Collaborators World}.

Implicit Types (m : machine World).

(** For a file of [n] bytes the function opens the file once and
    returns 4 characters for every 3 bytes, the last group padded: a
    text of [4 * ceil(n / 3)] characters, all of them ASCII, so that
    decoding the base64 bytes as UTF-8 cannot fail.  When the file
    cannot be read, the exception of [open] is what leaves the
    function. *)
Theorem encoded_image_shape (image_path : pystr) m :
  opened (snd (encode_image_to_base64 image_path m))
  = opened m ++ [image_path]
  /\ (forall e, read_binary image_path (world m) = inl e ->
                fst (encode_image_to_base64 image_path m) = inl e)
  /\ (forall data,
         read_binary image_path (world m) = inr data ->
         exists payload,
           fst (encode_image_to_base64 image_path m) = inr payload
           /\ List.length payload = 4 * ((List.length data + 2) / 3)
           /\ Forall (fun c => (c < 128)%N) payload).
Proof.
  unfold encode_image_to_base64, bind, open_read, ret.
  cbn [world stdout opened posted executed difference_counter].
  destruct (read_binary image_path (world m)) as [e|data];
    cbn [fst snd opened].
  - split; [reflexivity|]. split; [congruence | discriminate].
  - split; [reflexivity|]. split; [discriminate|].
    intros data' E. injection E as <-.
    exists (Base64.b64encode data). split; [reflexivity|].
    apply encode_from_shape. lia.
Qed.

(** Two files whose bytes differ never get the same base64 text. *)
Theorem encoded_image_injective (path1 path2 : pystr) m
        (data1 data2 : list N) :
  read_binary path1 (world m) = inr data1 ->
  read_binary path2 (world m) = inr data2 ->
  Forall byte data1 -> Forall byte data2 ->
  fst (encode_image_to_base64 path1 m)
  = fst (encode_image_to_base64 path2 m) ->
  data1 = data2.
Proof.
  unfold encode_image_to_base64, bind, open_read, ret.
  cbn [world stdout opened posted executed difference_counter].
  intros R1 R2 B1 B2. rewrite R1, R2. cbn [fst].
  intros E. injection E as E. unfold Base64.b64encode in E.
  pose (F := S (Nat.max (List.length data1) (List.length data2))).
  rewrite (encode_from_fuel (f' := F) data1) in E by (unfold F; lia).
  rewrite (encode_from_fuel (f' := F) data2) in E by (unfold F; lia).
  apply (encode_from_inj (fuel := F)); try assumption; unfold F; lia.
Qed.

End ImageEncoding.

Lemma encoded_image_shape_witness :
  (exists payload,
      fst (encode_image_to_base64 (C := Stub.collaborators Stub.all_files)
                                  Stub.right_png (boot 0))
      = inr payload
      /\ List.length payload = 8
      /\ Forall (fun c => (c < 128)%N) payload)
  /\ fst (encode_image_to_base64 (C := Stub.collaborators Stub.no_right)
                                 Stub.right_png (boot 0))
     = inl (FileNotFoundError
              (py "[Errno 2] No such file or directory: 'assets/hard2.png'")).
Proof.
  destruct (encoded_image_shape
              (C := Stub.collaborators Stub.all_files)
              Stub.right_png (boot 0)) as [_ [_ H]].
  destruct (encoded_image_shape
              (C := Stub.collaborators Stub.no_right)
              Stub.right_png (boot 0)) as [_ [H' _]].
  split; [exact (H [137; 80; 78; 71; 0]%N eq_refl)|].
  apply H'. reflexivity.
Defined.

(** The two scene images of the scripted files differ in one byte. *)
Lemma encoded_image_injective_witness :
  fst (encode_image_to_base64 (C := Stub.collaborators Stub.all_files)
                              Stub.left_png (boot 0))
  <> fst (encode_image_to_base64 (C := Stub.collaborators Stub.all_files)
                                 Stub.right_png (boot 0)).
Proof.
  intros E.
  assert (B1 : Forall byte [137; 80; 78; 71]%N)
    by (repeat (constructor; [reflexivity|]); constructor).
  assert (B2 : Forall byte [137; 80; 78; 71; 0]%N)
    by (repeat (constructor; [reflexivity|]); constructor).
  pose proof (encoded_image_injective
                (C := Stub.collaborators Stub.all_files)
                Stub.left_png Stub.right_png (boot 0)
                eq_refl eq_refl B1 B2 E) as H.
  discriminate H.
Defined.

(** ** [execute_visprog_comparison], lines 116-146 *)

Lemma totals_of_app (a b : list line) :
  totals_of (a ++ b) = totals_of a ++ totals_of b.
Proof.
  induction a as [|l a IH]; [reflexivity|].
  destruct l; cbn [app totals_of]; rewrite ?IH; reflexivity.
Qed.

Lemma totals_of_render (recs : list record) :
  totals_of (flat_map render recs) = List.map running_total recs.
Proof.
  induction recs as [|r recs IH]; [reflexivity|].
  cbn [flat_map List.map]. rewrite totals_of_app, IH.
  unfold render. destruct (answers r); reflexivity.
Qed.

Lemma last_default (l : list nat) :
  forall x d d', last (x :: l) d = last (x :: l) d'.
Proof.
  induction l as [|y l IH]; intros x d d'; [reflexivity|].
  cbn [last]. apply (IH y).
Qed.

Section Turns.

Context {World : Type} {C : Collaborators World}.

Implicit Types (m : machine World) (q : pyval) (i c : nat).

Lemma loop_body_calls i q m :
  exists v w calls,
    loop_body i q m = (inr tt, after_turn i q v w calls m)
    /\ turn_calls q v calls.
Proof.
  destruct (interpreter_execute (program "LEFT" q) (world m))
    as [w1 [e|left_ans]] eqn:HL.
  - exists (Failed e), w1, [program "LEFT" q].
    split; [apply loop_body_left_fails; exact HL | constructor].
  - destruct (interpreter_execute (program "RIGHT" q) w1)
      as [w2 [e|right_ans]] eqn:HR.
    + exists (Failed e), w2, [program "LEFT" q; program "RIGHT" q].
      split; [eapply loop_body_right_fails; eassumption | constructor].
    + exists (Answered left_ans right_ans (differ left_ans right_ans)),
        w2, [program "LEFT" q; program "RIGHT" q].
      split; [eapply loop_body_answered; eassumption | constructor].
Qed.

(** The loop, turn by turn. *)
Lemma loop_turns (qs : list pyval) :
  forall i m,
  exists mf recs blocks,
    for_enumerate loop_body i qs m = (inr tt, mf)
    /\ turns i (difference_counter m) qs recs blocks (difference_counter mf)
    /\ stdout mf = stdout m ++ flat_map render recs
    /\ executed mf = executed m ++ List.concat blocks
    /\ opened mf = opened m
    /\ posted mf = posted m.
Proof.
  induction qs as [|q qs IH]; intros i m.
  - exists m, [], []. cbn. rewrite !app_nil_r.
    repeat split; constructor.
  - destruct (loop_body_calls i q m) as [v [w [calls [E1 T1]]]].
    destruct (IH (S i) (after_turn i q v w calls m))
      as [mf [recs [blocks [E [T [S1 [S2 [S3 S4]]]]]]]].
    exists mf, (turn_record i q v m :: recs), (calls :: blocks).
    split; [cbn [for_enumerate]; unfold bind; rewrite E1; exact E|].
    split; [unfold turn_record; apply turns_step; [exact T1 | exact T]|].
    split; [rewrite S1; cbn [after_turn stdout flat_map];
            rewrite app_assoc; reflexivity|].
    split; [rewrite S2; cbn [after_turn executed List.concat];
            rewrite app_assoc; reflexivity|].
    split; [rewrite S3; reflexivity | rewrite S4; reflexivity].
Qed.

Lemma turns_shape i c qs recs blocks c' :
  turns i c qs recs blocks c' ->
  List.map question recs = qs
  /\ List.length recs = List.length qs
  /\ Forall2 (fun q calls =>
                calls = [program "LEFT" q]
                \/ calls = [program "LEFT" q; program "RIGHT" q])
             qs blocks
  /\ List.length qs <= List.length (List.concat blocks)
     <= 2 * List.length qs
  /\ steps_by_one c (List.map running_total recs)
  /\ c <= c' <= c + List.length qs
  /\ c' = last (List.map running_total recs) c.
Proof.
  induction 1 as [i c | i c q qs v calls recs blocks c' T1 T IH].
  - cbn. repeat split; try constructor; lia.
  - destruct IH as [Q [L [F [B [S [M E]]]]]].
    assert (Hb : bump v = 0 \/ bump v = 1)
      by (destruct v as [l r [|]|e]; cbn; auto).
    assert (Hc : calls = [program "LEFT" q]
                 \/ calls = [program "LEFT" q; program "RIGHT" q])
      by (destruct T1; auto).
    split; [cbn [List.map question]; rewrite Q; reflexivity|].
    split; [cbn [List.length]; rewrite L; reflexivity|].
    split; [constructor; assumption|].
    split.
    { cbn [List.concat List.length]. rewrite length_app.
      destruct Hc as [-> | ->]; cbn [List.length]; lia. }
    split.
    { cbn [List.map running_total steps_by_one].
      split; [lia | exact S]. }
    split; [cbn [List.length]; lia|].
    cbn [List.map running_total].
    destruct recs as [|r recs]; [inversion T; subst; reflexivity|].
    rewrite E. cbn [List.map last]. apply last_default.
Qed.

End Turns.

Section Evaluation.

Context {World : Type} {C : Collaborators World}.

Implicit Types (m : machine World) (q : pyval) (i : nat).

(** The machine the loop starts from once the images are loaded. *)
Lemma execute_after_setup (img1_path img2_path : pystr)
      (questions : list pyval) m (w : World) :
  visprog_setup img1_path img2_path (world m) = (w, inr tt) ->
  execute_visprog_comparison img1_path img2_path questions m
  = question_loop questions
      {| world := w; stdout := stdout m ++ [ResultsBanner];
         opened := opened m; posted := posted m;
         executed := executed m; difference_counter := 0 |}.
Proof.
  intros H.
  unfold execute_visprog_comparison, bind, set_counter, setup, print.
  cbn [world stdout opened posted executed difference_counter].
  rewrite H. reflexivity.
Qed.

(** When loading the images or building the interpreter raises, the
    exception leaves the function before the banner is printed and
    before any question is put to the interpreter. *)
Theorem setup_failure_stops (img1_path img2_path : pystr)
        (questions : list pyval) m (w : World) (e : exn) :
  visprog_setup img1_path img2_path (world m) = (w, inl e) ->
  execute_visprog_comparison img1_path img2_path questions m
  = (inl e,
     {| world := w; stdout := stdout m; opened := opened m;
        posted := posted m; executed := executed m;
        difference_counter := 0 |}).
Proof.
  intros H.
  unfold execute_visprog_comparison, bind, set_counter, setup, print.
  cbn [world stdout opened posted executed difference_counter].
  rewrite H. reflexivity.
Qed.

(** Once the images are loaded nothing the interpreter does makes the
    function raise: it ends normally for every list of questions, and
    it opens no file and posts no request. *)
Theorem evaluation_never_raises (img1_path img2_path : pystr)
        (questions : list pyval) m (w : World) :
  visprog_setup img1_path img2_path (world m) = (w, inr tt) ->
  fst (execute_visprog_comparison img1_path img2_path questions m)
  = inr tt
  /\ opened (snd (execute_visprog_comparison img1_path img2_path
                    questions m)) = opened m
  /\ posted (snd (execute_visprog_comparison img1_path img2_path
                    questions m)) = posted m.
Proof.
  intros H. rewrite (execute_after_setup _ _ questions m H).
  unfold question_loop.
  destruct (loop_turns questions 1
              {| world := w; stdout := stdout m ++ [ResultsBanner];
                 opened := opened m; posted := posted m;
                 executed := executed m; difference_counter := 0 |})
    as [mf [recs [blocks [E [_ [_ [_ [S3 S4]]]]]]]].
  rewrite E. cbn [fst snd]. split; [reflexivity|].
  split; [exact S3 | exact S4].
Qed.

(** The interpreter is called question by question, in order: for
    each question the LEFT program, and then the RIGHT program or
    nothing; so between one and two calls per question. *)
Theorem calls_per_question (img1_path img2_path : pystr)
        (questions : list pyval) m (w : World) :
  visprog_setup img1_path img2_path (world m) = (w, inr tt) ->
  exists blocks,
    called (execute_visprog_comparison img1_path img2_path questions) m
    = List.concat blocks
    /\ Forall2 (fun q calls =>
                  calls = [program "LEFT" q]
                  \/ calls = [program "LEFT" q; program "RIGHT" q])
               questions blocks
    /\ List.length questions
       <= List.length (called (execute_visprog_comparison
                                 img1_path img2_path questions) m)
       <= 2 * List.length questions.
Proof.
  intros H.
  pose proof (execute_after_setup _ _ questions m H) as E0.
  unfold question_loop in E0.
  destruct (loop_turns questions 1
              {| world := w; stdout := stdout m ++ [ResultsBanner];
                 opened := opened m; posted := posted m;
                 executed := executed m; difference_counter := 0 |})
    as [mf [recs [blocks [E [T [_ [S2 _]]]]]]].
  rewrite E in E0. cbn [executed] in S2.
  apply turns_shape in T. destruct T as [_ [_ [F [B _]]]].
  exists blocks.
  assert (Ec : called (execute_visprog_comparison img1_path img2_path
                         questions) m = List.concat blocks)
    by (eapply called_from; [exact E0 | exact S2]).
  rewrite Ec. auto.
Qed.

(** The totals the function prints, one per question, start from 0
    and go from one to the next by 0 or 1; the last of them is the
    value the counter ends with, which is at most the number of
    questions. *)
Theorem totals_step_by_one (img1_path img2_path : pystr)
        (questions : list pyval) m (w : World) :
  visprog_setup img1_path img2_path (world m) = (w, inr tt) ->
  let totals :=
    totals_of (printed (execute_visprog_comparison img1_path img2_path
                          questions) m) in
  let final :=
    difference_counter
      (snd (execute_visprog_comparison img1_path img2_path questions m)) in
  List.length totals = List.length questions
  /\ steps_by_one 0 totals
  /\ final = last totals 0
  /\ final <= List.length questions.
Proof.
  intros H totals final.
  pose proof (execute_after_setup _ _ questions m H) as E0.
  unfold question_loop in E0.
  destruct (loop_turns questions 1
              {| world := w; stdout := stdout m ++ [ResultsBanner];
                 opened := opened m; posted := posted m;
                 executed := executed m; difference_counter := 0 |})
    as [mf [recs [blocks [E [T [S1 _]]]]]].
  rewrite E in E0. cbn [stdout difference_counter] in S1, T.
  apply turns_shape in T. destruct T as [_ [L [_ [_ [S [M EL]]]]]].
  assert (Et : totals = List.map running_total recs).
  { unfold totals.
    assert (Ep : printed (execute_visprog_comparison img1_path img2_path
                            questions) m
                 = ResultsBanner :: flat_map render recs).
    { eapply printed_from; [exact E0|].
      rewrite S1, <- app_assoc. reflexivity. }
    rewrite Ep. cbn [totals_of]. apply totals_of_render. }
  assert (Ef : final = difference_counter mf)
    by (unfold final; rewrite E0; reflexivity).
  rewrite Et, Ef, length_map.
  split; [exact L|]. split; [exact S|]. split; [exact EL | lia].
Qed.

(** When the RIGHT program raises after the LEFT one answered, the
    LEFT answer is dropped: the turn prints the question, the error
    and the total, but neither answer and no verdict, and the counter
    stays as it was. *)
Theorem right_failure_drops_left_answer i q m (left_ans : pystr)
        (w1 w2 : World) (e : exn) :
  interpreter_execute (program "LEFT" q) (world m) = (w1, inr left_ans) ->
  interpreter_execute (program "RIGHT" q) w1 = (w2, inl e) ->
  fst (loop_body i q m) = inr tt
  /\ called (loop_body i q) m = [program "LEFT" q; program "RIGHT" q]
  /\ printed (loop_body i q) m
     = [ QuestionHeader i q; ExecutionError e;
         TotalDifferences (difference_counter m) ]
  /\ difference_counter (snd (loop_body i q m)) = difference_counter m.
Proof.
  intros HL HR. pose proof (loop_body_right_fails i q m HL HR) as E.
  split; [rewrite E; reflexivity|].
  split; [eapply called_from; [exact E | reflexivity]|].
  split.
  - eapply printed_from; [exact E|]. cbn [after_turn stdout].
    unfold render, turn_record. cbn. rewrite Nat.add_0_r. reflexivity.
  - rewrite E. cbn. apply Nat.add_0_r.
Qed.

End Evaluation.

(** A corrupt image: loading raises. *)
Lemma setup_failure_stops_witness :
  execute_visprog_comparison
    (C := {| OPENAI_API_KEY := py "sk-test";
             os_path_exists := fun _ _ => true;
             read_binary := fun _ _ => inr [];
             requests_post := fun _ w => (w, inr (Stub.ok (py "[]")));
             visprog_setup := fun _ _ (w : nat) =>
               (S w, inl (OtherException (py "cannot identify image file")));
             interpreter_execute := fun _ w => (w, inr (py "yes"));
             str_other := fun _ => py "?" |})
    Stub.left_png Stub.right_png Stub.five (boot 0)
  = (inl (OtherException (py "cannot identify image file")),
     {| world := 1; stdout := []; opened := []; posted := [];
        executed := []; difference_counter := 0 |}).
Proof.
  apply (setup_failure_stops
           (C := {| OPENAI_API_KEY := py "sk-test";
                    os_path_exists := fun _ _ => true;
                    read_binary := fun _ _ => inr [];
                    requests_post := fun _ w => (w, inr (Stub.ok (py "[]")));
                    visprog_setup := fun _ _ (w : nat) =>
                      (S w,
                       inl (OtherException (py "cannot identify image file")));
                    interpreter_execute := fun _ w => (w, inr (py "yes"));
                    str_other := fun _ => py "?" |})
           Stub.left_png Stub.right_png Stub.five (boot 0)).
  reflexivity.
Defined.

Lemma evaluation_never_raises_witness :
  fst (execute_visprog_comparison
         (C := Stub.collaborators Stub.all_files)
         Stub.left_png Stub.right_png Stub.five (boot 0)) = inr tt.
Proof.
  apply (evaluation_never_raises
           (C := Stub.collaborators Stub.all_files)
           Stub.left_png Stub.right_png Stub.five (boot 0) (w := 0)).
  reflexivity.
Defined.

Lemma calls_per_question_witness :
  5 <= List.length
         (called (execute_visprog_comparison
                    (C := Stub.collaborators Stub.all_files)
                    Stub.left_png Stub.right_png Stub.five) (boot 0))
    <= 10.
Proof.
  destruct (calls_per_question
              (C := Stub.collaborators Stub.all_files)
              Stub.left_png Stub.right_png Stub.five (boot 0) (w := 0)
              eq_refl) as [blocks [_ [_ B]]].
  exact B.
Defined.

Lemma totals_step_by_one_witness :
  steps_by_one 0
    (totals_of (printed (execute_visprog_comparison
                           (C := Stub.collaborators Stub.all_files)
                           Stub.left_png Stub.right_png Stub.five)
                        (boot 0)))
  /\ difference_counter
       (snd (execute_visprog_comparison
               (C := Stub.collaborators Stub.all_files)
               Stub.left_png Stub.right_png Stub.five (boot 0))) <= 5.
Proof.
  destruct (totals_step_by_one
              (C := Stub.collaborators Stub.all_files)
              Stub.left_png Stub.right_png Stub.five (boot 0) (w := 0)
              eq_refl) as [_ [S [_ B]]].
  split; [exact S | exact B].
Defined.

(** The engine answers for LEFT and fails for RIGHT. *)
Lemma right_failure_drops_left_answer_witness :
  printed (loop_body
             (C := Stub.collaborators
                     {| Stub.files := [];
                        Stub.reply := Stub.ok [];
                        Stub.engine := fun prog =>
                          if Stub.mentions (py "=RIGHT") prog
                          then inl (OtherException (py "timeout"))
                          else inr (py "yes") |})
             1 (PStr (py "Is there a boat?"))) (boot 0)
  = [ QuestionHeader 1 (PStr (py "Is there a boat?"));
      ExecutionError (OtherException (py "timeout"));
      TotalDifferences 0 ].
Proof.
  apply (right_failure_drops_left_answer
           (C := Stub.collaborators
                   {| Stub.files := [];
                      Stub.reply := Stub.ok [];
                      Stub.engine := fun prog =>
                        if Stub.mentions (py "=RIGHT") prog
                        then inl (OtherException (py "timeout"))
                        else inr (py "yes") |})
           1 (PStr (py "Is there a boat?")) (boot 0)
           (left_ans := py "yes") (w1 := 1) (w2 := 2) (e := OtherException (py "timeout"))
           eq_refl eq_refl).
Defined.

(** ** The comparison of answers, lines 140-143 *)

Lemma simple_lower_key (runs : list (N * N * N * N)) (c d : N) :
  simple_lower runs c = Some d -> In c (flat_map run_keys runs).
Proof.
  induction runs as [|[[[first last] step] image] runs IH];
    cbn [simple_lower flat_map]; [discriminate|].
  destruct (N.leb first c && N.leb c last
            && N.eqb ((c - first) mod step) 0) eqn:E.
  - intros _. apply in_or_app. left.
    apply andb_true_iff in E as [E E3].
    apply andb_true_iff in E as [E1 E2].
    apply N.leb_le in E1, E2. apply N.eqb_eq in E3.
    unfold run_keys. apply in_map_iff.
    exists (N.to_nat ((c - first) / step)). split.
    + rewrite N2Nat.id.
      pose proof (N.div_mod' (c - first) step) as D.
      rewrite E3, N.add_0_r in D. rewrite <- D.
      clear D E3. lia.
    + assert (L : ((c - first) / step <= (last - first) / step)%N).
      { clear E3. apply N.Div0.div_le_mono. lia. }
      clear E3. apply in_seq. revert L.
      generalize ((c - first) / step)%N, ((last - first) / step)%N.
      intros a b L. lia.
  - intros H. apply in_or_app. right. exact (IH H).
Qed.

Lemma settled_fixed (d : N) (before after : pystr) :
  settled d = true -> lower_at before d after = [d].
Proof.
  unfold settled, lower_at, to_lower_full. intros H.
  apply andb_true_iff in H as [H1 H2].
  destruct (N.eqb d 931) eqn:E.
  - apply N.eqb_eq in E. subst d. vm_compute in H2. discriminate H2.
  - apply negb_true_iff in H1. rewrite H1.
    destruct (simple_lower Unicode.lowercase d); [discriminate|reflexivity].
Qed.

(** The lower case of a code point is made of settled code points, and
    of no white space unless the code point is white space. *)
Lemma to_lower_full_settled (c : N) :
  forallb settled (to_lower_full c) = true
  /\ (is_space c = false -> forallb not_space (to_lower_full c) = true).
Proof.
  assert (K : forallb (fun c => forallb settled (to_lower_full c)
                                && forallb not_space (to_lower_full c))
                      (304%N :: lowercase_keys) = true)
    by (vm_compute; reflexivity).
  rewrite forallb_forall in K.
  destruct (N.eqb c 304) eqn:E304.
  - apply N.eqb_eq in E304. subst c.
    specialize (K 304%N (or_introl eq_refl)).
    apply andb_true_iff in K. tauto.
  - destruct (simple_lower Unicode.lowercase c) as [d|] eqn:E.
    + specialize (K c (or_intror (@simple_lower_key _ _ _ E))).
      apply andb_true_iff in K. tauto.
    + unfold to_lower_full. rewrite E304, E. cbn [forallb].
      unfold settled, not_space. rewrite E304, E. cbn.
      split; [reflexivity|]. intros ->. reflexivity.
Qed.

Lemma to_lower_full_cons (c : N) : to_lower_full c <> [].
Proof.
  unfold to_lower_full. destruct (N.eqb c 304); [discriminate|].
  destruct (simple_lower Unicode.lowercase c); discriminate.
Qed.

Lemma lower_at_settled (before : pystr) (c : N) (after : pystr) :
  forallb settled (lower_at before c after) = true
  /\ (is_space c = false ->
      forallb not_space (lower_at before c after) = true)
  /\ lower_at before c after <> [].
Proof.
  unfold lower_at. destruct (N.eqb c 931).
  - destruct (final_sigma before after);
      (split; [vm_compute; reflexivity|]);
      (split; [intros _; vm_compute; reflexivity | discriminate]).
  - destruct (to_lower_full_settled c) as [H1 H2].
    split; [exact H1|]. split; [exact H2 | apply to_lower_full_cons].
Qed.

Lemma lower_from_settled (s before : pystr) :
  forallb settled (lower_from before s) = true.
Proof.
  revert before. induction s as [|c s IH]; intros before; [reflexivity|].
  cbn [lower_from]. rewrite forallb_app, IH, andb_true_r.
  apply lower_at_settled.
Qed.

Lemma lower_from_fixed (t before : pystr) :
  forallb settled t = true -> lower_from before t = t.
Proof.
  revert before. induction t as [|c t IH]; intros before H; [reflexivity|].
  cbn [forallb] in H. apply andb_true_iff in H as [Hc Ht].
  cbn [lower_from]. rewrite (@settled_fixed c before t Hc), (IH _ Ht). reflexivity.
Qed.

(** Lower-casing what is in lower case changes nothing. *)
Lemma lower_twice (s : pystr) : lower (lower s) = lower s.
Proof. unfold lower. apply lower_from_fixed, lower_from_settled. Qed.

Lemma is_space_listed (c : N) : is_space c = true -> In c spaces.
Proof.
  unfold is_space, spaces.
  rewrite !orb_true_iff, !andb_true_iff, !N.leb_le, !N.eqb_eq.
  cbn [In]. lia.
Qed.

(** White space is settled, not cased and not case-ignorable. *)
Lemma space_plain (c : N) :
  is_space c = true ->
  settled c = true /\ is_cased c = false /\ is_case_ignorable c = false.
Proof.
  intros H.
  assert (K : forallb (fun c => settled c && negb (is_cased c)
                                && negb (is_case_ignorable c))
                      spaces = true)
    by (vm_compute; reflexivity).
  rewrite forallb_forall in K.
  specialize (K c (@is_space_listed c H)).
  apply andb_true_iff in K as [K K3].
  apply andb_true_iff in K as [K1 K2].
  apply negb_true_iff in K2, K3. tauto.
Qed.

Lemma spaces_settled (ws : pystr) :
  forallb is_space ws = true -> forallb settled ws = true.
Proof.
  induction ws as [|w ws IH]; cbn [forallb]; [reflexivity|].
  intros H. apply andb_true_iff in H as [Hw Hws].
  rewrite (proj1 (@space_plain w Hw)), (IH Hws). reflexivity.
Qed.

Lemma first_not_ignorable_app (x y : pystr) :
  first_not_ignorable (x ++ y)
  = match first_not_ignorable x with
    | Some c => Some c
    | None => first_not_ignorable y
    end.
Proof.
  induction x as [|c x IH]; cbn [app first_not_ignorable]; [reflexivity|].
  destruct (is_case_ignorable c); [exact IH | reflexivity].
Qed.

Lemma first_of_spaces (ws : pystr) :
  forallb is_space ws = true ->
  match first_not_ignorable ws with
  | Some w => is_cased w = false
  | None => True
  end.
Proof.
  destruct ws as [|w ws]; cbn [forallb first_not_ignorable]; [trivial|].
  intros H. apply andb_true_iff in H as [Hw _].
  destruct (@space_plain w Hw) as (_ & H2 & H3). rewrite H3. exact H2.
Qed.

(** White space next to a word is the end of the text, for a sigma. *)
Lemma final_sigma_padding (x y pre post : pystr) :
  forallb is_space pre = true -> forallb is_space post = true ->
  final_sigma (x ++ pre) (y ++ post) = final_sigma x y.
Proof.
  intros Hpre Hpost. unfold final_sigma.
  rewrite !first_not_ignorable_app.
  pose proof (@first_of_spaces pre Hpre) as P1.
  pose proof (@first_of_spaces post Hpost) as P2.
  destruct (first_not_ignorable x) as [c|].
  - destruct (first_not_ignorable y) as [d|]; [reflexivity|].
    destruct (first_not_ignorable post) as [w|]; [|reflexivity].
    rewrite P2. reflexivity.
  - destruct (first_not_ignorable pre) as [w|]; [|reflexivity].
    rewrite P1. reflexivity.
Qed.

Lemma lower_from_padding (t x pre post : pystr) :
  forallb is_space pre = true -> forallb is_space post = true ->
  lower_from (x ++ pre) (t ++ post) = lower_from x t ++ post.
Proof.
  intros Hpre Hpost. revert x.
  induction t as [|c t IH]; intros x.
  - cbn [app lower_from]. apply lower_from_fixed, spaces_settled, Hpost.
  - cbn [app lower_from]. rewrite <- app_assoc. f_equal.
    + unfold lower_at.
      rewrite (@final_sigma_padding x t pre post Hpre Hpost). reflexivity.
    + exact (IH (c :: x)).
Qed.

Lemma lower_from_spaces (ws t before : pystr) :
  forallb is_space ws = true ->
  lower_from before (ws ++ t) = ws ++ lower_from (rev ws ++ before) t.
Proof.
  revert before. induction ws as [|w ws IH]; intros before H; [reflexivity|].
  cbn [forallb] in H. apply andb_true_iff in H as [Hw Hws].
  cbn [app lower_from rev].
  rewrite (@settled_fixed w before (ws ++ t) (proj1 (@space_plain w Hw))).
  rewrite (IH _ Hws). rewrite <- app_assoc. reflexivity.
Qed.

Lemma forallb_rev (P : N -> bool) (l : pystr) :
  forallb P l = true -> forallb P (rev l) = true.
Proof.
  rewrite !forallb_forall. intros H x Hx. apply H, in_rev, Hx.
Qed.

(** White space around a text stays around its lower case. *)
Lemma lower_padding (pre t post : pystr) :
  forallb is_space pre = true -> forallb is_space post = true ->
  lower (pre ++ t ++ post) = pre ++ lower t ++ post.
Proof.
  intros Hpre Hpost. unfold lower.
  rewrite (@lower_from_spaces pre (t ++ post) [] Hpre).
  rewrite app_nil_r. f_equal.
  exact (@lower_from_padding t [] (rev pre) post
           (@forallb_rev _ _ Hpre) Hpost).
Qed.

Section StripShape.

Variable drop : N -> bool.

Lemma lstrip_split (s : pystr) :
  exists pre, s = pre ++ lstrip_by drop s /\ forallb drop pre = true.
Proof.
  induction s as [|c s (pre & E & H)]; [exists []; split; reflexivity|].
  cbn [lstrip_by]. destruct (drop c) eqn:Hc.
  - exists (c :: pre). cbn [app forallb]. rewrite Hc, H, <- E.
    split; reflexivity.
  - exists []. split; reflexivity.
Qed.

(** A text is what [strip] leaves of it, between characters of the
    dropped set. *)
Lemma strip_by_split (s : pystr) :
  exists pre post,
    s = pre ++ strip_by drop s ++ post
    /\ forallb drop pre = true /\ forallb drop post = true.
Proof.
  destruct (lstrip_split s) as (pre & E1 & H1).
  destruct (lstrip_split (rev (lstrip_by drop s))) as (q & E2 & H2).
  exists pre, (rev q). split; [|split; [exact H1|]].
  - unfold strip_by, rstrip_by. rewrite <- rev_app_distr, <- E2.
    rewrite rev_involutive. exact E1.
  - rewrite forallb_forall in *. intros x Hx. apply H2, in_rev, Hx.
Qed.

(** What [strip] leaves is empty or has kept characters at both
    ends. *)
Lemma strip_by_shape (s : pystr) :
  strip_by drop s = []
  \/ (exists c, strip_by drop s = [c] /\ drop c = false)
  \/ (exists c u d, strip_by drop s = c :: u ++ [d]
                    /\ drop c = false /\ drop d = false).
Proof.
  unfold strip_by.
  destruct (lstrip_by drop s) as [|c u] eqn:Eu; [left; reflexivity|].
  right. pose proof (@lstrip_head drop s c u Eu) as Hc.
  unfold rstrip_by. cbn [rev].
  destruct (@lstrip_snoc_kept drop (rev u) c Hc) as [y Ey].
  destruct y as [|d y].
  - left. exists c. rewrite Ey. split; [reflexivity | exact Hc].
  - right. exists c, (rev y), d.
    pose proof (@lstrip_head drop (rev u ++ [c]) d (y ++ [c]) Ey) as Hd.
    rewrite Ey. cbn [app rev]. rewrite rev_app_distr. cbn [rev app].
    split; [reflexivity|]. split; assumption.
Qed.

(** A text between two blocks of kept characters is left as it
    is. *)
Lemma strip_by_blocks (x m y : pystr) :
  x <> [] -> y <> [] ->
  forallb (fun c => negb (drop c)) x = true ->
  forallb (fun c => negb (drop c)) y = true ->
  strip_by drop (x ++ m ++ y) = x ++ m ++ y.
Proof.
  intros Nx Ny Hx Hy.
  destruct x as [|c x]; [contradiction|].
  destruct (exists_last Ny) as (y' & d & ->).
  cbn [forallb] in Hx. apply andb_true_iff in Hx as [Hc _].
  rewrite forallb_app in Hy. apply andb_true_iff in Hy as [_ Hd].
  cbn [forallb] in Hd. rewrite andb_true_r in Hd.
  apply negb_true_iff in Hc, Hd.
  replace ((c :: x) ++ m ++ y' ++ [d]) with (c :: (x ++ m ++ y') ++ [d])
    by (cbn [app]; rewrite <- !app_assoc; reflexivity).
  apply strip_by_kept; assumption.
Qed.

Lemma strip_by_block (x : pystr) :
  forallb (fun c => negb (drop c)) x = true -> strip_by drop x = x.
Proof.
  intros Hx. destruct x as [|c x]; [reflexivity|].
  destruct x as [|c' x].
  - cbn [forallb] in Hx. rewrite andb_true_r in Hx.
    apply negb_true_iff in Hx.
    unfold strip_by, rstrip_by. cbn [lstrip_by]. rewrite Hx.
    cbn [rev app lstrip_by]. rewrite Hx. reflexivity.
  - assert (Ny : c' :: x <> []) by discriminate.
    destruct (exists_last Ny) as (y' & d & E). rewrite E in *.
    cbn [forallb] in Hx. apply andb_true_iff in Hx as [Hc Hx].
    rewrite forallb_app in Hx. apply andb_true_iff in Hx as [_ Hd].
    cbn [forallb] in Hd. rewrite andb_true_r in Hd.
    apply negb_true_iff in Hc, Hd.
    apply strip_by_kept; assumption.
Qed.

End StripShape.

Lemma lower_from_last (t : pystr) (d : N) (before : pystr) :
  exists x,
    lower_from before (t ++ [d]) = x ++ lower_at (rev t ++ before) d [].
Proof.
  revert before. induction t as [|c t IH]; intros before.
  - exists []. cbn [app lower_from rev]. rewrite app_nil_r. reflexivity.
  - destruct (IH (c :: before)) as [x E].
    exists (lower_at before c (t ++ [d]) ++ x).
    cbn [app lower_from rev]. rewrite E.
    rewrite <- !app_assoc. reflexivity.
Qed.

(** The lower case of a trimmed text is trimmed. *)
Lemma lower_stripped (s : pystr) :
  strip (lower (strip s)) = lower (strip s).
Proof.
  unfold strip, lower.
  destruct (strip_by_shape is_space s)
    as [E | [(c & E & Hc) | (c & u & d & E & Hc & Hd)]]; rewrite E.
  - reflexivity.
  - cbn [lower_from]. rewrite app_nil_r.
    apply strip_by_block.
    exact (proj1 (proj2 (lower_at_settled [] c [])) Hc).
  - cbn [lower_from].
    destruct (lower_from_last u d [c]) as [x Ex]. rewrite Ex.
    destruct (lower_at_settled [] c (u ++ [d])) as (_ & A1 & A2).
    destruct (lower_at_settled (rev u ++ [c]) d []) as (_ & B1 & B2).
    apply strip_by_blocks; auto.
Qed.

(** Trimming and lower-casing can be done in either order. *)
Lemma strip_lower (s : pystr) : strip (lower s) = lower (strip s).
Proof.
  destruct (strip_by_split is_space s) as (pre & post & E & Hpre & Hpost).
  fold (strip s) in E. rewrite E at 1.
  rewrite (@lower_padding pre (strip s) post Hpre Hpost).
  unfold strip at 1. rewrite strip_by_padding by assumption.
  apply lower_stripped.
Qed.

Lemma norm_twice (s : pystr) : norm (norm s) = norm s.
Proof.
  unfold norm. rewrite strip_lower, lower_twice.
  unfold strip. rewrite strip_by_fixed. reflexivity.
Qed.

Lemma norm_lower (s : pystr) : norm (lower s) = norm s.
Proof. unfold norm. rewrite strip_lower, lower_twice. reflexivity. Qed.

Lemma differ_false (a b : pystr) :
  differ a b = false <-> norm a = norm b.
Proof.
  unfold differ. rewrite negb_false_iff. apply str_eqb_eq.
Qed.

Lemma differ_norm_eq (a a' b : pystr) :
  norm a = norm a' -> differ a b = differ a' b.
Proof. unfold differ. intros ->. reflexivity. Qed.

(** Not differing is an equivalence on answers: an answer does not
    differ from itself, the verdict does not depend on which image is
    LEFT and which is RIGHT, and two answers that both do not differ
    from a third do not differ from each other. *)
Theorem differ_equivalence (a b c : pystr) :
  differ a a = false
  /\ differ a b = differ b a
  /\ (differ a b = false -> differ b c = false -> differ a c = false).
Proof.
  split; [apply differ_false; reflexivity|]. split.
  - destruct (differ a b) eqn:E1, (differ b a) eqn:E2; try reflexivity.
    + apply differ_false in E2. symmetry in E2.
      apply differ_false in E2. congruence.
    + apply differ_false in E1. symmetry in E1.
      apply differ_false in E1. congruence.
  - intros H1 H2. apply differ_false. apply differ_false in H1, H2.
    congruence.
Qed.

(** White space around an answer never makes a difference. *)
Theorem differ_ignores_padding (pre post a b : pystr) :
  forallb is_space pre = true ->
  forallb is_space post = true ->
  differ (pre ++ a ++ post) b = differ a b
  /\ differ b (pre ++ a ++ post) = differ b a.
Proof.
  intros Hpre Hpost.
  assert (E : norm (pre ++ a ++ post) = norm a).
  { unfold norm, strip. rewrite strip_by_padding by assumption.
    reflexivity. }
  unfold differ. rewrite E. split; reflexivity.
Qed.

Lemma differ_ignores_padding_witness :
  differ (py "  " ++ py "Two cars" ++ nl) (py "two cars") = false.
Proof.
  rewrite (proj1 (differ_ignores_padding
                    (py "  ") nl (py "Two cars") (py "two cars")
                    eq_refl eq_refl)).
  reflexivity.
Defined.

(** Lower-casing or normalizing an answer beforehand never changes
    the verdict, and normalizing twice is normalizing once, for
    answers of any code points. *)
Theorem differ_ignores_case (a b : pystr) :
  differ (lower a) b = differ a b
  /\ differ (norm a) (norm b) = differ a b
  /\ norm (norm a) = norm a.
Proof.
  split; [apply differ_norm_eq, norm_lower|].
  split; [|apply norm_twice].
  unfold differ. rewrite !norm_twice. reflexivity.
Qed.

(** ** The programs, lines 130-131 *)

Section Programs.

Context {World : Type} {C : Collaborators World}.

(** The LEFT and the RIGHT program of any two questions differ, and
    two questions get the same program for an image only when they are
    formatted to the same text: the question is put into the program
    as it is, between two fixed pieces. *)
Theorem programs_distinct :
  (forall q q', program "LEFT" q <> program "RIGHT" q')
  /\ (forall (image : string) q q',
         program image q = program image q' ->
         format_value q = format_value q')
  /\ (forall (image : string) q,
         exists before after,
           program image q = before ++ format_value q ++ after).
Proof.
  split; [|split].
  - intros q q' E. unfold program in E.
    apply (f_equal (fun l => nth 17 l 0%N)) in E.
    cbv in E. discriminate E.
  - intros image q q' E. unfold program in E.
    do 3 apply app_inv_head in E.
    apply app_inv_tail in E. exact E.
  - intros image q. unfold program.
    exists (py "ANSWER=VQA(image=" ++ py image ++ py ",question='"),
      (py "')" ++ nl ++ py "FINAL_ANSWER=RESULT(var=ANSWER)").
    rewrite <- !app_assoc. reflexivity.
Qed.

End Programs.

(** ** [compare_images] and the driver, lines 149-174 *)

Section Orchestration.

Context {World : Type} {C : Collaborators World}.

Implicit Types (m : machine World).

Lemma bind_ok {A B : Type} (c : M World A) (k : A -> M World B) m
      (a : A) (m' : machine World) :
  c m = (inr a, m') -> bind c k m = k a m'.
Proof. unfold bind. intros ->. reflexivity. Qed.

Lemma bind_raised {A B : Type} (c : M World A) (k : A -> M World B) m
      (e : exn) (m' : machine World) :
  c m = (inl e, m') -> bind c k m = (inl e, m').
Proof. unfold bind. intros ->. reflexivity. Qed.

(** Line 157-158: the questions are listed, numbered from [i]. *)
Lemma listing_printed (questions : list pyval) :
  forall i m,
    for_enumerate (fun i q => print (ListedQuestion i q)) i questions m
    = (inr tt,
       {| world := world m; stdout := stdout m ++ listing i questions;
          opened := opened m; posted := posted m;
          executed := executed m;
          difference_counter := difference_counter m |}).
Proof.
  induction questions as [|q qs IH]; intros i m.
  - cbn. rewrite app_nil_r. destruct m; reflexivity.
  - cbn [for_enumerate]. unfold bind at 1, print at 1.
    rewrite IH. cbn [world stdout opened posted executed
                     difference_counter].
    unfold listing. cbn [List.length seq combine List.map fst snd].
    rewrite <- app_assoc. reflexivity.
Qed.

(** The machine after the existence check passed and the question
    generation returned [qs]. *)
Lemma compare_images_steps (img1_path img2_path diff_path : pystr) m
      (data1 data2 data3 : list N) (w1 : World) (res : response) :
  os_path_exists img1_path (world m) = true ->
  os_path_exists img2_path (world m) = true ->
  read_binary img1_path (world m) = inr data1 ->
  read_binary img2_path (world m) = inr data2 ->
  read_binary diff_path (world m) = inr data3 ->
  requests_post (completion_request OPENAI_API_KEY data1 data2 data3)
                (world m) = (w1, inr res) ->
  compare_images img1_path img2_path diff_path m
  = bind
      (if negb (N.eqb (status_code res) 200) then
         raise (RuntimeError (py "OpenAI API error: "
                              ++ str_of_N (status_code res)
                              ++ py " - " ++ text res))
       else
         bind (lift (message_content res))
              (fun content =>
                 bind (print (RawResponse content))
                      (fun _ =>
                         bind (print_all
                                 (extraction_prints Json.loads content))
                              (fun _ => lift (extract content)))))
      (fun questions =>
         bind (print QuestionsToTest)
              (fun _ =>
                 bind (for_enumerate
                         (fun i q => print (ListedQuestion i q))
                         1 questions)
                      (fun _ =>
                         execute_visprog_comparison img1_path img2_path
                                                    questions)))
      {| world := w1; stdout := stdout m ++ [GettingQuestions];
         opened := opened m ++ [img1_path; img2_path; diff_path];
         posted := posted m
                   ++ [completion_request OPENAI_API_KEY data1 data2 data3];
         executed := executed m;
         difference_counter := difference_counter m |}.
Proof.
  intros X1 X2 R1 R2 R3 P.
  unfold compare_images.
  erewrite bind_ok; [|unfold path_exists; rewrite X1; reflexivity].
  erewrite bind_ok; [|unfold path_exists; rewrite X2; reflexivity].
  cbn [andb negb].
  unfold bind at 1, print at 1.
  unfold bind at 1.
  rewrite (three_reads img1_path img2_path diff_path
             {| world := world m; stdout := stdout m ++ [GettingQuestions];
                opened := opened m; posted := posted m;
                executed := executed m;
                difference_counter := difference_counter m |}
             R1 R2 R3).
  unfold bind at 1, post at 1.
  cbn [world stdout opened posted executed difference_counter].
  rewrite P. unfold bind at 3. reflexivity.
Qed.

End Orchestration.

Section OrchestrationRuns.

Context {World : Type} {C : Collaborators World}.

Implicit Types (m : machine World).

(** A whole run in which the question generation and the loading of
    the images succeed. *)
Lemma compare_images_run (img1_path img2_path diff_path : pystr) m
      (data1 data2 data3 : list N) (w1 w2 : World) (res : response)
      (content : pystr) (qs : list pyval) :
  os_path_exists img1_path (world m) = true ->
  os_path_exists img2_path (world m) = true ->
  read_binary img1_path (world m) = inr data1 ->
  read_binary img2_path (world m) = inr data2 ->
  read_binary diff_path (world m) = inr data3 ->
  requests_post (completion_request OPENAI_API_KEY data1 data2 data3)
                (world m) = (w1, inr res) ->
  status_code res = 200%N ->
  message_content res = inr content ->
  extract content = inr qs ->
  visprog_setup img1_path img2_path w1 = (w2, inr tt) ->
  exists mf recs,
    compare_images img1_path img2_path diff_path m = (inr tt, mf)
    /\ stdout mf
       = stdout m
         ++ [GettingQuestions; RawResponse content]
         ++ extraction_prints Json.loads content
         ++ QuestionsToTest :: listing 1 qs
         ++ ResultsBanner :: flat_map render recs
    /\ List.map question recs = qs
    /\ posted mf
       = posted m
         ++ [completion_request OPENAI_API_KEY data1 data2 data3]
    /\ opened mf = opened m ++ [img1_path; img2_path; diff_path].
Proof.
  intros X1 X2 R1 R2 R3 P S B Ex V.
  rewrite (compare_images_steps _ _ _ m X1 X2 R1 R2 R3 P).
  rewrite S. cbn [N.eqb Pos.eqb negb].
  erewrite bind_ok;
    [|unfold bind, lift, print, print_all; rewrite B, Ex; reflexivity].
  erewrite bind_ok; [|unfold print; reflexivity].
  erewrite bind_ok; [|apply listing_printed].
  cbn [world stdout opened posted executed difference_counter].
  erewrite execute_after_setup; [|exact V].
  cbn [world stdout opened posted executed difference_counter].
  unfold question_loop.
  match goal with
  | |- context [for_enumerate loop_body 1 qs ?m0] =>
      destruct (loop_reported qs 1 m0) as [mf [recs [calls [E R]]]]
  end.
  destruct R. exists mf, recs. rewrite E.
  split; [reflexivity|].
  cbn [stdout opened posted] in *.
  split; [rewrite rep_stdout0; rewrite <- !app_assoc; reflexivity|].
  split; [assumption|]. split; assumption.
Qed.

(** When the existence check passes, the three files are read, the
    reply has status 200 with a completion text and the images load,
    [compare_images] ends normally whatever the interpreter does: it
    has posted exactly one request and has printed, in this order, the
    progress line, the raw completion, the diagnostics of the fallback
    chain, the numbered list of the extracted questions, the banner
    and one record per question. *)
Theorem full_run_report (img1_path img2_path diff_path : pystr) m
        (data1 data2 data3 : list N) (w1 w2 : World) (res : response)
        (content : pystr) (qs : list pyval) :
  os_path_exists img1_path (world m) = true ->
  os_path_exists img2_path (world m) = true ->
  read_binary img1_path (world m) = inr data1 ->
  read_binary img2_path (world m) = inr data2 ->
  read_binary diff_path (world m) = inr data3 ->
  requests_post (completion_request OPENAI_API_KEY data1 data2 data3)
                (world m) = (w1, inr res) ->
  status_code res = 200%N ->
  message_content res = inr content ->
  extract content = inr qs ->
  visprog_setup img1_path img2_path w1 = (w2, inr tt) ->
  fst (compare_images img1_path img2_path diff_path m) = inr tt
  /\ (exists recs,
         printed (compare_images img1_path img2_path diff_path) m
         = [GettingQuestions; RawResponse content]
           ++ extraction_prints Json.loads content
           ++ QuestionsToTest :: listing 1 qs
           ++ ResultsBanner :: flat_map render recs
         /\ List.map question recs = qs)
  /\ posted (snd (compare_images img1_path img2_path diff_path m))
     = posted m ++ [completion_request OPENAI_API_KEY data1 data2 data3].
Proof.
  intros X1 X2 R1 R2 R3 P S B Ex V.
  destruct (compare_images_run _ _ _ m X1 X2 R1 R2 R3 P S B Ex V)
    as [mf [recs [E [O [Q [HP _]]]]]].
  split; [rewrite E; reflexivity|]. split.
  - exists recs. split; [|exact Q].
    eapply printed_from; [exact E | exact O].
  - rewrite E. exact HP.
Qed.

(** A reply whose status is not 200 ends the run: [compare_images]
    raises the [RuntimeError] of the question generation after the
    progress line, the images are not loaded and the interpreter is
    not called. *)
Theorem transport_failure_ends_run (img1_path img2_path diff_path : pystr)
        m (data1 data2 data3 : list N) (w1 : World) (res : response) :
  os_path_exists img1_path (world m) = true ->
  os_path_exists img2_path (world m) = true ->
  read_binary img1_path (world m) = inr data1 ->
  read_binary img2_path (world m) = inr data2 ->
  read_binary diff_path (world m) = inr data3 ->
  requests_post (completion_request OPENAI_API_KEY data1 data2 data3)
                (world m) = (w1, inr res) ->
  status_code res <> 200%N ->
  compare_images img1_path img2_path diff_path m
  = (inl (RuntimeError (py "OpenAI API error: "
                        ++ str_of_N (status_code res)
                        ++ py " - " ++ text res)),
     {| world := w1; stdout := stdout m ++ [GettingQuestions];
        opened := opened m ++ [img1_path; img2_path; diff_path];
        posted := posted m
                  ++ [completion_request OPENAI_API_KEY data1 data2 data3];
        executed := executed m;
        difference_counter := difference_counter m |}).
Proof.
  intros X1 X2 R1 R2 R3 P S.
  rewrite (compare_images_steps _ _ _ m X1 X2 R1 R2 R3 P).
  apply N.eqb_neq in S. rewrite S. cbn [negb].
  apply bind_raised. reflexivity.
Qed.

(** The driver prints no diagnostic for failures of the interpreter:
    when the three default files are there, the reply has status 200
    with a completion text and the images load, the driver ends
    without its error report, whatever the interpreter does. *)
Theorem driver_silent_on_engine_failures m
        (data1 data2 data3 : list N) (w1 w2 : World) (res : response)
        (content : pystr) :
  os_path_exists (py "assets/hard1.png") (world m) = true ->
  os_path_exists (py "assets/hard2.png") (world m) = true ->
  read_binary (py "assets/hard1.png") (world m) = inr data1 ->
  read_binary (py "assets/hard2.png") (world m) = inr data2 ->
  read_binary (py "assets/difference_heatmap.png") (world m) = inr data3 ->
  requests_post (completion_request OPENAI_API_KEY data1 data2 data3)
                (world m) = (w1, inr res) ->
  status_code res = 200%N ->
  message_content res = inr content ->
  visprog_setup (py "assets/hard1.png") (py "assets/hard2.png") w1
  = (w2, inr tt) ->
  fst (main m) = [].
Proof.
  intros X1 X2 R1 R2 R3 P S B V.
  destruct (extract_returns Json.loads content) as [qs Ex].
  destruct (compare_images_run _ _ _ m X1 X2 R1 R2 R3 P S B Ex V)
    as [mf [recs [E _]]].
  unfold main. rewrite E. reflexivity.
Qed.

(** When one of the two default scene images does not exist, the
    driver reports the [FileNotFoundError] of [compare_images] with
    its three-point checklist, and nothing else has happened: no file
    was opened, no request posted, nothing printed by
    [compare_images]. *)
Theorem driver_reports_missing_image m :
  os_path_exists (py "assets/hard1.png") (world m) = false
  \/ os_path_exists (py "assets/hard2.png") (world m) = false ->
  main m
  = ([ DriverError
         (FileNotFoundError (py " One or both image paths do not exist."));
       MakeSure; CheckApiKey; CheckImageFiles; CheckInternet ], m).
Proof.
  intros H.
  assert (E : compare_images (py "assets/hard1.png") (py "assets/hard2.png")
                             (py "assets/difference_heatmap.png") m
              = (inl (FileNotFoundError
                        (py " One or both image paths do not exist.")), m)).
  { unfold compare_images, bind, path_exists, raise.
    destruct H as [H|H]; rewrite H.
    - reflexivity.
    - rewrite andb_false_r. reflexivity. }
  unfold main. rewrite E. reflexivity.
Qed.

End OrchestrationRuns.

Lemma full_run_report_witness :
  fst (compare_images (C := Stub.collaborators Stub.all_files)
                      Stub.left_png Stub.right_png Stub.heatmap_png
                      (boot 0)) = inr tt
  /\ List.length
       (posted (snd (compare_images
                       (C := Stub.collaborators Stub.all_files)
                       Stub.left_png Stub.right_png Stub.heatmap_png
                       (boot 0)))) = 1.
Proof.
  destruct (full_run_report
              (C := Stub.collaborators Stub.all_files)
              Stub.left_png Stub.right_png Stub.heatmap_png (boot 0)
              (data1 := [137; 80; 78; 71]%N)
              (data2 := [137; 80; 78; 71; 0]%N)
              (data3 := [1; 2; 3]%N) (w1 := 1) (w2 := 1)
              (res := Stub.ok (pyq "['Is there a boat?', 'Is there a dog?']"))
              (qs := [PStr (py "Is there a boat?");
                      PStr (py "Is there a dog?")])
              eq_refl eq_refl eq_refl eq_refl eq_refl eq_refl eq_refl
              eq_refl eq_refl eq_refl) as [H1 [_ H3]].
  split; [exact H1|]. rewrite H3. reflexivity.
Defined.

Lemma transport_failure_ends_run_witness :
  fst (compare_images
         (C := Stub.collaborators
                 {| Stub.files := Stub.files Stub.all_files;
                    Stub.reply :=
                      {| status_code := 429;
                         text := py "Rate limit reached";
                         message_content := inr [] |};
                    Stub.engine := Stub.vqa |})
         Stub.left_png Stub.right_png Stub.heatmap_png (boot 0))
  = inl (RuntimeError (py "OpenAI API error: 429 - Rate limit reached")).
Proof.
  rewrite (transport_failure_ends_run
             (C := Stub.collaborators
                     {| Stub.files := Stub.files Stub.all_files;
                        Stub.reply :=
                          {| status_code := 429;
                             text := py "Rate limit reached";
                             message_content := inr [] |};
                        Stub.engine := Stub.vqa |})
             Stub.left_png Stub.right_png Stub.heatmap_png (boot 0)
             (data1 := [137; 80; 78; 71]%N)
             (data2 := [137; 80; 78; 71; 0]%N)
             (data3 := [1; 2; 3]%N) (w1 := 1)
             eq_refl eq_refl eq_refl eq_refl eq_refl eq_refl);
    [reflexivity | discriminate].
Defined.

(** The scripted engine fails on the ghost; the driver stays silent. *)
Lemma driver_silent_on_engine_failures_witness :
  fst (main
         (C := Stub.collaborators
                 {| Stub.files := Stub.files Stub.all_files;
                    Stub.reply := Stub.ok (pyq "['Is there a ghost?']");
                    Stub.engine := Stub.vqa |})
         (boot 0)) = [].
Proof.
  apply (driver_silent_on_engine_failures
           (C := Stub.collaborators
                   {| Stub.files := Stub.files Stub.all_files;
                      Stub.reply := Stub.ok (pyq "['Is there a ghost?']");
                      Stub.engine := Stub.vqa |})
           (boot 0)
           (data1 := [137; 80; 78; 71]%N)
           (data2 := [137; 80; 78; 71; 0]%N)
           (data3 := [1; 2; 3]%N) (w1 := 1) (w2 := 1)
           (res := Stub.ok (pyq "['Is there a ghost?']"))
           (content := pyq "['Is there a ghost?']"));
    reflexivity.
Defined.

Lemma driver_reports_missing_image_witness :
  main (C := Stub.collaborators Stub.no_right) (boot 0)
  = ([ DriverError
         (FileNotFoundError (py " One or both image paths do not exist."));
       MakeSure; CheckApiKey; CheckImageFiles; CheckInternet ], boot 0).
Proof.
  apply (driver_reports_missing_image
           (C := Stub.collaborators Stub.no_right) (boot 0)).
  right. reflexivity.
Defined.

Section LateFailure.

Context {World : Type} {C : Collaborators World}.

Implicit Types (m : machine World).

(** The images are decoded only after the questions were generated:
    when loading them raises (a file that exists but is no image),
    [compare_images] raises that exception after the request was
    posted, the diagnostics of the fallback chain were printed and the
    questions were listed, and the interpreter is not called. *)
Theorem late_image_failure (img1_path img2_path diff_path : pystr) m
        (data1 data2 data3 : list N) (w1 w2 : World) (res : response)
        (content : pystr) (qs : list pyval) (e : exn) :
  os_path_exists img1_path (world m) = true ->
  os_path_exists img2_path (world m) = true ->
  read_binary img1_path (world m) = inr data1 ->
  read_binary img2_path (world m) = inr data2 ->
  read_binary diff_path (world m) = inr data3 ->
  requests_post (completion_request OPENAI_API_KEY data1 data2 data3)
                (world m) = (w1, inr res) ->
  status_code res = 200%N ->
  message_content res = inr content ->
  extract content = inr qs ->
  visprog_setup img1_path img2_path w1 = (w2, inl e) ->
  compare_images img1_path img2_path diff_path m
  = (inl e,
     {| world := w2;
        stdout := stdout m
                  ++ [GettingQuestions; RawResponse content]
                  ++ extraction_prints Json.loads content
                  ++ QuestionsToTest :: listing 1 qs;
        opened := opened m ++ [img1_path; img2_path; diff_path];
        posted := posted m
                  ++ [completion_request OPENAI_API_KEY data1 data2 data3];
        executed := executed m;
        difference_counter := 0 |}).
Proof.
  intros X1 X2 R1 R2 R3 P S B Ex V.
  rewrite (compare_images_steps _ _ _ m X1 X2 R1 R2 R3 P).
  rewrite S. cbn [N.eqb Pos.eqb negb].
  erewrite bind_ok;
    [|unfold bind, lift, print, print_all; rewrite B, Ex; reflexivity].
  erewrite bind_ok; [|unfold print; reflexivity].
  erewrite bind_ok; [|apply listing_printed].
  cbn [world stdout opened posted executed difference_counter].
  unfold execute_visprog_comparison, bind, set_counter, setup, print.
  cbn [world stdout opened posted executed difference_counter].
  rewrite V. rewrite <- !app_assoc. reflexivity.
Qed.

End LateFailure.

Lemma late_image_failure_witness :
  fst (compare_images
         (C := {| OPENAI_API_KEY := py "sk-test";
                  os_path_exists := fun _ _ => true;
                  read_binary := fun _ _ => inr [71; 73; 70]%N;
                  requests_post := fun _ (w : nat) =>
                    (S w, inr (Stub.ok (pyq "['Is there a boat?']")));
                  visprog_setup := fun _ _ w =>
                    (w, inl (OtherException
                               (py "cannot identify image file")));
                  interpreter_execute := fun _ w => (w, inr (py "yes"));
                  str_other := fun _ => py "?" |})
         Stub.left_png Stub.right_png Stub.heatmap_png (boot 0))
  = inl (OtherException (py "cannot identify image file")).
Proof.
  rewrite (late_image_failure
             (C := {| OPENAI_API_KEY := py "sk-test";
                      os_path_exists := fun _ _ => true;
                      read_binary := fun _ _ => inr [71; 73; 70]%N;
                      requests_post := fun _ (w : nat) =>
                        (S w, inr (Stub.ok (pyq "['Is there a boat?']")));
                      visprog_setup := fun _ _ w =>
                        (w, inl (OtherException
                                   (py "cannot identify image file")));
                      interpreter_execute := fun _ w => (w, inr (py "yes"));
                      str_other := fun _ => py "?" |})
             Stub.left_png Stub.right_png Stub.heatmap_png (boot 0)
             (data1 := [71; 73; 70]%N) (data2 := [71; 73; 70]%N)
             (data3 := [71; 73; 70]%N) (w1 := 1) (w2 := 1)
             (res := Stub.ok (pyq "['Is there a boat?']"))
             (qs := [PStr (py "Is there a boat?")])
             (e := OtherException (py "cannot identify image file"))
             eq_refl eq_refl eq_refl eq_refl eq_refl eq_refl eq_refl
             eq_refl eq_refl eq_refl).
  reflexivity.
Defined.

Lemma differ_equivalence_witness :
  differ (py "Yes") (py "YES") = false.
Proof.
  apply (proj2 (proj2 (differ_equivalence
                         (py "Yes") (py " yes ") (py "YES"))));
    reflexivity.
Defined.

Lemma programs_distinct_witness :
  program (C := Stub.collaborators Stub.all_files) "LEFT"
          (PStr (py "Is there a boat?"))
  <> program (C := Stub.collaborators Stub.all_files) "RIGHT"
             (PStr (py "Is there a boat?"))
  /\ format_value (C := Stub.collaborators Stub.all_files)
                  (PStr (py "Is there a boat?"))
     = format_value (C := Stub.collaborators Stub.all_files)
                    (PStr (py "Is there a boat?")).
Proof.
  split.
  - apply (proj1 (programs_distinct
                    (C := Stub.collaborators Stub.all_files))).
  - apply (proj1 (proj2 (programs_distinct
                           (C := Stub.collaborators Stub.all_files)))
                 "LEFT"%string).
    reflexivity.
Defined.
